(** * support-end-notifier: a model of [support-end-notifier.py]

    The program warns about the end of support of the operating system.
    It reads the SUPPORT_END date, and either writes a systemd timer with
    the warning times (generator mode), shows a desktop notification
    (--notify), or prints the date (no arguments).

    A Python [str] is modelled by its UTF-8 bytes.  A naive [datetime] is
    the number of microseconds since 0001-01-01T00:00:00 of the proleptic
    Gregorian calendar, a [timedelta] a signed number of microseconds; the
    calendar fields are computed the way CPython's [datetime] module
    computes them.  The program is modelled from the namespace that
    [argparse] returns up to the point where [main] returns, exits or
    enters the GLib main loop; the callback that starts gnome-software
    runs inside that loop and is not part of the model. *)

From Stdlib Require Import ZArith NArith Lia Bool List Sorted Ascii String.
From Stdlib Require Import Decimal DecimalString DecimalZ DecimalPos.
From stdpp Require Import base option list strings gmap.

Local Open Scope Z_scope.

(** ** Python text formatting *)

Module PyFormat.

(** [str(n)] and [%d] on an integer. *)
Definition str_int (n : Z) : string := NilZero.string_of_int (Z.to_int n).

Fixpoint zeros (k : nat) : string :=
  match k with
  | O => EmptyString
  | S k' => String "0"%char (zeros k')
  end.

(** [%0<width>d] on a non-negative integer: left-padded with zeros. *)
Definition pad0 (width : nat) (n : Z) : string :=
  let s := str_int n in
  zeros (width - String.length s) +:+ s.

(** The newline that [print] appends. *)
Definition NL : ascii := "010"%char.

Definition line (s : string) : string := s +:+ String NL EmptyString.

Fixpoint has_char (c : ascii) (s : string) : bool :=
  match s with
  | EmptyString => false
  | String a s' => Ascii.eqb a c || has_char c s'
  end.

(** [s.startswith(p)] *)
Fixpoint startswith (p s : string) : bool :=
  match p with
  | EmptyString => true
  | String a p' =>
      match s with
      | EmptyString => false
      | String b s' => Ascii.eqb a b && startswith p' s'
      end
  end.

(** A text file read back as its lines (every line ends in a newline);
    [cur] is the line read so far. *)
Fixpoint split_lines_aux (cur : string) (s : string) : list string :=
  match s with
  | EmptyString =>
      match cur with EmptyString => [] | _ => [cur] end
  | String a s' =>
      if Ascii.eqb a NL then cur :: split_lines_aux EmptyString s'
      else split_lines_aux (cur +:+ String a EmptyString) s'
  end.

Definition split_lines (s : string) : list string :=
  split_lines_aux EmptyString s.

Fixpoint concat_lines (ls : list string) : string :=
  match ls with
  | [] => EmptyString
  | l :: ls' => line l +:+ concat_lines ls'
  end.

End PyFormat.
Import PyFormat.

(** ** The proleptic Gregorian calendar of [datetime] *)

Module Calendar.

Definition DAYS_IN_MONTH : list Z :=
  [-1; 31; 28; 31; 30; 31; 30; 31; 31; 30; 31; 30; 31].

Definition DAYS_BEFORE_MONTH : list Z :=
  [-1; 0; 31; 59; 90; 120; 151; 181; 212; 243; 273; 304; 334].

Definition index (l : list Z) (i : Z) : Z := nth (Z.to_nat i) l (-1).

Definition b2z (b : bool) : Z := if b then 1 else 0.

Definition is_leap (year : Z) : bool :=
  (year mod 4 =? 0) && (negb (year mod 100 =? 0) || (year mod 400 =? 0)).

Definition days_before_year (year : Z) : Z :=
  let y := year - 1 in
  y * 365 + y / 4 - y / 100 + y / 400.

Definition days_in_month (year month : Z) : Z :=
  if (month =? 2) && is_leap year then 29 else index DAYS_IN_MONTH month.

Definition days_before_month (year month : Z) : Z :=
  index DAYS_BEFORE_MONTH month + b2z ((month >? 2) && is_leap year).

Definition ymd2ord (year month day : Z) : Z :=
  days_before_year year + days_before_month year month + day.

Definition DI400Y : Z := Eval cbv in days_before_year 401.
Definition DI100Y : Z := Eval cbv in days_before_year 101.
Definition DI4Y : Z := Eval cbv in days_before_year 5.

Definition MINYEAR : Z := 1.
Definition MAXYEAR : Z := 9999.
Definition MAXORDINAL : Z := 3652059.

Definition ord2ymd (n : Z) : Z * Z * Z :=
  let n := n - 1 in
  let n400 := n / DI400Y in
  let n := n mod DI400Y in
  let year := n400 * 400 + 1 in
  let n100 := n / DI100Y in
  let n := n mod DI100Y in
  let n4 := n / DI4Y in
  let n := n mod DI4Y in
  let n1 := n / 365 in
  let n := n mod 365 in
  let year := year + (n100 * 100 + n4 * 4 + n1) in
  if (n1 =? 4) || (n100 =? 4) then (year - 1, 12, 31)
  else
    let leapyear := (n1 =? 3) && (negb (n4 =? 24) || (n100 =? 3)) in
    let month := Z.shiftr (n + 50) 5 in
    let preceding :=
      index DAYS_BEFORE_MONTH month + b2z ((month >? 2) && leapyear) in
    if preceding >? n then
      let month := month - 1 in
      let preceding :=
        preceding - (index DAYS_IN_MONTH month + b2z ((month =? 2) && leapyear)) in
      (year, month, n - preceding + 1)
    else (year, month, n - preceding + 1).

(** [_check_date_fields]: the test that [datetime(year, month, day)] makes. *)
Definition check_date_fields (year month day : Z) : bool :=
  (MINYEAR <=? year) && (year <=? MAXYEAR)
  && (1 <=? month) && (month <=? 12)
  && (1 <=? day) && (day <=? days_in_month year month).

End Calendar.
Import Calendar.

(** ** [datetime] and [timedelta] *)

Module DateTime.

Definition US_PER_SECOND : Z := 1000000.
Definition US_PER_MINUTE : Z := 60 * US_PER_SECOND.
Definition US_PER_HOUR : Z := 3600 * US_PER_SECOND.
Definition US_PER_DAY : Z := 86400 * US_PER_SECOND.

(** [datetime.max] is 9999-12-31T23:59:59.999999. *)
Definition DATETIME_MAX : Z := MAXORDINAL * US_PER_DAY - 1.

Definition valid_datetime (t : Z) : Prop := 0 <= t <= DATETIME_MAX.

Definition in_range (t : Z) : bool := (0 <=? t) && (t <=? DATETIME_MAX).

(** [datetime(year, month, day)]: midnight of a checked date. *)
Definition datetime_of_date (year month day : Z) : Z :=
  (ymd2ord year month day - 1) * US_PER_DAY.

Definition toordinal (t : Z) : Z := t / US_PER_DAY + 1.
Definition time_of_day (t : Z) : Z := t mod US_PER_DAY.

Definition year (t : Z) : Z := fst (fst (ord2ymd (toordinal t))).
Definition month (t : Z) : Z := snd (fst (ord2ymd (toordinal t))).
Definition day (t : Z) : Z := snd (ord2ymd (toordinal t)).
Definition hour (t : Z) : Z := time_of_day t / US_PER_HOUR.
Definition minute (t : Z) : Z := (time_of_day t / US_PER_MINUTE) mod 60.
Definition second (t : Z) : Z := (time_of_day t / US_PER_SECOND) mod 60.
Definition microsecond (t : Z) : Z := time_of_day t mod US_PER_SECOND.

(** [timedelta(days=n)] *)
Definition timedelta_days (n : Z) : Z := n * US_PER_DAY.

(** The normalised fields of a [timedelta]: [days] is a floor division,
    [seconds] and [microseconds] are never negative. *)
Definition td_days (d : Z) : Z := d / US_PER_DAY.
Definition td_seconds (d : Z) : Z := (d mod US_PER_DAY) / US_PER_SECOND.
Definition td_microseconds (d : Z) : Z := d mod US_PER_SECOND.

(** [_format_time] with [timespec='auto']. *)
Definition format_time (hh mm ss us : Z) : string :=
  let hms := pad0 2 hh +:+ ":" +:+ pad0 2 mm +:+ ":" +:+ pad0 2 ss in
  if us =? 0 then hms else hms +:+ "." +:+ pad0 6 us.

(** [%04d-%02d-%02d], the text YYYY-MM-DD of a date. *)
Definition iso_date (y m d : Z) : string :=
  pad0 4 y +:+ "-" +:+ pad0 2 m +:+ "-" +:+ pad0 2 d.

Definition format_date (t : Z) : string :=
  iso_date (year t) (month t) (day t).

(** [datetime.isoformat(sep)] of a naive datetime. *)
Definition isoformat_sep (sep : string) (t : Z) : string :=
  format_date t +:+ sep
  +:+ format_time (hour t) (minute t) (second t) (microsecond t).

Definition isoformat (t : Z) : string := isoformat_sep "T" t.

(** [str(datetime)] *)
Definition str_datetime (t : Z) : string := isoformat_sep " " t.

(** [str(timedelta)] *)
Definition str_timedelta (d : Z) : string :=
  let mm := td_seconds d / 60 in
  let ss := td_seconds d mod 60 in
  let hh := mm / 60 in
  let mm := mm mod 60 in
  let s := str_int hh +:+ ":" +:+ pad0 2 mm +:+ ":" +:+ pad0 2 ss in
  let s :=
    if td_days d =? 0 then s
    else str_int (td_days d) +:+ " day"
         +:+ (if Z.abs (td_days d) =? 1 then "" else "s") +:+ ", " +:+ s in
  if td_microseconds d =? 0 then s
  else s +:+ "." +:+ pad0 6 (td_microseconds d).

End DateTime.
Import DateTime.

(** ** Exceptions *)

(** The exceptions the program can meet; all of them are subclasses of
    Python's [Exception]. *)
Inductive exception : Type :=
| KeyError (key : string)
| ValueError
| UnicodeDecodeError        (* a subclass of ValueError *)
| OSError                   (* OSError or one of its subclasses *)
| OverflowError.

Inductive result (A : Type) : Type :=
| Ok (a : A)
| Raise (e : exception).
Arguments Ok {A} a.
Arguments Raise {A} e.

Definition result_bind {A B} (r : result A) (k : A -> result B) : result B :=
  match r with
  | Ok a => k a
  | Raise e => Raise e
  end.

Notation "'let*' x := r 'in' k" := (result_bind r (fun x => k))
  (at level 10, x name, r at level 100, k at level 200).

(** [datetime - timedelta]: the result must stay within
    [datetime.min .. datetime.max]. *)
Definition datetime_sub_timedelta (t d : Z) : result Z :=
  let r := t - d in
  if in_range r then Ok r else Raise OverflowError.

(** ** [datetime.strptime(val, '%Y-%m-%d')]

    The format compiles to the regular expression
    [(?P<Y>\d\d\d\d)-(?P<m>1[0-2]|0[1-9]|[1-9])-(?P<d>3[0-1]|[1-2]\d|0[1-9]|[1-9]| [1-9])],
    matched at the start of the string; what is matched must be the whole
    string and the three numbers must form a date.  Alternatives are tried
    in order, each with the rest of the expression as its continuation.
    On a [str] pattern [\d] takes the decimal digits of every script, and
    [int] reads them by their decimal value; the classes written with a
    range take the ASCII digits only. *)

Module Strptime.

Definition between (lo hi c : ascii) : bool :=
  (N_of_ascii lo <=? N_of_ascii c)%N && (N_of_ascii c <=? N_of_ascii hi)%N.

Definition is_digit (c : ascii) : bool := between "0" "9" c.

Definition digit (c : ascii) : Z := Z.of_N (N_of_ascii c) - 48.

Definition byte (c : ascii) : Z := Z.of_N (N_of_ascii c).

(** The payload of a continuation byte of UTF-8. *)
Definition trail (c : ascii) : option Z :=
  let b := byte c in
  if (128 <=? b) && (b <=? 191) then Some (b - 128) else None.

(** The first character of a string: its code point and the rest of the
    string.  Bytes that are not the shortest UTF-8 form of a code point
    are no character the patterns below could take. *)
Definition decode (s : string) : option (Z * string) :=
  match s with
  | EmptyString => None
  | String a s1 =>
      let b := byte a in
      if b <? 128 then Some (b, s1)
      else if (194 <=? b) && (b <? 224) then
        match s1 with
        | String c1 s2 =>
            match trail c1 with
            | Some x1 => Some ((b - 192) * 64 + x1, s2)
            | None => None
            end
        | _ => None
        end
      else if (224 <=? b) && (b <? 240) then
        match s1 with
        | String c1 (String c2 s3) =>
            match trail c1, trail c2 with
            | Some x1, Some x2 =>
                let cp := ((b - 224) * 64 + x1) * 64 + x2 in
                if 2048 <=? cp then Some (cp, s3) else None
            | _, _ => None
            end
        | _ => None
        end
      else if (240 <=? b) && (b <? 245) then
        match s1 with
        | String c1 (String c2 (String c3 s4)) =>
            match trail c1, trail c2, trail c3 with
            | Some x1, Some x2, Some x3 =>
                let cp := (((b - 240) * 64 + x1) * 64 + x2) * 64 + x3 in
                if (65536 <=? cp) && (cp <=? 1114111) then Some (cp, s4)
                else None
            | _, _, _ => None
            end
        | _ => None
        end
      else None
  end.

(** The decimal digits (category Nd) of Unicode 14.0, the database of
    CPython 3.11: each entry is the code point of a digit zero, followed
    by the digits one to nine of its script. *)
Definition DECIMAL_ZEROS : list Z :=
  [48; 1632; 1776; 1984; 2406; 2534; 2662; 2790; 2918; 3046; 3174; 3302;
   3430; 3558; 3664; 3792; 3872; 4160; 4240; 6112; 6160; 6470; 6608;
   6784; 6800; 6992; 7088; 7232; 7248; 42528; 43216; 43264; 43472; 43504;
   43600; 44016; 65296; 66720; 68912; 69734; 69872; 69942; 70096; 70384;
   70736; 70864; 71248; 71360; 71472; 71904; 72016; 72784; 73040; 73120;
   92768; 92864; 93008; 120782; 120792; 120802; 120812; 120822; 123200;
   123632; 125264; 130032].

(** The decimal value of a code point, if it is a decimal digit. *)
Definition decimal (cp : Z) : option Z :=
  match find (fun z => (z <=? cp) && (cp <=? z + 9)) DECIMAL_ZEROS with
  | Some z => Some (cp - z)
  | None => None
  end.

Definition orelse {R} (x y : option R) : option R :=
  match x with
  | Some r => Some r
  | None => y
  end.

Definition re_char {R} (c : ascii) (s : string) (k : string -> option R)
  : option R :=
  match s with
  | String a rest => if Ascii.eqb a c then k rest else None
  | EmptyString => None
  end.

(** [[lo-hi]], the value of the digit passed on. *)
Definition re_one {R} (lo hi : ascii) (s : string)
  (k : Z -> string -> option R) : option R :=
  match s with
  | String a rest => if between lo hi a then k (digit a) rest else None
  | EmptyString => None
  end.

(** [[lo1-hi1][lo2-hi2]], the value of the two digits passed on. *)
Definition re_two {R} (lo1 hi1 lo2 hi2 : ascii) (s : string)
  (k : Z -> string -> option R) : option R :=
  re_one lo1 hi1 s (fun a rest =>
  re_one lo2 hi2 rest (fun b rest' => k (10 * a + b) rest')).

(** [\d], the value of the digit passed on. *)
Definition re_digit {R} (s : string) (k : Z -> string -> option R)
  : option R :=
  match decode s with
  | Some (cp, rest) =>
      match decimal cp with
      | Some q => k q rest
      | None => None
      end
  | None => None
  end.

(** [\d\d\d\d] *)
Definition re_Y {R} (s : string) (k : Z -> string -> option R) : option R :=
  re_digit s (fun a s1 =>
  re_digit s1 (fun b s2 =>
  re_digit s2 (fun c s3 =>
  re_digit s3 (fun d s4 => k (1000 * a + 100 * b + 10 * c + d) s4)))).

(** [1[0-2]|0[1-9]|[1-9]] *)
Definition re_m {R} (s : string) (k : Z -> string -> option R) : option R :=
  orelse (re_two "1" "1" "0" "2" s k)
 (orelse (re_two "0" "0" "1" "9" s k)
         (re_one "1" "9" s k)).

(** [3[0-1]|[1-2]\d|0[1-9]|[1-9]| [1-9]]; [int] skips the blank of the last
    alternative. *)
Definition re_d {R} (s : string) (k : Z -> string -> option R) : option R :=
  orelse (re_two "3" "3" "0" "1" s k)
 (orelse (re_one "1" "2" s (fun a rest =>
          re_digit rest (fun b rest' => k (10 * a + b) rest')))
 (orelse (re_two "0" "0" "1" "9" s k)
 (orelse (re_one "1" "9" s k)
         (re_char " " s (fun rest => re_one "1" "9" rest k))))).

(** The match object: the three groups and the unmatched rest. *)
Definition regex_match (s : string) : option (Z * Z * Z * string) :=
  re_Y s (fun y s1 =>
  re_char "-" s1 (fun s2 =>
  re_m s2 (fun m s3 =>
  re_char "-" s3 (fun s4 =>
  re_d s4 (fun d rest => Some (y, m, d, rest)))))).

Definition strptime (data_string : string) : result Z :=
  match regex_match data_string with
  | None => Raise ValueError            (* does not match format *)
  | Some (y, m, d, rest) =>
      match rest with
      | String _ _ => Raise ValueError  (* unconverted data remains *)
      | EmptyString =>
          if check_date_fields y m d then Ok (datetime_of_date y m d)
          else Raise ValueError         (* out of range *)
      end
  end.

End Strptime.
Import Strptime.

(** ** The deadline: [support_end] *)

Definition SUPPORT_END : string := "SUPPORT_END".

(** [os.getenv] *)
Definition getenv (environ : gmap string string) (key : string)
  : option string := environ !! key.

(** The os-release file as [platform.freedesktop_os_release] finds it:
    no file that can be read, a file that is not UTF-8 text, or a file
    with its fields. *)
Inductive os_release_file : Type :=
| Unreadable
| Undecodable
| Release (fields : gmap string string).

(** [platform.freedesktop_os_release()]: the os-release file as a
    dictionary; [OSError] when no file can be read, [UnicodeDecodeError]
    when the file is not UTF-8. *)
Definition freedesktop_os_release (os_release : os_release_file)
  : result (gmap string string) :=
  match os_release with
  | Release d => Ok d
  | Undecodable => Raise UnicodeDecodeError
  | Unreadable => Raise OSError
  end.

(** [d[key]] *)
Definition getitem (d : gmap string string) (key : string) : result string :=
  match d !! key with
  | Some v => Ok v
  | None => Raise (KeyError key)
  end.

(** Lines 51-54: the string that is handed to [strptime]. *)
Definition support_end_val (environ : gmap string string)
  (os_release : os_release_file) : result string :=
  match getenv environ SUPPORT_END with
  | Some (String a s) => Ok (String a s)
  | Some EmptyString | None =>       (* not val *)
      let* d := freedesktop_os_release os_release in
      getitem d SUPPORT_END
  end.

Definition support_end (environ : gmap string string)
  (os_release : os_release_file) : result Z :=
  let* val := support_end_val environ os_release in
  strptime val.

(** ** The world the program runs in *)

(** A desktop notification as [show_message] builds it. *)
Record Notification : Type := {
  summary : string;
  body : string;
  icon : string;
  actions : list (string * string)
}.

(** [wall w n] is the local wall-clock time of the [n]-th clock sample,
    counted by the POSIX clock in microseconds since 1970-01-01T00:00:00,
    and [ticks w] the number of samples taken so far.  [stdout] and
    [stderr] hold the lines the program printed.  [can_open w path] tells
    whether [path] can be opened for writing (its directory exists and
    may be written to, the path is no directory, ...), [can_write w path]
    whether the file then takes what is written to it (there is space
    left, ...); [opened] lists the paths opened so far, and [files] holds,
    for a path as the program spells it, the text written through it.
    [notifications] is what was shown on the desktop. *)
Record World : Type := {
  ticks : nat;
  wall : nat -> N;
  stdout : list string;
  stderr : list string;
  can_open : string -> bool;
  can_write : string -> bool;
  opened : list string;
  files : gmap string string;
  notifications : list Notification
}.

Definition tick (w : World) : World :=
  {| ticks := S (ticks w); wall := wall w; stdout := stdout w;
     stderr := stderr w; can_open := can_open w; can_write := can_write w;
     opened := opened w;
     files := files w; notifications := notifications w |}.

(** [print(s)] *)
Definition print (s : string) (w : World) : World :=
  {| ticks := ticks w; wall := wall w; stdout := stdout w ++ [s];
     stderr := stderr w; can_open := can_open w; can_write := can_write w;
     opened := opened w;
     files := files w; notifications := notifications w |}.

Definition eprint (s : string) (w : World) : World :=
  {| ticks := ticks w; wall := wall w; stdout := stdout w;
     stderr := stderr w ++ [s]; can_open := can_open w;
     can_write := can_write w; opened := opened w;
     files := files w; notifications := notifications w |}.

Definition set_files (f : gmap string string) (w : World) : World :=
  {| ticks := ticks w; wall := wall w; stdout := stdout w;
     stderr := stderr w; can_open := can_open w; can_write := can_write w;
     opened := opened w;
     files := f; notifications := notifications w |}.

(** The file at [path] opened and truncated. *)
Definition truncate (path : string) (w : World) : World :=
  {| ticks := ticks w; wall := wall w; stdout := stdout w;
     stderr := stderr w; can_open := can_open w; can_write := can_write w;
     opened := opened w ++ [path];
     files := <[path := EmptyString]> (files w);
     notifications := notifications w |}.

(** [path.open('wt')]: the file is created or truncated; [OSError]
    ([FileNotFoundError], [PermissionError], ...) when it cannot be
    opened. *)
Definition open_wt (path : string) (w : World) : result unit * World :=
  if can_open w path then (Ok tt, truncate path w) else (Raise OSError, w).

(** [out.close()]: what was written reaches the file; [OSError] when the
    file does not take it, and the file is left as it was opened, empty.
    (The texts written here are shorter than the buffer of the file
    object, so nothing is written before the file is closed.) *)
Definition close_wt (path : string) (w : World) : result unit * World :=
  if can_write w path then (Ok tt, w)
  else (Raise OSError, set_files (<[path := EmptyString]> (files w)) w).

(** [with path.open('wt') as out: body]: the file is closed when the block
    is left, be it by an exception. *)
Definition with_open_wt (path : string)
  (body : World -> option (result unit * World)) (w : World)
  : option (result unit * World) :=
  match open_wt path w with
  | (Raise e, w1) => Some (Raise e, w1)
  | (Ok _, w1) =>
      match body w1 with
      | Some (r, w2) =>
          match close_wt path w2 with
          | (Raise e, w3) => Some (Raise e, w3)
          | (Ok _, w3) => Some (r, w3)
          end
      | None => None
      end
  end.

(** [print(s, file=out)] appends a line to the open file. *)
Definition fprint (path : string) (s : string) (w : World) : World :=
  set_files (<[path := default EmptyString (files w !! path) +:+ line s]>
               (files w)) w.

Definition notify_show (n : Notification) (w : World) : World :=
  {| ticks := ticks w; wall := wall w; stdout := stdout w;
     stderr := stderr w; can_open := can_open w; can_write := can_write w;
     opened := opened w;
     files := files w; notifications := notifications w ++ [n] |}.

(** 1970-01-01T00:00:00 as a [datetime]. *)
Definition EPOCH : Z := (719163 - 1) * US_PER_DAY.

Definition clock_at (w : World) (n : nat) : Z := EPOCH + Z.of_N (wall w n).

(** [datetime.datetime.today()]: one sample of the clock; a time after
    [datetime.max] cannot be represented. *)
Definition today (w : World) : result Z * World :=
  let t := clock_at w (ticks w) in
  (if t <=? DATETIME_MAX then Ok t else Raise ValueError, tick w).

(** ** The generator *)

Definition WARN_DAYS : list Z := [30; 20; 10; 6; 5; 4; 3; 2; 1].

Definition now (w : World) : result Z * World := today w.

(** A generator object of [generate_times]: created and not yet started,
    suspended at one of the two [yield]s, or finished.  [rest] are the
    entries of WARN_DAYS the loop has not visited yet. *)
Inductive generator : Type :=
| GenCreated (enddate : Z)
| GenActive
| GenCalendar (enddate : Z) (rest : list Z)
| GenFinished.

Definition generate_times (enddate : Z) : generator := GenCreated enddate.

Inductive item : Type :=
| Yield (spec : string)
| StopIteration.

(** The two directives a generator yields. *)
Definition ON_ACTIVE_60 : string := "OnActiveSec=60".

Definition on_calendar (time : Z) : string := "OnCalendar=" +:+ isoformat time.

(** The [for days in WARN_DAYS] loop, run to its next [yield]. *)
Definition resume_loop (enddate : Z) (rest : list Z)
  : result item * generator :=
  match rest with
  | [] => (Ok StopIteration, GenFinished)
  | days :: rest' =>
      match datetime_sub_timedelta enddate (timedelta_days days) with
      | Ok time =>
          (Ok (Yield (on_calendar time)), GenCalendar enddate rest')
      | Raise e => (Raise e, GenFinished)
      end
  end.

(** [next(g)]: run the body of [generate_times] to its next [yield]. *)
Definition next (g : generator) (w : World)
  : result item * generator * World :=
  match g with
  | GenCreated enddate =>
      let '(r, w1) := now w in
      match r with
      | Raise e => (Raise e, GenFinished, w1)
      | Ok t =>
          if enddate - t <? timedelta_days 1
          then (Ok (Yield ON_ACTIVE_60), GenActive, w1)
          else (resume_loop enddate WARN_DAYS, w1)
      end
  | GenActive => (Ok StopIteration, GenFinished, w)
  | GenCalendar enddate rest => (resume_loop enddate rest, w)
  | GenFinished => (Ok StopIteration, GenFinished, w)
  end.

(** A bound on the number of [next] calls that exhaust a generator. *)
Definition gen_bound (g : generator) : nat :=
  match g with
  | GenCreated _ => S (S (length WARN_DAYS))
  | GenActive => 1
  | GenCalendar _ rest => S (length rest)
  | GenFinished => 1
  end.

(** [list(g)]: the elements a generator yields until it stops; [None] when
    [fuel] calls of [next] do not exhaust it. *)
Fixpoint collect (fuel : nat) (g : generator) (w : World)
  : option (result (list string) * generator * World) :=
  match fuel with
  | O => None
  | S fuel' =>
      match next g w with
      | (Raise e, g', w') => Some (Raise e, g', w')
      | (Ok StopIteration, g', w') => Some (Ok [], g', w')
      | (Ok (Yield spec), g', w') =>
          match collect fuel' g' w' with
          | Some (Ok l, g'', w'') => Some (Ok (spec :: l), g'', w'')
          | other => other
          end
      end
  end.

Definition list_of (g : generator) (w : World)
  : option (result (list string) * generator * World) :=
  collect (gen_bound g) g w.

(** ** Paths *)

(** A [pathlib.PosixPath]: its root (empty, [/] or [//]) and the names
    after the root. *)
Record Path : Type := {
  root : string;
  names : list string
}.

(** [s.split('/')]; [cur] is the part read so far. *)
Fixpoint split_slash (cur : string) (s : string) : list string :=
  match s with
  | EmptyString => [cur]
  | String a s' =>
      if Ascii.eqb a "/" then cur :: split_slash EmptyString s'
      else split_slash (cur +:+ String a EmptyString) s'
  end.

(** [pathlib.Path(arg)], the conversion [argparse] applies to a
    positional argument: two slashes at the start, and not more, are a
    root of their own; empty names and [.] are dropped. *)
Definition PosixPath (arg : string) : Path :=
  {| root :=
       if startswith "//" arg && negb (startswith "///" arg) then "//"
       else if startswith "/" arg then "/"
       else EmptyString;
     names :=
       filter (fun x => negb (String.eqb x EmptyString)
                        && negb (String.eqb x "."))
         (split_slash EmptyString arg) |}.

Fixpoint join_names (l : list string) : string :=
  match l with
  | [] => EmptyString
  | [a] => a
  | a :: l' => a +:+ "/" +:+ join_names l'
  end.

(** [str(path)] *)
Definition str_path (p : Path) : string :=
  match root p, names p with
  | EmptyString, [] => "."
  | r, l => r +:+ join_names l
  end.

(** [path / name], for a name without a slash that is neither empty nor
    [.]. *)
Definition joinpath (p : Path) (name : string) : Path :=
  {| root := root p; names := names p ++ [name] |}.

(** The body of the [for spec in ...] loop of [generate_units]. *)
Definition emit (timer : string) (w : World) (spec : string) : World :=
  let w1 := print ("Got spec: " +:+ spec) w in
  fprint timer spec w1.

(** The [for spec in generate_times(enddate)] loop of [generate_units]. *)
Fixpoint write_specs (fuel : nat) (g : generator) (timer : string)
  (w : World) : option (result unit * World) :=
  match fuel with
  | O => None
  | S fuel' =>
      match next g w with
      | (Raise e, _, w') => Some (Raise e, w')
      | (Ok StopIteration, _, w') => Some (Ok tt, w')
      | (Ok (Yield spec), g', w') =>
          write_specs fuel' g' timer (emit timer w' spec)
      end
  end.

(** ** The notifier *)

(** [show_message(title, message)]: the notification is shown and the
    GLib main loop is entered; the call does not return. *)
Definition show_message (title : string) (message : option string)
  (w : World) : World :=
  let text :=
    match message with
    | Some (String a s) => String a s
    | Some EmptyString | None => title       (* message or title *)
    end in
  notify_show {| summary := title; body := text; icon := "dialog-warning";
                 actions := [("clicked", "Start upgrade")] |} w.

(** How a run of the program ends. *)
Inductive outcome : Type :=
| Returned                      (* main returns: exit status 0 *)
| Traceback (e : exception)     (* uncaught exception: exit status 1 *)
| Exited (status : Z)           (* exit() *)
| MainLoop.                     (* waiting in the GLib main loop *)

Definition exit_status (o : outcome) : option Z :=
  match o with
  | Returned => Some 0
  | Traceback _ => Some 1
  | Exited s => Some s
  | MainLoop => None
  end.

Definition ENDED : string := "Support for this OS has ended".

Definition ends_in (days : Z) : string :=
  "Support for this OS ends in " +:+ str_int days +:+ " days".

Definition do_notify (enddate : Z) (w : World) : outcome * World :=
  let '(r, w1) := today w in
  match r with
  | Raise e => (Traceback e, w1)
  | Ok now =>
      if now >? enddate then (MainLoop, show_message ENDED None w1)
      else
        let left := enddate - now in
        (MainLoop, show_message (ends_in (td_days left)) None w1)
  end.

(** ** main *)

(** The namespace [argparse] returns. *)
Record Namespace : Type := {
  normal_dir : option Path;
  early_dir : option Path;
  late_dir : option Path;
  notify : bool
}.

(** A [pathlib.Path] is true whenever the argument was given. *)
Definition given (dir : option Path) : bool :=
  match dir with
  | Some _ => true
  | None => false
  end.

Section Program.

(** [__file__], the path of the script. *)
Variable script_file : string.

(** [repr] on an exception object. *)
Variable repr_exception : exception -> string.

Definition generate_units (enddate : Z) (dir : Path) (w : World)
  : option (result unit * World) :=
  let '(r, w0) := today w in
  match r with
  | Raise e => Some (Raise e, w0)
  | Ok _ =>
      let service := str_path (joinpath dir "support-end.service") in
      match
        with_open_wt service
          (fun out =>
             let w2 := fprint service "[Service]" out in
             Some (Ok tt, fprint service ("ExecStart=" +:+ script_file) w2))
          w0
      with
      | Some (Ok _, w3) =>
          let timer := str_path (joinpath dir "support-end.timer") in
          with_open_wt timer
            (fun out =>
               let w5 := fprint timer "[Timer]" out in
               let g := generate_times enddate in
               write_specs (gen_bound g) g timer w5)
            w3
      | other => other
      end
  end.

Definition USAGE : string := "No positional args are allowed with --notify".

Definition main (args : Namespace) (environ : gmap string string)
  (os_release : os_release_file) (w : World)
  : option (outcome * World) :=
  (* try: enddate = support_end() / except Exception as e: enddate = None *)
  let resolved := support_end environ os_release in
  if negb (notify args) && negb (given (normal_dir args)) then
    (* Show status *)
    match resolved with
    | Ok enddate =>
        let w1 := print ("Found SUPPORT_END: " +:+ str_datetime enddate) w in
        let '(r, w2) := now w1 in
        match r with
        | Raise e => Some (Traceback e, w2)
        | Ok t =>
            Some (Returned,
                  print ("(" +:+ str_timedelta (enddate - t) +:+ " left)") w2)
        end
    | Raise e =>
        Some (Returned,
              print ("No SUPPORT_END found: " +:+ repr_exception e) w)
    end
  else if notify args && given (normal_dir args) then
    Some (Exited 1, eprint USAGE w)
  else
    match resolved with
    | Ok enddate =>
        if notify args then Some (do_notify enddate w)
        else
          match normal_dir args with
          | Some dir =>
              match generate_units enddate dir w with
              | Some (Ok _, w') => Some (Returned, w')
              | Some (Raise e, w') => Some (Traceback e, w')
              | None => None
              end
          | None => Some (Returned, w)   (* the first test took this case *)
          end
    | Raise _ => Some (Returned, w)
    end.

End Program.

(** ** Vocabulary of the specification *)

(** The times of the absolute triggers: the deadline minus each offset. *)
Definition trigger_times (enddate : Z) : list Z :=
  map (fun days => enddate - timedelta_days days) WARN_DAYS.

(** The two kinds of trigger, told apart by the key of the directive. *)
Definition is_relative (spec : string) : bool :=
  startswith "OnActiveSec=" spec.

Definition is_absolute (spec : string) : bool :=
  startswith "OnCalendar=" spec.

Definition one_line (spec : string) : bool := negb (has_char NL spec).

(** The value [support_end] works with: the override when it is set and
    not empty, the os-release field otherwise. *)
Definition os_release_field (os_release : os_release_file)
  : option string :=
  match os_release with
  | Release d => d !! SUPPORT_END
  | Undecodable | Unreadable => None
  end.

Definition present_value (environ : gmap string string)
  (os_release : os_release_file) : option string :=
  match environ !! SUPPORT_END with
  | Some (String a s) => Some (String a s)
  | _ => os_release_field os_release
  end.

(** The character of a decimal digit. *)
Definition digit_char (q : Z) : ascii := ascii_of_N (Z.to_N (48 + q)).

Definition four_digits (y : Z) : string :=
  String (digit_char (y / 1000))
 (String (digit_char (y / 100 mod 10))
 (String (digit_char (y / 10 mod 10))
 (String (digit_char (y mod 10)) EmptyString))).

(** [P] holds of 0, 1, ..., n-1. *)
Definition all_below (n : Z) (P : Z -> bool) : bool :=
  forallb P (map Z.of_nat (seq 0 (Z.to_nat n))).

Definition fails {A} (r : result A) : Prop :=
  match r with
  | Ok _ => False
  | Raise _ => True
  end.

(** A generator that can be enumerated again with the same elements. *)
Definition restartable (g : generator) (w : World) : Prop :=
  exists l g1 w1 g2 w2,
    list_of g w = Some (Ok l, g1, w1) /\ list_of g1 w1 = Some (Ok l, g2, w2).

(** ** Sample inputs *)

(** A fresh world whose clock shows [t] at every sample. *)
Definition world_at (t : Z) : World :=
  {| ticks := 0; wall := fun _ => Z.to_N (t - EPOCH); stdout := [];
     stderr := []; can_open := fun _ => true; can_write := fun _ => true;
     opened := []; files := ∅; notifications := [] |}.

(** The same world with a file system in which the paths that satisfy
    [open_ok] can be opened for writing, and those that satisfy
    [write_ok] written. *)
Definition with_files (open_ok write_ok : string -> bool) (w : World)
  : World :=
  {| ticks := ticks w; wall := wall w; stdout := stdout w;
     stderr := stderr w; can_open := open_ok; can_write := write_ok;
     opened := opened w; files := files w;
     notifications := notifications w |}.

Definition at_time (t : Z) (hh mm ss : Z) : Z :=
  t + hh * US_PER_HOUR + mm * US_PER_MINUTE + ss * US_PER_SECOND.

(** ** Vocabulary of the further properties *)

(** The month and the day of the [n]-th day of a year, counted from 0: the
    last step of [ord2ymd]. *)
Definition month_day (leapyear : bool) (n : Z) : Z * Z :=
  let month := Z.shiftr (n + 50) 5 in
  let preceding :=
    index DAYS_BEFORE_MONTH month + b2z ((month >? 2) && leapyear) in
  if preceding >? n then
    let month := month - 1 in
    let preceding :=
      preceding - (index DAYS_IN_MONTH month + b2z ((month =? 2) && leapyear)) in
    (month, n - preceding + 1)
  else (month, n - preceding + 1).

(** Days in a month and before a month, by the kind of year. *)
Definition month_length (leapyear : bool) (month : Z) : Z :=
  if (month =? 2) && leapyear then 29 else index DAYS_IN_MONTH month.

Definition month_start (leapyear : bool) (month : Z) : Z :=
  index DAYS_BEFORE_MONTH month + b2z ((month >? 2) && leapyear).

Definition month_day_ok (leapyear : bool) (n : Z) : bool :=
  let '(m, d) := month_day leapyear n in
  (1 <=? m) && (m <=? 12) && (1 <=? d) && (d <=? month_length leapyear m)
  && (month_start leapyear m + d =? n + 1).

Definition day_month_ok (leapyear : bool) (m d : Z) : bool :=
  negb ((1 <=? d) && (d <=? month_length leapyear m))
  || (let '(m', d') := month_day leapyear (month_start leapyear m + d - 1) in
      (m' =? m) && (d' =? d)).

(** The text of a directive for a date and the time of day of the
    deadline. *)
Definition directive (enddate : Z) (ymd : Z * Z * Z) : string :=
  let '(y, m, d) := ymd in
  "OnCalendar=" +:+ iso_date y m d +:+ "T"
  +:+ format_time (hour enddate) (minute enddate) (second enddate)
        (microsecond enddate).

Definition days_before (enddate days : Z) (ymd : Z * Z * Z) : Prop :=
  let '(y, m, d) := ymd in
  check_date_fields y m d = true
  /\ ymd2ord y m d = toordinal enddate - days.

(** The line [generate_units] prints for a directive. *)
Definition got_spec (spec : string) : string := "Got spec: " +:+ spec.

(** The contents of the two unit files. *)
Definition service_text (script_file : string) : string :=
  concat_lines ["[Service]"; "ExecStart=" +:+ script_file].

Definition timer_text (specs : list string) : string :=
  concat_lines ("[Timer]" :: specs).

Definition service_path (dir : Path) : string :=
  str_path (joinpath dir "support-end.service").

Definition timer_path (dir : Path) : string :=
  str_path (joinpath dir "support-end.timer").

(** Both unit files of the directory can be opened for writing and take
    what is written to them. *)
Definition units_writable (w : World) (dir : Path) : bool :=
  can_open w (service_path dir) && can_write w (service_path dir)
  && can_open w (timer_path dir) && can_write w (timer_path dir).

(** What a run from [w] to [w'] has left alone. *)
Definition same_files (w w' : World) : Prop :=
  opened w' = opened w /\ files w' = files w.
Definition same_desktop (w w' : World) : Prop :=
  notifications w' = notifications w.


(** The spellings of a month and of a day that the parser takes. *)
Definition month_text (m : Z) (ms : string) : Prop :=
  ms = pad0 2 m \/ (m <= 9 /\ ms = str_int m).

Definition day_text (d : Z) (ds : string) : Prop :=
  ds = pad0 2 d
  \/ (d <= 9 /\ (ds = str_int d \/ ds = " " +:+ str_int d)).

(** The text [val] is one of the spellings of the date [y]-[m]-[d] that
    the parser takes: the year in four digits, month and day in two
    digits, or in one digit when below ten, and a one-digit day with or
    without a blank before it. *)
Definition spells (val : string) (y m d : Z) : Prop :=
  exists ms ds,
    month_text m ms /\ day_text d ds
    /\ val = pad0 4 y +:+ "-" +:+ ms +:+ "-" +:+ ds.

(** [s.isascii()] *)
Fixpoint isascii (s : string) : bool :=
  match s with
  | EmptyString => true
  | String a s' => (byte a <? 128) && isascii s'
  end.

(** A calendar date in the form YYYY-MM-DD, as the specification words
    it: four digits, a dash, two digits, a dash and two digits, which name
    a day of the calendar. *)
Definition is_yyyy_mm_dd (val : string) : bool :=
  match val with
  | String y1 (String y2 (String y3 (String y4 (String s1
      (String m1 (String m2 (String s2
        (String d1 (String d2 EmptyString))))))))) =>
      forallb is_digit [y1; y2; y3; y4; m1; m2; d1; d2]
      && Ascii.eqb s1 "-" && Ascii.eqb s2 "-"
      && check_date_fields
           (1000 * digit y1 + 100 * digit y2 + 10 * digit y3 + digit y4)
           (10 * digit m1 + digit m2) (10 * digit d1 + digit d2)
  | _ => false
  end.

(** Resolution of the deadline as the specification states it: it fails
    exactly when there is no value to parse, or when the value at hand is
    not a calendar date in the form YYYY-MM-DD. *)
Definition strict_resolution (environ : gmap string string)
  (os_release : os_release_file) : Prop :=
  fails (support_end environ os_release) <->
  present_value environ os_release = None
  \/ exists val, present_value environ os_release = Some val
                 /\ is_yyyy_mm_dd val = false.

Definition two_digits_ok (a b : Z) : bool :=
  String.eqb (String (digit_char a) (String (digit_char b) EmptyString))
    (pad0 2 (10 * a + b)).

(** * Properties *)

Example ord2ymd_2025 : ord2ymd (ymd2ord 2025 6 1) = (2025, 6, 1).
Proof. reflexivity. Qed.

Example ord2ymd_leap : ord2ymd (ymd2ord 2024 2 29) = (2024, 2, 29).
Proof. reflexivity. Qed.

Example ord2ymd_max : ord2ymd MAXORDINAL = (9999, 12, 31).
Proof. reflexivity. Qed.

Example isoformat_midnight :
  isoformat (datetime_of_date 2025 5 2) = "2025-05-02T00:00:00"%string.
Proof. reflexivity. Qed.

Example isoformat_micro :
  isoformat (datetime_of_date 987 5 2 + 3 * US_PER_HOUR + 17)
  = "0987-05-02T03:00:00.000017"%string.
Proof. reflexivity. Qed.

Example str_timedelta_neg :
  str_timedelta (- US_PER_HOUR) = "-1 day, 23:00:00"%string.
Proof. reflexivity. Qed.

Example split_lines_ex :
  split_lines (concat_lines ["[Timer]"; "OnActiveSec=60"]%string)
  = ["[Timer]"; "OnActiveSec=60"]%string.
Proof. reflexivity. Qed.

(** ** The clock *)

Lemma today_inv (w w1 : World) (t : Z) :
  today w = (Ok t, w1) ->
  w1 = tick w /\ t = clock_at w (ticks w) /\ EPOCH <= t <= DATETIME_MAX.
Proof.
  unfold today. destruct (Z.leb_spec (clock_at w (ticks w)) DATETIME_MAX) as [Hle|Hgt];
    intros H; inversion H; subst.
  repeat split; try assumption.
  unfold clock_at. lia.
Qed.

Lemma today_ok (w : World) :
  clock_at w (ticks w) <= DATETIME_MAX ->
  today w = (Ok (clock_at w (ticks w)), tick w).
Proof.
  intros H. unfold today. apply Z.leb_le in H. now rewrite H.
Qed.

(** ** The generator *)

Lemma in_range_true (t : Z) : 0 <= t <= DATETIME_MAX -> in_range t = true.
Proof.
  intros [H0 H1]. unfold in_range.
  apply andb_true_intro; split; now apply Z.leb_le.
Qed.

Lemma collect_calendar (rest : list Z) :
  forall (fuel : nat) (enddate : Z) (w : World),
    (length rest < fuel)%nat ->
    Forall (fun days => in_range (enddate - timedelta_days days) = true) rest ->
    collect fuel (GenCalendar enddate rest) w
    = Some (Ok (map (fun days => on_calendar (enddate - timedelta_days days)) rest),
            GenFinished, w).
Proof.
  induction rest as [|days rest IH]; intros fuel enddate w Hfuel Hall.
  - destruct fuel as [|fuel]; [inversion Hfuel|]. reflexivity.
  - destruct fuel as [|fuel]; [inversion Hfuel|].
    inversion Hall as [|? ? Hd Hrest]; subst.
    cbn [collect next resume_loop]. unfold datetime_sub_timedelta.
    rewrite Hd. rewrite IH; [reflexivity| |assumption].
    cbn [length] in Hfuel. lia.
Qed.

Lemma warn_days_in_range (enddate t : Z) :
  EPOCH <= t -> timedelta_days 1 <= enddate - t -> enddate <= DATETIME_MAX ->
  Forall (fun days => in_range (enddate - timedelta_days days) = true) WARN_DAYS.
Proof.
  intros He Hd Hm. unfold WARN_DAYS.
  repeat constructor; apply in_range_true;
    unfold timedelta_days, EPOCH, DATETIME_MAX, MAXORDINAL, US_PER_DAY,
      US_PER_SECOND in *; lia.
Qed.

Lemma list_of_far (w w1 : World) (t enddate : Z) :
  today w = (Ok t, w1) ->
  enddate <= DATETIME_MAX ->
  timedelta_days 1 <= enddate - t ->
  list_of (generate_times enddate) w
  = Some (Ok (map on_calendar (trigger_times enddate)), GenFinished, w1).
Proof.
  intros Hnow Hmax Hfar.
  destruct (today_inv _ _ _ Hnow) as (-> & Ht & Hlo & Hhi).
  unfold list_of, generate_times, gen_bound.
  change (collect (S (S (length WARN_DAYS))) (GenCreated enddate) w)
    with (match next (GenCreated enddate) w with
          | (Raise e, g', w') => Some (Raise e, g', w')
          | (Ok StopIteration, g', w') => Some (Ok [], g', w')
          | (Ok (Yield spec), g', w') =>
              match collect (S (length WARN_DAYS)) g' w' with
              | Some (Ok l, g'', w'') => Some (Ok (spec :: l), g'', w'')
              | other => other
              end
          end).
  pose proof (collect_calendar WARN_DAYS (S (S (length WARN_DAYS))) enddate
                (tick w) ltac:(lia)
                (warn_days_in_range enddate t Hlo Hfar Hmax)) as Hc.
  cbn [next]. unfold now. rewrite Hnow.
  apply Z.ltb_ge in Hfar. rewrite Hfar.
  unfold trigger_times. rewrite map_map.
  rewrite <- Hc. reflexivity.
Qed.

Lemma list_of_near (w w1 : World) (t enddate : Z) :
  today w = (Ok t, w1) ->
  enddate - t < timedelta_days 1 ->
  list_of (generate_times enddate) w
  = Some (Ok [ON_ACTIVE_60], GenFinished, w1).
Proof.
  intros Hnow Hnear.
  unfold list_of, generate_times, gen_bound.
  cbn [collect next length WARN_DAYS]. unfold now. rewrite Hnow.
  apply Z.ltb_lt in Hnear. rewrite Hnear. reflexivity.
Qed.

(** C2: when less than one day is left, also when the deadline has
    passed, [generate_times] yields exactly one trigger, the relative
    delay of 60 seconds. *)
Theorem generate_times_imminent (w w1 : World) (t enddate : Z) :
  today w = (Ok t, w1) ->
  enddate - t < timedelta_days 1 ->
  list_of (generate_times enddate) w
  = Some (Ok ["OnActiveSec=60"%string], GenFinished, w1).
Proof. exact (list_of_near w w1 t enddate). Qed.

Lemma generate_times_imminent_witness :
  let enddate := datetime_of_date 2025 6 1 in
  let w := world_at (at_time enddate 23 0 0) in
  list_of (generate_times enddate) w
  = Some (Ok ["OnActiveSec=60"%string], GenFinished, tick w).
Proof.
  intros enddate w.
  apply (generate_times_imminent w (tick w) (at_time enddate 23 0 0) enddate).
  - reflexivity.
  - vm_compute. reflexivity.
Defined.

(** ** The notifier *)

Lemma ended_not_ends_in (days : Z) : ends_in days <> ENDED.
Proof. unfold ends_in, ENDED. cbn. discriminate. Qed.

(** C3: the notification says that support has ended exactly when the
    current time is after the deadline, and otherwise that it ends in D
    days, D being the time left truncated to whole days. *)
Theorem do_notify_message (w w1 : World) (t enddate : Z) :
  today w = (Ok t, w1) ->
  exists title,
    do_notify enddate w = (MainLoop, show_message title None w1)
    /\ notifications (show_message title None w1)
       = notifications w
         ++ [{| summary := title; body := title; icon := "dialog-warning";
                actions := [("clicked", "Start upgrade")] |}]
    /\ (title = ENDED <-> t > enddate)
    /\ (t <= enddate ->
        title = ends_in (Z.quot (enddate - t) US_PER_DAY)).
Proof.
  intros Hnow. destruct (today_inv _ _ _ Hnow) as (-> & _ & _).
  unfold do_notify. rewrite Hnow.
  destruct (Z.gtb_spec t enddate) as [Hgt|Hle].
  - exists ENDED. repeat split; try reflexivity; try lia.
  - exists (ends_in (td_days (enddate - t))).
    assert (Hq : td_days (enddate - t) = Z.quot (enddate - t) US_PER_DAY).
    { unfold td_days. symmetry. apply Z.quot_div_nonneg; [lia|reflexivity]. }
    repeat split; try reflexivity.
    + intros H. now apply ended_not_ends_in in H.
    + lia.
    + intros _. now rewrite Hq.
Qed.

Lemma do_notify_message_witness :
  let enddate := datetime_of_date 2030 1 10 in
  let t := at_time (datetime_of_date 2030 1 1) 12 0 0 in
  let w := world_at t in
  exists title,
    do_notify enddate w = (MainLoop, show_message title None (tick w))
    /\ notifications (show_message title None (tick w))
       = notifications w
         ++ [{| summary := title; body := title; icon := "dialog-warning";
                actions := [("clicked", "Start upgrade")] |}]
    /\ (title = ENDED <-> t > enddate)
    /\ (t <= enddate ->
        title = ends_in (Z.quot (enddate - t) US_PER_DAY)).
Proof.
  intros enddate t w.
  apply (do_notify_message w (tick w) t enddate). reflexivity.
Defined.

Example do_notify_eight_days :
  let enddate := datetime_of_date 2030 1 10 in
  let w := world_at (at_time (datetime_of_date 2030 1 1) 12 0 0) in
  do_notify enddate w
  = (MainLoop, show_message "Support for this OS ends in 8 days" None (tick w)).
Proof. vm_compute. reflexivity. Qed.

Example do_notify_ended :
  let enddate := datetime_of_date 2030 1 10 in
  let w := world_at (at_time enddate 0 0 1) in
  do_notify enddate w
  = (MainLoop, show_message "Support for this OS has ended" None (tick w)).
Proof. vm_compute. reflexivity. Qed.

(** ** One generation *)

Lemma collect_calendar_total (rest : list Z) :
  forall (fuel : nat) (enddate : Z),
    (length rest < fuel)%nat ->
    exists r, forall w : World,
      collect fuel (GenCalendar enddate rest) w = Some (r, GenFinished, w).
Proof.
  induction rest as [|days rest IH]; intros fuel enddate Hfuel;
    (destruct fuel as [|fuel]; [inversion Hfuel|]).
  - exists (Ok []). reflexivity.
  - cbn [length] in Hfuel.
    destruct (IH fuel enddate ltac:(lia)) as [r Hr].
    cbn [collect next resume_loop].
    destruct (datetime_sub_timedelta enddate (timedelta_days days)) as [time|e].
    + destruct r as [l|e].
      * exists (Ok (on_calendar time :: l)). intros w. now rewrite Hr.
      * exists (Raise e). intros w. now rewrite Hr.
    + exists (Raise e). reflexivity.
Qed.

Lemma list_of_finished (w : World) :
  list_of GenFinished w = Some (Ok [], GenFinished, w).
Proof. reflexivity. Qed.

(** C4 as stated fails: a generator object is exhausted by its first
    enumeration, a second one yields nothing. *)
Lemma generate_times_not_restartable :
  ~ restartable (generate_times (datetime_of_date 2025 6 1))
      (world_at (at_time (datetime_of_date 2025 6 1) 23 0 0)).
Proof.
  intros (l & g1 & w1 & g2 & w2 & H1 & H2).
  vm_compute in H1. inversion H1; subst.
  vm_compute in H2. discriminate H2.
Qed.

(** C4, amended: one generation is determined by the deadline and the one
    clock sample it takes; it leaves the rest of the world alone; the
    exhausted generator yields nothing more and takes no further sample. *)
Theorem generate_times_deterministic (w w' : World) (enddate : Z) :
  clock_at w (ticks w) = clock_at w' (ticks w') ->
  exists r,
    list_of (generate_times enddate) w = Some (r, GenFinished, tick w)
    /\ list_of (generate_times enddate) w' = Some (r, GenFinished, tick w')
    /\ list_of GenFinished (tick w) = Some (Ok [], GenFinished, tick w).
Proof.
  intros Hclock.
  assert (Hgen : forall t, exists r, forall v : World,
             clock_at v (ticks v) = t ->
             list_of (generate_times enddate) v = Some (r, GenFinished, tick v)).
  { intros t.
    destruct (collect_calendar_total WARN_DAYS (S (S (length WARN_DAYS)))
                enddate ltac:(lia)) as [rc Hrc].
    destruct (Z.leb_spec t DATETIME_MAX) as [Hle|Hgt].
    - destruct (Z.ltb_spec (enddate - t) (timedelta_days 1)) as [Hn|Hf].
      + exists (Ok [ON_ACTIVE_60]). intros v Hv.
        apply (list_of_near v (tick v) t); [|assumption].
        rewrite <- Hv. apply today_ok. now rewrite Hv.
      + exists rc. intros v Hv. rewrite <- (Hrc (tick v)).
        unfold list_of, generate_times, gen_bound.
        cbn [collect next]. unfold now. rewrite today_ok by now rewrite Hv.
        rewrite Hv. apply Z.ltb_ge in Hf. rewrite Hf. reflexivity.
    - exists (Raise ValueError). intros v Hv.
      unfold list_of, generate_times, gen_bound.
      cbn [collect next]. unfold now, today. rewrite Hv.
      apply Z.leb_gt in Hgt. rewrite Hgt. reflexivity. }
  destruct (Hgen (clock_at w (ticks w))) as [r Hr].
  exists r. repeat split.
  - now apply Hr.
  - apply Hr. now symmetry.
Qed.

Lemma generate_times_deterministic_witness :
  let enddate := datetime_of_date 2025 6 1 in
  let w := world_at (datetime_of_date 2025 5 1) in
  let w' := print "earlier output" w in
  exists r,
    list_of (generate_times enddate) w = Some (r, GenFinished, tick w)
    /\ list_of (generate_times enddate) w' = Some (r, GenFinished, tick w')
    /\ list_of GenFinished (tick w) = Some (Ok [], GenFinished, tick w).
Proof.
  intros enddate w w'.
  apply (generate_times_deterministic w w' enddate). reflexivity.
Defined.

(** ** Text without newlines *)

Lemma append_cons (x : ascii) (a b : string) :
  String x a +:+ b = String x (a +:+ b).
Proof. reflexivity. Qed.

Lemma append_nil_l (b : string) : EmptyString +:+ b = b.
Proof. reflexivity. Qed.

Lemma append_nil_r (a : string) : a +:+ EmptyString = a.
Proof.
  induction a as [|x a IH]; [reflexivity|]. now rewrite append_cons, IH.
Qed.

Lemma append_assoc (a b c : string) : (a +:+ b) +:+ c = a +:+ (b +:+ c).
Proof.
  induction a as [|x a IH]; [reflexivity|]. now rewrite !append_cons, IH.
Qed.

Lemma has_char_app (c : ascii) (a b : string) :
  has_char c (a +:+ b) = has_char c a || has_char c b.
Proof.
  induction a as [|x a IH]; [reflexivity|].
  rewrite append_cons. cbn [has_char]. rewrite IH. now rewrite orb_assoc.
Qed.

Lemma string_of_uint_no_nl (d : Decimal.uint) :
  has_char NL (NilEmpty.string_of_uint d) = false.
Proof. induction d; cbn [NilEmpty.string_of_uint has_char]; auto. Qed.

Lemma str_int_no_nl (n : Z) : has_char NL (str_int n) = false.
Proof.
  assert (H : forall d, has_char NL (NilZero.string_of_uint d) = false).
  { intros d. destruct d; try reflexivity;
      apply (string_of_uint_no_nl (_ d)). }
  unfold str_int, NilZero.string_of_int.
  destruct (Z.to_int n) as [d|d]; cbn [has_char]; now rewrite H.
Qed.

Lemma zeros_no_nl (k : nat) : has_char NL (zeros k) = false.
Proof. induction k; cbn [zeros has_char]; auto. Qed.

Lemma pad0_no_nl (width : nat) (n : Z) : has_char NL (pad0 width n) = false.
Proof.
  unfold pad0. rewrite has_char_app, zeros_no_nl, str_int_no_nl. reflexivity.
Qed.

Lemma isoformat_no_nl (t : Z) : has_char NL (isoformat t) = false.
Proof.
  unfold isoformat, isoformat_sep, format_date, iso_date, format_time.
  destruct (microsecond t =? 0);
    repeat (rewrite has_char_app || rewrite pad0_no_nl); reflexivity.
Qed.

Lemma on_calendar_one_line (t : Z) : one_line (on_calendar t) = true.
Proof.
  unfold one_line, on_calendar. rewrite has_char_app, isoformat_no_nl.
  reflexivity.
Qed.

Lemma split_lines_aux_line (l : string) :
  forall (cur rest : string),
    has_char NL l = false ->
    split_lines_aux cur (line l +:+ rest)
    = (cur +:+ l) :: split_lines_aux EmptyString rest.
Proof.
  induction l as [|a l IH]; intros cur rest Hl.
  - unfold line. rewrite append_nil_l, append_cons, append_nil_l.
    cbn [split_lines_aux]. rewrite Ascii.eqb_refl. now rewrite append_nil_r.
  - cbn [has_char] in Hl. apply orb_false_iff in Hl as [Ha Hl].
    unfold line in *. rewrite !append_cons. cbn [split_lines_aux]. rewrite Ha.
    rewrite IH by assumption. now rewrite append_assoc.
Qed.

Lemma split_concat_lines (ls : list string) :
  Forall (fun l => one_line l = true) ls ->
  split_lines (concat_lines ls) = ls.
Proof.
  unfold split_lines. induction ls as [|l ls IH]; intros H; [reflexivity|].
  inversion H as [|? ? Hl Hls]; subst. cbn [concat_lines].
  rewrite split_lines_aux_line.
  - rewrite append_nil_l. now rewrite IH.
  - unfold one_line in Hl. now apply negb_true_iff in Hl.
Qed.

(** ** Dates *)

Lemma month_cases (m : Z) :
  1 <= m <= 12 ->
  m = 1 \/ m = 2 \/ m = 3 \/ m = 4 \/ m = 5 \/ m = 6 \/ m = 7 \/ m = 8
  \/ m = 9 \/ m = 10 \/ m = 11 \/ m = 12.
Proof. lia. Qed.

Lemma check_date_fields_inv (y m d : Z) :
  check_date_fields y m d = true ->
  1 <= y <= 9999 /\ 1 <= m <= 12 /\ 1 <= d <= days_in_month y m.
Proof.
  unfold check_date_fields, MINYEAR, MAXYEAR. intros H.
  repeat (apply andb_true_iff in H as [H ?]).
  repeat match goal with
         | H : (_ <=? _) = true |- _ => apply Z.leb_le in H
         end.
  lia.
Qed.

(** Within a year, a date is at most day 365, or 366 in a leap year. *)
Lemma day_of_year_bounds (y m d : Z) :
  1 <= m <= 12 -> 1 <= d <= days_in_month y m ->
  1 <= days_before_month y m + d <= 365 + b2z (is_leap y).
Proof.
  intros Hm Hd. unfold days_in_month, days_before_month in *.
  destruct (is_leap y);
    destruct (month_cases m Hm) as
      [->|[->|[->|[->|[->|[->|[->|[->|[->|[->|[->| ->]]]]]]]]]]];
    cbv -[Z.le Z.add] in Hd |- *; lia.
Qed.

Lemma ymd2ord_bounds (y m d : Z) :
  check_date_fields y m d = true -> 1 <= ymd2ord y m d <= MAXORDINAL.
Proof.
  intros H. apply check_date_fields_inv in H as (Hy & Hm & Hd).
  pose proof (day_of_year_bounds y m d Hm Hd) as Hdoy.
  unfold ymd2ord, MAXORDINAL.
  remember (days_before_month y m) as dbm eqn:Edbm. clear Edbm Hd Hm.
  destruct (Z.eq_dec y 9999) as [->|Hne].
  - change (is_leap 9999) with false in Hdoy.
    change (days_before_year 9999) with 3651694.
    unfold b2z in Hdoy. lia.
  - assert (Hb : b2z (is_leap y) <= 1) by (destruct (is_leap y); cbn; lia).
    unfold days_before_year.
    Z.div_mod_to_equations. lia.
Qed.

Lemma datetime_of_date_valid (y m d : Z) :
  check_date_fields y m d = true -> valid_datetime (datetime_of_date y m d).
Proof.
  intros H. apply ymd2ord_bounds in H.
  unfold valid_datetime, datetime_of_date, DATETIME_MAX, MAXORDINAL,
    US_PER_DAY, US_PER_SECOND in *. lia.
Qed.

Lemma datetime_of_date_midnight (y m d : Z) :
  time_of_day (datetime_of_date y m d) = 0.
Proof. unfold time_of_day, datetime_of_date. apply Z.mod_mul. discriminate. Qed.

Lemma sub_days_midnight (t days : Z) :
  time_of_day t = 0 -> time_of_day (t - timedelta_days days) = 0.
Proof.
  unfold time_of_day, timedelta_days. intros H.
  replace (t - days * US_PER_DAY) with (t + (- days) * US_PER_DAY) by lia.
  rewrite Z.mod_add; [assumption|discriminate].
Qed.

Lemma midnight_fields (t : Z) :
  time_of_day t = 0 ->
  hour t = 0 /\ minute t = 0 /\ second t = 0 /\ microsecond t = 0.
Proof.
  unfold hour, minute, second, microsecond. intros ->. repeat split.
Qed.

Lemma isoformat_midnight_text (t : Z) :
  time_of_day t = 0 ->
  isoformat t = format_date t +:+ "T00:00:00".
Proof.
  intros H. destruct (midnight_fields t H) as (Hh & Hm & Hs & Hu).
  unfold isoformat, isoformat_sep. rewrite Hh, Hm, Hs, Hu. reflexivity.
Qed.

(** ** Parsing the date *)

Lemma strptime_ok_inv (val : string) (t : Z) :
  strptime val = Ok t ->
  exists y m d,
    regex_match val = Some (y, m, d, EmptyString)
    /\ check_date_fields y m d = true
    /\ t = datetime_of_date y m d.
Proof.
  unfold strptime.
  destruct (regex_match val) as [[[[y m] d] rest]|]; [|discriminate].
  destruct rest; [|discriminate].
  destruct (check_date_fields y m d) eqn:Hc; [|discriminate].
  intros H. inversion H. now exists y, m, d.
Qed.

Lemma strptime_raises (val : string) (e : exception) :
  strptime val = Raise e -> e = ValueError.
Proof.
  unfold strptime.
  destruct (regex_match val) as [[[[y m] d] rest]|];
    [destruct rest; [destruct (check_date_fields y m d)|]|];
    intros H; inversion H; reflexivity.
Qed.

Example strptime_iso :
  strptime "2025-06-01" = Ok (datetime_of_date 2025 6 1).
Proof. reflexivity. Qed.

Example strptime_short_fields :
  strptime "2025-6-1" = Ok (datetime_of_date 2025 6 1).
Proof. reflexivity. Qed.

Example strptime_blank_day :
  strptime "2025-06- 1" = Ok (datetime_of_date 2025 6 1).
Proof. reflexivity. Qed.

Example strptime_leap_day :
  strptime "2024-02-29" = Ok (datetime_of_date 2024 2 29)
  /\ strptime "2025-02-29" = Raise ValueError.
Proof. split; reflexivity. Qed.

Example strptime_rejects :
  Forall (fun val => strptime val = Raise ValueError)
    [""; "2025-06-1 "; " 2025-06-01"; "0000-01-01"; "2025-13-01";
     "2025-1-011"; "20250601"; "2025-06-01x"; "2025-06-31"; "2025-00-01";
     "2025-1-0"; "25-06-01"].
Proof. repeat constructor. Qed.

Lemma all_below_spec (n : Z) (P : Z -> bool) :
  all_below n P = true ->
  forall z, 0 <= z < n -> P z = true.
Proof.
  unfold all_below. rewrite List.forallb_forall. intros H z Hz.
  apply H. apply List.in_map_iff. exists (Z.to_nat z).
  split; [lia|]. apply List.in_seq. lia.
Qed.

Lemma pad0_four_digits (y : Z) :
  0 <= y <= 9999 -> pad0 4 y = four_digits y.
Proof.
  intros Hy. apply String.eqb_eq.
  apply (all_below_spec 10000
           (fun y => String.eqb (pad0 4 y) (four_digits y))).
  - vm_compute. reflexivity.
  - lia.
Qed.

Lemma re_one_digit_char {R} (q : Z) (rest : string)
  (k : Z -> string -> option R) :
  0 <= q <= 9 ->
  re_one "0" "9" (String (digit_char q) rest) k = k q rest.
Proof.
  intros Hq.
  assert (H : q = 0 \/ q = 1 \/ q = 2 \/ q = 3 \/ q = 4 \/ q = 5 \/ q = 6
              \/ q = 7 \/ q = 8 \/ q = 9) by lia.
  destruct H as [->|[->|[->|[->|[->|[->|[->|[->|[->| ->]]]]]]]]];
    reflexivity.
Qed.

Lemma re_digit_digit_char {R} (q : Z) (rest : string)
  (k : Z -> string -> option R) :
  0 <= q <= 9 ->
  re_digit (String (digit_char q) rest) k = k q rest.
Proof.
  intros Hq.
  assert (H : q = 0 \/ q = 1 \/ q = 2 \/ q = 3 \/ q = 4 \/ q = 5 \/ q = 6
              \/ q = 7 \/ q = 8 \/ q = 9) by lia.
  destruct H as [->|[->|[->|[->|[->|[->|[->|[->|[->| ->]]]]]]]]];
    reflexivity.
Qed.

Lemma re_Y_pad0 {R} (y : Z) (rest : string) (k : Z -> string -> option R) :
  0 <= y <= 9999 -> re_Y (pad0 4 y +:+ rest) k = k y rest.
Proof.
  intros Hy. rewrite (pad0_four_digits y Hy). unfold four_digits.
  rewrite !append_cons, append_nil_l. unfold re_Y.
  rewrite !re_digit_digit_char
    by (try apply Z.mod_pos_bound; Z.div_mod_to_equations; lia).
  f_equal. Z.div_mod_to_equations. lia.
Qed.

Ltac small_cases z :=
  destruct z as [|p|p]; try lia;
  do 5 (try destruct p as [p|p|]); try lia.

(** A month followed by the dash: an alternative left behind by the
    match has no dash after it. *)
Lemma re_m_pad0 {R} (m : Z) (rest : string) (k : Z -> string -> option R) :
  1 <= m <= 12 ->
  re_m (pad0 2 m +:+ String "-" rest) (fun v s => re_char "-" s (k v))
  = k m rest.
Proof.
  intros Hm. small_cases m; vm_compute; destruct (k _ rest); reflexivity.
Qed.

Lemma re_d_pad0 {R} (d : Z) (f : Z -> string -> R) :
  1 <= d <= 31 ->
  re_d (pad0 2 d) (fun v s => Some (f v s)) = Some (f d EmptyString).
Proof. intros Hd. small_cases d; reflexivity. Qed.

Lemma days_in_month_le (y m : Z) : 1 <= m <= 12 -> days_in_month y m <= 31.
Proof.
  intros Hm. unfold days_in_month.
  destruct (is_leap y);
    destruct (month_cases m Hm) as
      [->|[->|[->|[->|[->|[->|[->|[->|[->|[->|[->| ->]]]]]]]]]]];
    cbv -[Z.le]; discriminate.
Qed.

(** The text YYYY-MM-DD of a calendar date parses to that date. *)
Lemma strptime_iso_date (y m d : Z) :
  check_date_fields y m d = true ->
  strptime (iso_date y m d) = Ok (datetime_of_date y m d).
Proof.
  intros Hc. destruct (check_date_fields_inv y m d Hc) as (Hy & Hm & Hd).
  pose proof (days_in_month_le y m Hm) as Hdim.
  unfold strptime, regex_match, iso_date.
  rewrite re_Y_pad0 by lia. rewrite append_cons, append_nil_l.
  cbn [re_char]. rewrite Ascii.eqb_refl.
  rewrite append_cons, append_nil_l.
  rewrite (re_m_pad0 m (pad0 2 d)
             (fun m s4 => re_d s4 (fun d rest => Some (y, m, d, rest)))) by lia.
  rewrite (re_d_pad0 d (fun d rest => (y, m, d, rest))) by lia.
  now rewrite Hc.
Qed.

Lemma present_value_val (environ : gmap string string)
  (os_release : os_release_file) :
  present_value environ os_release
  = match support_end_val environ os_release with
    | Ok val => Some val
    | Raise _ => None
    end.
Proof.
  unfold present_value, support_end_val, getenv, os_release_field,
    freedesktop_os_release, getitem, result_bind.
  destruct (environ !! SUPPORT_END) as [[|a s]|]; try reflexivity;
    destruct os_release as [| |d]; try reflexivity;
    destruct (d !! SUPPORT_END); reflexivity.
Qed.

Lemma list_of_cases (w w' : World) (enddate : Z) (specs : list string)
  (g : generator) :
  enddate <= DATETIME_MAX ->
  list_of (generate_times enddate) w = Some (Ok specs, g, w') ->
  specs = [ON_ACTIVE_60] \/ specs = map on_calendar (trigger_times enddate).
Proof.
  intros Hmax H.
  destruct (Z.leb_spec (clock_at w (ticks w)) DATETIME_MAX) as [Hle|Hgt].
  - pose proof (today_ok w Hle) as Hnow.
    destruct (Z.ltb_spec (enddate - clock_at w (ticks w)) (timedelta_days 1))
      as [Hn|Hf].
    + rewrite (list_of_near _ _ _ _ Hnow Hn) in H. inversion H. now left.
    + rewrite (list_of_far _ _ _ _ Hnow Hmax Hf) in H. inversion H. now right.
  - exfalso. revert H. unfold list_of, generate_times, gen_bound.
    cbn [collect next]. unfold now, today.
    apply Z.leb_gt in Hgt. rewrite Hgt. discriminate.
Qed.

Lemma trigger_times_midnight (enddate : Z) :
  time_of_day enddate = 0 ->
  Forall (fun t => time_of_day t = 0
                   /\ on_calendar t
                      = "OnCalendar=" +:+ format_date t +:+ "T00:00:00")
    (trigger_times enddate).
Proof.
  intros H. unfold trigger_times. generalize WARN_DAYS as l.
  induction l as [|days l IH]; cbn [map]; constructor; [|assumption].
  pose proof (sub_days_midnight enddate days H) as Hd.
  split; [assumption|].
  unfold on_calendar. now rewrite isoformat_midnight_text.
Qed.

Lemma absolute_specs_midnight (l : list Z) :
  Forall (fun t => time_of_day t = 0
                   /\ on_calendar t
                      = "OnCalendar=" +:+ format_date t +:+ "T00:00:00") l ->
  Forall (fun spec =>
            is_absolute spec = true ->
            exists t, In t l /\ spec = on_calendar t /\ time_of_day t = 0)
    (map on_calendar l).
Proof.
  intros Hall. apply List.Forall_forall. intros spec Hin _.
  apply List.in_map_iff in Hin as (t & <- & Hin).
  exists t. repeat split; [assumption|].
  rewrite List.Forall_forall in Hall. now apply Hall.
Qed.

(** ** The deadline *)

Example support_end_override :
  support_end {[ SUPPORT_END := "2025-06-01"%string ]} Unreadable
  = Ok (datetime_of_date 2025 6 1).
Proof. vm_compute. reflexivity. Qed.

Example support_end_os_release :
  support_end ∅ (Release {[ SUPPORT_END := "2025-06-01"%string ]})
  = Ok (datetime_of_date 2025 6 1).
Proof. vm_compute. reflexivity. Qed.

Example support_end_errors :
  support_end ∅ Unreadable = Raise OSError
  /\ support_end ∅ (Release ∅) = Raise (KeyError SUPPORT_END)
  /\ support_end {[ SUPPORT_END := "soon"%string ]} Unreadable = Raise ValueError.
Proof. repeat split; vm_compute; reflexivity. Qed.


Example support_end_empty_override_falls_back :
  support_end {[ SUPPORT_END := EmptyString ]}
    (Release {[ SUPPORT_END := "2025-06-01"%string ]})
  = Ok (datetime_of_date 2025 6 1).
Proof. vm_compute. reflexivity. Qed.

(** C10: a resolved deadline is midnight of its date, and so is the time
    of every absolute trigger generated from it. *)
Theorem support_end_midnight (environ : gmap string string)
  (os_release : os_release_file) (enddate : Z) :
  support_end environ os_release = Ok enddate ->
  (hour enddate = 0 /\ minute enddate = 0 /\ second enddate = 0
   /\ microsecond enddate = 0)
  /\ isoformat enddate = format_date enddate +:+ "T00:00:00"
  /\ Forall (fun t => time_of_day t = 0
                      /\ on_calendar t
                         = "OnCalendar=" +:+ format_date t +:+ "T00:00:00")
       (trigger_times enddate)
  /\ forall (w w' : World) (specs : list string) (g : generator),
       list_of (generate_times enddate) w = Some (Ok specs, g, w') ->
       Forall (fun spec =>
                 is_absolute spec = true ->
                 exists t, In t (trigger_times enddate)
                           /\ spec = on_calendar t /\ time_of_day t = 0)
         specs.
Proof.
  intros H. unfold support_end, result_bind in H.
  destruct (support_end_val environ os_release) as [val|e]; [|discriminate].
  apply strptime_ok_inv in H as (y & m & d & _ & Hc & ->).
  pose proof (datetime_of_date_midnight y m d) as Hmid.
  pose proof (datetime_of_date_valid y m d Hc) as [_ Hmax].
  pose proof (trigger_times_midnight _ Hmid) as Htimes.
  split; [now apply midnight_fields|].
  split; [now apply isoformat_midnight_text|].
  split; [assumption|].
  intros w w' specs g Hl.
  destruct (list_of_cases _ _ _ _ _ Hmax Hl) as [->| ->].
  - constructor; [|constructor]. discriminate.
  - now apply absolute_specs_midnight.
Qed.

Lemma support_end_midnight_witness :
  let enddate := datetime_of_date 2025 6 1 in
  (hour enddate = 0 /\ minute enddate = 0 /\ second enddate = 0
   /\ microsecond enddate = 0)
  /\ isoformat enddate = format_date enddate +:+ "T00:00:00"
  /\ Forall (fun t => time_of_day t = 0
                      /\ on_calendar t
                         = "OnCalendar=" +:+ format_date t +:+ "T00:00:00")
       (trigger_times enddate)
  /\ forall (w w' : World) (specs : list string) (g : generator),
       list_of (generate_times enddate) w = Some (Ok specs, g, w') ->
       Forall (fun spec =>
                 is_absolute spec = true ->
                 exists t, In t (trigger_times enddate)
                           /\ spec = on_calendar t /\ time_of_day t = 0)
         specs.
Proof.
  intros enddate.
  apply (support_end_midnight {[ SUPPORT_END := "2025-06-01"%string ]} Unreadable
           enddate).
  vm_compute. reflexivity.
Defined.

(** ** The modes of [main] *)

Lemma write_specs_ticks (fuel : nat) :
  forall (g : generator) (timer : string) (w w' : World) (r : result unit),
    write_specs fuel g timer w = Some (r, w') -> (ticks w <= ticks w')%nat.
Proof.
  induction fuel as [|fuel IH]; intros g timer w w' r H; [discriminate|].
  cbn [write_specs] in H.
  assert (Hn : (ticks w <= ticks (snd (next g w)))%nat).
  { destruct g; cbn [next]; try (destruct (resume_loop _ _)); cbn; try lia.
    unfold now, today.
    destruct (_ <=? DATETIME_MAX); [destruct (_ <? _)|]; cbn; lia. }
  destruct (next g w) as [[[[spec|]|e] g1] v]; cbn [snd] in Hn.
  - apply IH in H. cbn in H. lia.
  - inversion H; subst. assumption.
  - inversion H; subst. assumption.
Qed.

Lemma with_open_wt_ticks (path : string)
  (body : World -> option (result unit * World)) (w w' : World)
  (r : result unit) :
  (forall v r' v', body v = Some (r', v') -> (ticks v <= ticks v')%nat) ->
  with_open_wt path body w = Some (r, w') -> (ticks w <= ticks w')%nat.
Proof.
  intros Hbody. unfold with_open_wt, open_wt, close_wt.
  destruct (can_open w path); [|now intros [= <- <-]].
  destruct (body (truncate path w)) as [[r2 w2]|] eqn:Hb; [|discriminate].
  apply Hbody in Hb. cbn in Hb.
  destruct (can_write w2 path); intros [= <- <-]; cbn; lia.
Qed.

Lemma generate_units_ticks (script_file : string) (enddate : Z) (dir : Path)
  (w w' : World) (r : result unit) :
  generate_units script_file enddate dir w = Some (r, w') ->
  (ticks w < ticks w')%nat.
Proof.
  unfold generate_units, today.
  destruct (_ <=? DATETIME_MAX); [|intros [= <- <-]; cbn; lia].
  match goal with
  | |- context [with_open_wt ?p ?b (tick w)] =>
      destruct (with_open_wt p b (tick w)) as [[r3 w3]|] eqn:Hs;
        [apply with_open_wt_ticks in Hs;
           [|intros v r' v' [= <- <-]; cbn; lia]
        |discriminate]
  end.
  cbn in Hs. destruct r3; [|intros [= <- <-]; lia].
  intros H. apply with_open_wt_ticks in H; [lia|].
  intros v r' v' Hw. apply write_specs_ticks in Hw. cbn in Hw. lia.
Qed.

Lemma do_notify_ticks (enddate : Z) (w : World) :
  ticks (snd (do_notify enddate w)) = S (ticks w).
Proof.
  unfold do_notify, today.
  destruct (_ <=? DATETIME_MAX); [destruct (_ >? _)|]; reflexivity.
Qed.

(** The loops are bounded: every run of [generate_units] and of [main]
    has a result. *)
Lemma write_specs_calendar_total (rest : list Z) :
  forall (fuel : nat) (enddate : Z) (timer : string) (w : World),
    (length rest < fuel)%nat ->
    exists r w',
      write_specs fuel (GenCalendar enddate rest) timer w = Some (r, w').
Proof.
  induction rest as [|days rest IH]; intros fuel enddate timer w Hfuel;
    (destruct fuel as [|fuel]; [inversion Hfuel|]).
  - now exists (Ok tt), w.
  - cbn [length] in Hfuel. cbn [write_specs next resume_loop].
    destruct (datetime_sub_timedelta enddate (timedelta_days days))
      as [time|e].
    + apply IH. lia.
    + now exists (Raise e), w.
Qed.

Lemma with_open_wt_total (path : string)
  (body : World -> option (result unit * World)) (w : World) :
  (forall v, exists r' v', body v = Some (r', v')) ->
  exists r w', with_open_wt path body w = Some (r, w').
Proof.
  intros Hbody. unfold with_open_wt, open_wt, close_wt.
  destruct (can_open w path); [|now eexists _, _].
  destruct (Hbody (truncate path w)) as (r2 & w2 & ->).
  destruct (can_write w2 path); now eexists _, _.
Qed.

Lemma write_specs_created_total (enddate : Z) (timer : string) (w : World) :
  exists r w',
    write_specs (gen_bound (generate_times enddate)) (generate_times enddate)
      timer w = Some (r, w').
Proof.
  unfold generate_times, gen_bound. cbn [write_specs next].
  unfold now. destruct (today w) as [[t|e] w6]; [|now exists (Raise e), w6].
  destruct (enddate - t <? timedelta_days 1).
  - now eexists _, _.
  - apply (write_specs_calendar_total WARN_DAYS (S (S (length WARN_DAYS)))
             enddate timer w6). lia.
Qed.

Lemma generate_units_total (script_file : string) (enddate : Z)
  (dir : Path) (w : World) :
  exists r w', generate_units script_file enddate dir w = Some (r, w').
Proof.
  unfold generate_units.
  destruct (today w) as [[t0|e] w0]; [|now exists (Raise e), w0].
  match goal with
  | |- context [with_open_wt ?p ?b w0] =>
      destruct (with_open_wt_total p b w0) as (r3 & w3 & ->);
        [intros v; now eexists _, _|]
  end.
  destruct r3; [|now eexists _, _].
  apply with_open_wt_total. intros v. apply write_specs_created_total.
Qed.

Lemma main_total (script_file : string)
  (repr_exception : exception -> string) (args : Namespace)
  (environ : gmap string string) (os_release : os_release_file)
  (w : World) :
  exists o w',
    main script_file repr_exception args environ os_release w = Some (o, w').
Proof.
  unfold main.
  destruct (negb (notify args) && negb (given (normal_dir args))).
  - destruct (support_end environ os_release) as [enddate|e];
      [|now eexists _, _].
    destruct (now _) as [[t|e] w2]; now eexists _, _.
  - destruct (notify args && given (normal_dir args)); [now eexists _, _|].
    destruct (support_end environ os_release) as [enddate|e];
      [|now eexists _, _].
    destruct (notify args).
    + destruct (do_notify enddate w) as [o w']. now exists o, w'.
    + destruct (normal_dir args) as [dir|]; [|now eexists _, _].
      destruct (generate_units_total script_file enddate dir w)
        as (r & w' & ->).
      destruct r; now eexists _, _.
Qed.

(** C6: when the deadline cannot be resolved, generator mode and notify
    mode return without any effect (a call of [generate_units] or
    [do_notify] would at least have sampled the clock), and status mode
    prints the description of the failure and returns. *)
Theorem main_unresolved (script_file : string)
  (repr_exception : exception -> string) (args : Namespace)
  (environ : gmap string string) (os_release : os_release_file)
  (w : World) (e : exception) :
  support_end environ os_release = Raise e ->
  (notify args = false -> given (normal_dir args) = true ->
   main script_file repr_exception args environ os_release w
   = Some (Returned, w))
  /\ (notify args = true -> given (normal_dir args) = false ->
      main script_file repr_exception args environ os_release w
      = Some (Returned, w))
  /\ (notify args = false -> given (normal_dir args) = false ->
      main script_file repr_exception args environ os_release w
      = Some (Returned,
              print ("No SUPPORT_END found: " +:+ repr_exception e) w))
  /\ (forall enddate, snd (do_notify enddate w) <> w)
  /\ (forall enddate dir r w',
        generate_units script_file enddate dir w = Some (r, w') -> w' <> w).
Proof.
  intros H. unfold main. rewrite H.
  repeat split.
  - intros -> ->. reflexivity.
  - intros -> ->. reflexivity.
  - intros -> ->. reflexivity.
  - intros enddate Heq. pose proof (do_notify_ticks enddate w) as Ht.
    rewrite Heq in Ht. lia.
  - intros enddate dir r w' Hg ->. apply generate_units_ticks in Hg. lia.
Qed.

Lemma main_unresolved_witness :
  let w := world_at (datetime_of_date 2025 5 1) in
  let repr := fun _ : exception => "KeyError('SUPPORT_END')"%string in
  let gen := {| normal_dir := Some (PosixPath "/run/systemd/generator");
                early_dir := None; late_dir := None; notify := false |} in
  let popup := {| normal_dir := None; early_dir := None; late_dir := None;
                  notify := true |} in
  let status := {| normal_dir := None; early_dir := None; late_dir := None;
                   notify := false |} in
  main "/usr/bin/notifier" repr gen ∅ (Release ∅) w = Some (Returned, w)
  /\ main "/usr/bin/notifier" repr popup ∅ (Release ∅) w = Some (Returned, w)
  /\ main "/usr/bin/notifier" repr status ∅ (Release ∅) w
     = Some (Returned,
             print "No SUPPORT_END found: KeyError('SUPPORT_END')" w).
Proof.
  intros w repr gen popup status.
  assert (H : support_end ∅ (Release ∅) = Raise (KeyError SUPPORT_END))
    by (vm_compute; reflexivity).
  split; [|split].
  - destruct (main_unresolved "/usr/bin/notifier" repr gen ∅ (Release ∅) w _ H)
      as (Hg & _). now apply Hg.
  - destruct (main_unresolved "/usr/bin/notifier" repr popup ∅ (Release ∅) w _ H)
      as (_ & Hp & _). now apply Hp.
  - destruct (main_unresolved "/usr/bin/notifier" repr status ∅ (Release ∅) w _ H)
      as (_ & _ & Hs & _). now apply Hs.
Defined.

(** C8: positional directories together with --notify end the program
    with exit status 1 and the usage message; the clock is not sampled, no
    file is written and no notification is shown. *)
Theorem main_usage_error (script_file : string)
  (repr_exception : exception -> string) (args : Namespace)
  (environ : gmap string string) (os_release : os_release_file)
  (w : World) :
  notify args = true ->
  given (normal_dir args) = true ->
  exists w',
    main script_file repr_exception args environ os_release w
    = Some (Exited 1, w')
    /\ exit_status (Exited 1) = Some 1
    /\ stderr w' = stderr w ++ [USAGE]
    /\ ticks w' = ticks w
    /\ files w' = files w
    /\ notifications w' = notifications w
    /\ stdout w' = stdout w.
Proof.
  intros Hn Hd. exists (eprint USAGE w).
  unfold main. rewrite Hn, Hd. repeat split.
Qed.

Lemma main_usage_error_witness :
  let w := world_at (datetime_of_date 2025 5 1) in
  let args := {| normal_dir := Some (PosixPath "/run/systemd/generator");
                 early_dir := None; late_dir := None; notify := true |} in
  exists w',
    main "/usr/bin/notifier" (fun _ => EmptyString) args
      {[ SUPPORT_END := "2025-06-01"%string ]} Unreadable w
    = Some (Exited 1, w')
    /\ exit_status (Exited 1) = Some 1
    /\ stderr w' = stderr w ++ [USAGE]
    /\ ticks w' = ticks w
    /\ files w' = files w
    /\ notifications w' = notifications w
    /\ stdout w' = stdout w.
Proof.
  intros w args.
  apply (main_usage_error "/usr/bin/notifier" (fun _ => EmptyString) args
           {[ SUPPORT_END := "2025-06-01"%string ]} Unreadable w); reflexivity.
Defined.

(** ** The timer file *)

Lemma write_specs_calendar (rest : list Z) :
  forall (fuel : nat) (enddate : Z) (timer : string) (w : World),
    (length rest < fuel)%nat ->
    Forall (fun days => in_range (enddate - timedelta_days days) = true) rest ->
    write_specs fuel (GenCalendar enddate rest) timer w
    = Some (Ok tt,
            fold_left (emit timer)
              (map (fun days => on_calendar (enddate - timedelta_days days))
                 rest) w).
Proof.
  induction rest as [|days rest IH]; intros fuel enddate timer w Hfuel Hall.
  - destruct fuel as [|fuel]; [inversion Hfuel|]. reflexivity.
  - destruct fuel as [|fuel]; [inversion Hfuel|].
    inversion Hall as [|? ? Hd Hrest]; subst.
    cbn [write_specs next resume_loop]. unfold datetime_sub_timedelta.
    rewrite Hd. rewrite IH; [reflexivity| |assumption].
    cbn [length] in Hfuel. lia.
Qed.

Lemma write_specs_created (timer : string) (w : World) (t enddate : Z) :
  today w = (Ok t, tick w) ->
  EPOCH <= t ->
  enddate <= DATETIME_MAX ->
  exists specs,
    (specs = [ON_ACTIVE_60]
     \/ specs = map on_calendar (trigger_times enddate))
    /\ (forall v, today v = (Ok t, tick v) ->
          list_of (generate_times enddate) v
          = Some (Ok specs, GenFinished, tick v))
    /\ write_specs (gen_bound (generate_times enddate))
         (generate_times enddate) timer w
       = Some (Ok tt, fold_left (emit timer) specs (tick w)).
Proof.
  intros Hnow Hlo Hmax.
  destruct (Z.ltb_spec (enddate - t) (timedelta_days 1)) as [Hn|Hf].
  - exists [ON_ACTIVE_60]. split; [now left|]. split.
    + intros v Hv. now apply (list_of_near v (tick v) t).
    + unfold generate_times, gen_bound. cbn [write_specs next].
      unfold now. rewrite Hnow. apply Z.ltb_lt in Hn. rewrite Hn. reflexivity.
  - exists (map on_calendar (trigger_times enddate)). split; [now right|].
    split.
    + intros v Hv. now apply (list_of_far v (tick v) t).
    + pose proof (write_specs_calendar WARN_DAYS (S (S (length WARN_DAYS)))
                    enddate timer (tick w) ltac:(lia)
                    (warn_days_in_range enddate t Hlo Hf Hmax)) as Hc.
      unfold trigger_times. rewrite map_map. rewrite <- Hc.
      unfold generate_times, gen_bound. cbn [write_specs next].
      unfold now. rewrite Hnow. apply Z.ltb_ge in Hf. rewrite Hf.
      reflexivity.
Qed.

Lemma files_fprint (path s : string) (w : World) :
  files (fprint path s w) !! path
  = Some (default EmptyString (files w !! path) +:+ line s).
Proof. unfold fprint, set_files. cbn [files]. apply lookup_insert_eq. Qed.

Lemma files_truncate (path : string) (w : World) :
  files (truncate path w) !! path = Some EmptyString.
Proof. unfold truncate. cbn [files]. apply lookup_insert_eq. Qed.

Lemma fold_emit_rest (timer : string) (specs : list string) :
  forall w : World,
    stdout (fold_left (emit timer) specs w) = stdout w ++ map got_spec specs
    /\ stderr (fold_left (emit timer) specs w) = stderr w
    /\ notifications (fold_left (emit timer) specs w) = notifications w
    /\ ticks (fold_left (emit timer) specs w) = ticks w
    /\ wall (fold_left (emit timer) specs w) = wall w
    /\ opened (fold_left (emit timer) specs w) = opened w
    /\ can_open (fold_left (emit timer) specs w) = can_open w
    /\ can_write (fold_left (emit timer) specs w) = can_write w.
Proof.
  induction specs as [|spec specs IH]; intros w.
  - cbn [fold_left map]. now rewrite app_nil_r.
  - cbn [fold_left map].
    destruct (IH (emit timer w spec))
      as (-> & -> & -> & -> & -> & -> & -> & ->).
    unfold emit, fprint, set_files, print, got_spec. cbn.
    now rewrite <- app_assoc.
Qed.

Lemma with_open_wt_ok (path : string)
  (body : World -> option (result unit * World)) (w w2 : World)
  (r : result unit) :
  can_open w path = true ->
  body (truncate path w) = Some (r, w2) ->
  can_write w2 path = true ->
  with_open_wt path body w = Some (r, w2).
Proof.
  intros Ho Hb Hc. unfold with_open_wt, open_wt, close_wt.
  now rewrite Ho, Hb, Hc.
Qed.

Lemma units_writable_inv (w : World) (dir : Path) :
  units_writable w dir = true ->
  can_open w (service_path dir) = true
  /\ can_write w (service_path dir) = true
  /\ can_open w (timer_path dir) = true
  /\ can_write w (timer_path dir) = true.
Proof.
  unfold units_writable. intros H.
  repeat (apply andb_true_iff in H as [H ?]). auto.
Qed.

(** [generate_units] when the clock can be read and both unit files can be
    opened and written. *)
Lemma generate_units_result (script_file : string) (enddate : Z)
  (dir : Path) (w : World) (t0 t : Z) :
  today w = (Ok t0, tick w) ->
  today (tick w) = (Ok t, tick (tick w)) ->
  enddate <= DATETIME_MAX ->
  units_writable w dir = true ->
  exists specs,
    (specs = [ON_ACTIVE_60]
     \/ specs = map on_calendar (trigger_times enddate))
    /\ list_of (generate_times enddate) (tick w)
       = Some (Ok specs, GenFinished, tick (tick w))
    /\ generate_units script_file enddate dir w
       = Some (Ok tt,
               fold_left (emit (timer_path dir)) specs
                 (tick (fprint (timer_path dir) "[Timer]"
                   (truncate (timer_path dir)
                     (fprint (service_path dir) ("ExecStart=" +:+ script_file)
                       (fprint (service_path dir) "[Service]"
                         (truncate (service_path dir) (tick w)))))))).
Proof.
  intros Hnow0 Hnow Hmax Hw.
  destruct (units_writable_inv w dir Hw) as (Hso & Hsw & Hto & Htw).
  destruct (today_inv _ _ _ Hnow) as (_ & Ht & Hlo & Hhi).
  set (w3 := fprint (service_path dir) ("ExecStart=" +:+ script_file)
               (fprint (service_path dir) "[Service]"
                 (truncate (service_path dir) (tick w)))).
  set (w5 := fprint (timer_path dir) "[Timer]" (truncate (timer_path dir) w3)).
  assert (Hnow5 : today w5 = (Ok t, tick w5)).
  { rewrite Ht. apply (today_ok w5). rewrite Ht in Hhi. exact Hhi. }
  destruct (write_specs_created (timer_path dir) w5 t enddate Hnow5 Hlo Hmax)
    as (specs & Hkind & Hlist & Hwrite).
  exists specs. split; [assumption|]. split; [now apply Hlist|].
  unfold generate_units. rewrite Hnow0.
  fold (service_path dir). fold (timer_path dir).
  rewrite (with_open_wt_ok (service_path dir) _ (tick w) w3 (Ok tt));
    [|exact Hso|reflexivity|exact Hsw].
  cbv beta iota zeta.
  apply with_open_wt_ok; [exact Hto|exact Hwrite|].
  destruct (fold_emit_rest (timer_path dir) specs (tick w5))
    as (_ & _ & _ & _ & _ & _ & _ & ->).
  exact Htw.
Qed.

Lemma files_emit (timer : string) (specs : list string) :
  forall (w : World) (content : string),
    files w !! timer = Some content ->
    files (fold_left (emit timer) specs w) !! timer
    = Some (content +:+ concat_lines specs).
Proof.
  induction specs as [|spec specs IH]; intros w content H.
  - cbn [fold_left concat_lines]. now rewrite append_nil_r.
  - cbn [fold_left concat_lines].
    rewrite (IH _ (content +:+ line spec)).
    + now rewrite append_assoc.
    + unfold emit. rewrite files_fprint.
      change (files (print ("Got spec: " +:+ spec) w)) with (files w).
      now rewrite H.
Qed.

(** C7: when the two unit files can be opened and written, the timer file
    holds, after its [Timer] header, one line for each generated trigger,
    in the order of generation; a line is [OnActiveSec=60] or
    [OnCalendar=] followed by the ISO time, and the lines of one file are
    all of the same kind. *)
Theorem generate_units_timer (script_file : string) (enddate : Z)
  (dir : Path) (w w0 w1 : World) (t0 t : Z) :
  today w = (Ok t0, w0) ->
  today w0 = (Ok t, w1) ->
  valid_datetime enddate ->
  units_writable w dir = true ->
  exists (specs : list string) (w' : World),
    list_of (generate_times enddate) w0 = Some (Ok specs, GenFinished, w1)
    /\ generate_units script_file enddate dir w = Some (Ok tt, w')
    /\ files w' !! str_path (joinpath dir "support-end.timer")
       = Some (concat_lines ("[Timer]" :: specs))
    /\ split_lines (concat_lines ("[Timer]" :: specs)) = "[Timer]" :: specs
    /\ Forall (fun spec =>
                 one_line spec = true
                 /\ (spec = "OnActiveSec=60"
                     \/ exists time, spec = "OnCalendar=" +:+ isoformat time))
         specs
    /\ (Forall (fun spec => is_relative spec = true
                            /\ is_absolute spec = false) specs
        \/ Forall (fun spec => is_absolute spec = true
                               /\ is_relative spec = false) specs).
Proof.
  intros Hnow0 Hnow [_ Hmax] Hw.
  destruct (today_inv _ _ _ Hnow0) as (-> & _ & _).
  destruct (today_inv _ _ _ Hnow) as (-> & _ & _).
  destruct (generate_units_result script_file enddate dir w t0 t Hnow0 Hnow
              Hmax Hw) as (specs & Hkind & Hlist & Hgen).
  eexists specs, _.
  assert (Hone : Forall (fun spec =>
                   one_line spec = true
                   /\ (spec = "OnActiveSec=60"
                       \/ exists time, spec = "OnCalendar=" +:+ isoformat time))
                   specs).
  { destruct Hkind as [->| ->].
    - constructor; [|constructor]. split; [reflexivity|now left].
    - apply List.Forall_forall. intros spec Hin.
      apply List.in_map_iff in Hin as (time & <- & _).
      split; [apply on_calendar_one_line|]. right. now exists time. }
  split; [exact Hlist|].
  split; [exact Hgen|].
  split.
  { fold (timer_path dir).
    rewrite (files_emit (timer_path dir) specs _ (line "[Timer]")).
    - reflexivity.
    - change (files (tick ?x)) with (files x).
      rewrite files_fprint, files_truncate. reflexivity. }
  split.
  { apply split_concat_lines. constructor; [reflexivity|].
    revert Hone. apply List.Forall_impl. now intros spec [H _]. }
  split; [exact Hone|].
  destruct Hkind as [->| ->].
  - left. repeat constructor.
  - right. apply List.Forall_forall. intros spec Hin.
    apply List.in_map_iff in Hin as (time & <- & _). split; reflexivity.
Qed.

Lemma generate_units_timer_witness :
  let enddate := datetime_of_date 2025 6 1 in
  let dir := PosixPath "/run/systemd/generator" in
  let w := world_at (datetime_of_date 2025 5 1) in
  exists (specs : list string) (w' : World),
    list_of (generate_times enddate) (tick w)
    = Some (Ok specs, GenFinished, tick (tick w))
    /\ generate_units "/usr/bin/support-end-notifier" enddate dir w
       = Some (Ok tt, w')
    /\ files w' !! str_path (joinpath dir "support-end.timer")
       = Some (concat_lines ("[Timer]" :: specs))
    /\ split_lines (concat_lines ("[Timer]" :: specs)) = "[Timer]" :: specs
    /\ Forall (fun spec =>
                 one_line spec = true
                 /\ (spec = "OnActiveSec=60"
                     \/ exists time, spec = "OnCalendar=" +:+ isoformat time))
         specs
    /\ (Forall (fun spec => is_relative spec = true
                            /\ is_absolute spec = false) specs
        \/ Forall (fun spec => is_absolute spec = true
                               /\ is_relative spec = false) specs).
Proof.
  intros enddate dir w.
  apply (generate_units_timer "/usr/bin/support-end-notifier" enddate dir
           w (tick w) (tick (tick w))
           (datetime_of_date 2025 5 1) (datetime_of_date 2025 5 1)).
  - reflexivity.
  - reflexivity.
  - unfold valid_datetime. vm_compute. split; discriminate.
  - reflexivity.
Defined.

(** ** The scenarios of the specification *)

Example generate_31_days_out :
  let w := world_at (datetime_of_date 2025 5 1) in
  list_of (generate_times (datetime_of_date 2025 6 1)) w
  = Some (Ok ["OnCalendar=2025-05-02T00:00:00"; "OnCalendar=2025-05-12T00:00:00";
              "OnCalendar=2025-05-22T00:00:00"; "OnCalendar=2025-05-26T00:00:00";
              "OnCalendar=2025-05-27T00:00:00"; "OnCalendar=2025-05-28T00:00:00";
              "OnCalendar=2025-05-29T00:00:00"; "OnCalendar=2025-05-30T00:00:00";
              "OnCalendar=2025-05-31T00:00:00"]%string,
          GenFinished, tick w).
Proof. vm_compute. reflexivity. Qed.

(** Two days before the deadline eight of the nine times are in the past,
    and all nine are generated. *)
Example generate_inside_the_window :
  let t := at_time (datetime_of_date 2025 5 30) 8 0 0 in
  let w := world_at t in
  list_of (generate_times (datetime_of_date 2025 6 1)) w
  = Some (Ok ["OnCalendar=2025-05-02T00:00:00"; "OnCalendar=2025-05-12T00:00:00";
              "OnCalendar=2025-05-22T00:00:00"; "OnCalendar=2025-05-26T00:00:00";
              "OnCalendar=2025-05-27T00:00:00"; "OnCalendar=2025-05-28T00:00:00";
              "OnCalendar=2025-05-29T00:00:00"; "OnCalendar=2025-05-30T00:00:00";
              "OnCalendar=2025-05-31T00:00:00"]%string,
          GenFinished, tick w)
  /\ length (filter (fun time => time <? t)
               (trigger_times (datetime_of_date 2025 6 1))) = 8%nat.
Proof. split; vm_compute; reflexivity. Qed.

Example generate_one_hour_out :
  let w := world_at (at_time (datetime_of_date 2025 6 1) 23 0 0) in
  list_of (generate_times (datetime_of_date 2025 6 1)) w
  = Some (Ok ["OnActiveSec=60"%string], GenFinished, tick w).
Proof. vm_compute. reflexivity. Qed.

Example generate_exactly_one_day_out :
  let w := world_at (datetime_of_date 2025 5 31) in
  exists specs,
    list_of (generate_times (datetime_of_date 2025 6 1)) w
    = Some (Ok specs, GenFinished, tick w)
    /\ length specs = 9%nat.
Proof. eexists. split; vm_compute; reflexivity. Qed.

Example timer_file :
  let w := world_at (at_time (datetime_of_date 2025 6 1) 23 0 0) in
  match generate_units "/usr/bin/support-end-notifier"
          (datetime_of_date 2025 6 1) (PosixPath "/run/gen") w with
  | Some (Ok _, w') =>
      files w' !! "/run/gen/support-end.timer"%string
      = Some (concat_lines ["[Timer]"; "OnActiveSec=60"]%string)
      /\ files w' !! "/run/gen/support-end.service"%string
         = Some (concat_lines
                   ["[Service]"; "ExecStart=/usr/bin/support-end-notifier"]%string)
      /\ stdout w' = ["Got spec: OnActiveSec=60"%string]
      /\ ticks w' = 2%nat
  | _ => False
  end.
Proof. vm_compute. repeat split. Qed.

Example status_output :
  let w := world_at (at_time (datetime_of_date 2025 5 1) 12 0 0) in
  let args := {| normal_dir := None; early_dir := None; late_dir := None;
                 notify := false |} in
  main "/usr/bin/support-end-notifier" (fun _ => EmptyString) args
    {[ SUPPORT_END := "2025-06-01"%string ]} Unreadable w
  = Some (Returned,
          print "(30 days, 12:00:00 left)"
            (tick (print "Found SUPPORT_END: 2025-06-01 00:00:00" w))).
Proof. vm_compute. reflexivity. Qed.

(** A [datetime] cannot go below 0001-01-01. *)
Example datetime_underflow :
  datetime_sub_timedelta (datetime_of_date 1 1 10) (timedelta_days 30)
  = Raise OverflowError
  /\ datetime_sub_timedelta (datetime_of_date 1 1 31) (timedelta_days 30)
     = Ok (datetime_of_date 1 1 1).
Proof. split; reflexivity. Qed.

(** * Further properties *)

(** ** The calendar *)

Lemma month_day_spec (leapyear : bool) (n : Z) :
  0 <= n < 365 + b2z leapyear ->
  exists m d,
    month_day leapyear n = (m, d)
    /\ 1 <= m <= 12 /\ 1 <= d <= month_length leapyear m
    /\ month_start leapyear m + d = n + 1.
Proof.
  intros Hn.
  assert (H : all_below 366 (month_day_ok true)
              && all_below 365 (month_day_ok false) = true)
    by (vm_compute; reflexivity).
  apply andb_true_iff in H as [Ht Hf].
  assert (Hok : month_day_ok leapyear n = true).
  { destruct leapyear; cbn [b2z] in Hn;
      [apply (all_below_spec _ _ Ht)|apply (all_below_spec _ _ Hf)]; lia. }
  unfold month_day_ok in Hok. destruct (month_day leapyear n) as [m d].
  repeat (apply andb_true_iff in Hok as [Hok ?]).
  repeat match goal with
         | H : (_ <=? _) = true |- _ => apply Z.leb_le in H
         | H : (_ =? _) = true |- _ => apply Z.eqb_eq in H
         end.
  exists m, d. repeat split; assumption || lia.
Qed.

Lemma month_day_start (leapyear : bool) (m d : Z) :
  1 <= m <= 12 -> 1 <= d <= month_length leapyear m ->
  month_day leapyear (month_start leapyear m + d - 1) = (m, d).
Proof.
  intros Hm Hd.
  assert (H : all_below 13 (fun m => all_below 32 (day_month_ok true m))
              && all_below 13 (fun m => all_below 32 (day_month_ok false m))
              = true)
    by (vm_compute; reflexivity).
  apply andb_true_iff in H as [Ht Hf].
  assert (Hd31 : d <= 31).
  { unfold month_length in Hd.
    destruct leapyear;
      destruct (month_cases m Hm) as
        [->|[->|[->|[->|[->|[->|[->|[->|[->|[->|[->| ->]]]]]]]]]]];
      cbv -[Z.le] in Hd; lia. }
  assert (Hok : day_month_ok leapyear m d = true).
  { destruct leapyear.
    - pose proof (all_below_spec _ _ Ht m ltac:(lia)) as H1. cbv beta in H1.
      apply (all_below_spec _ _ H1). lia.
    - pose proof (all_below_spec _ _ Hf m ltac:(lia)) as H1. cbv beta in H1.
      apply (all_below_spec _ _ H1). lia. }
  unfold day_month_ok in Hok.
  destruct Hd as [Hd1 Hd2]. apply Z.leb_le in Hd1, Hd2.
  rewrite Hd1, Hd2 in Hok. cbn [andb negb orb] in Hok.
  destruct (month_day leapyear (month_start leapyear m + d - 1)) as [m' d'].
  apply andb_true_iff in Hok as [Em Ed].
  apply Z.eqb_eq in Em, Ed. congruence.
Qed.

(** [ord2ymd] as the code computes it, with its last step named. *)
Lemma ord2ymd_steps (n : Z) :
  ord2ymd n
  = (let n0 := n - 1 in
     let n400 := n0 / DI400Y in
     let r400 := n0 mod DI400Y in
     let n100 := r400 / DI100Y in
     let r100 := r400 mod DI100Y in
     let n4 := r100 / DI4Y in
     let r4 := r100 mod DI4Y in
     let n1 := r4 / 365 in
     let r1 := r4 mod 365 in
     let year := n400 * 400 + 1 + (n100 * 100 + n4 * 4 + n1) in
     if (n1 =? 4) || (n100 =? 4) then (year - 1, 12, 31)
     else
       let leapyear := (n1 =? 3) && (negb (n4 =? 24) || (n100 =? 3)) in
       (year, fst (month_day leapyear r1), snd (month_day leapyear r1))).
Proof.
  unfold ord2ymd, month_day. cbv zeta.
  destruct (_ || _); [reflexivity|].
  match goal with |- context [if ?c then _ else _] => destruct c end;
    reflexivity.
Qed.

Lemma is_leap_parts (n400 n100 n4 n1 : Z) :
  0 <= n100 <= 3 -> 0 <= n4 <= 24 -> 0 <= n1 <= 3 ->
  is_leap (n400 * 400 + 1 + (n100 * 100 + n4 * 4 + n1))
  = (n1 =? 3) && (negb (n4 =? 24) || (n100 =? 3)).
Proof.
  intros H100 H4 H1. unfold is_leap.
  set (y := n400 * 400 + 1 + (n100 * 100 + n4 * 4 + n1)).
  assert (E4 : y mod 4 = (n1 + 1) mod 4).
  { unfold y. Z.div_mod_to_equations. lia. }
  assert (E100 : y mod 100 = (n4 * 4 + n1 + 1) mod 100).
  { unfold y. Z.div_mod_to_equations. lia. }
  assert (E400 : y mod 400 = (n100 * 100 + n4 * 4 + n1 + 1) mod 400).
  { unfold y. Z.div_mod_to_equations. lia. }
  rewrite E4, E100, E400.
  destruct (Z.eqb_spec n1 3) as [->|N1];
    destruct (Z.eqb_spec n4 24) as [->|N4];
    destruct (Z.eqb_spec n100 3) as [->|N100]; cbn [andb orb negb];
    repeat match goal with
           | |- context [?a mod ?b =? 0] =>
               destruct (Z.eqb_spec (a mod b) 0)
           end; cbn [andb orb negb]; try reflexivity; exfalso;
    Z.div_mod_to_equations; lia.
Qed.

Lemma days_before_year_parts (n400 n100 n4 n1 : Z) :
  0 <= n100 -> 0 <= n4 -> 0 <= n1 <= 3 ->
  n4 * 4 + n1 <= 99 -> n100 * 100 + n4 * 4 + n1 <= 399 ->
  days_before_year (n400 * 400 + 1 + (n100 * 100 + n4 * 4 + n1))
  = n400 * DI400Y + n100 * DI100Y + n4 * DI4Y + n1 * 365.
Proof.
  intros. unfold days_before_year, DI400Y, DI100Y, DI4Y.
  Z.div_mod_to_equations. lia.
Qed.

Lemma check_date_fields_intro (y m d : Z) :
  1 <= y <= 9999 -> 1 <= m <= 12 -> 1 <= d <= month_length (is_leap y) m ->
  check_date_fields y m d = true.
Proof.
  intros Hy Hm Hd. unfold check_date_fields, days_in_month, MINYEAR, MAXYEAR.
  unfold month_length in Hd.
  repeat (apply andb_true_iff; split); apply Z.leb_le; lia.
Qed.

(** Every day of the calendar is a valid date, and [ymd2ord] maps the date
    back to the day. *)
Lemma ord2ymd_valid (n : Z) :
  1 <= n <= MAXORDINAL ->
  exists y m d,
    ord2ymd n = (y, m, d)
    /\ check_date_fields y m d = true
    /\ ymd2ord y m d = n.
Proof.
  intros Hn. rewrite ord2ymd_steps. cbv zeta.
  set (n0 := n - 1).
  set (n400 := n0 / DI400Y). set (r400 := n0 mod DI400Y).
  set (n100 := r400 / DI100Y). set (r100 := r400 mod DI100Y).
  set (n4 := r100 / DI4Y). set (r4 := r100 mod DI4Y).
  set (n1 := r4 / 365). set (r1 := r4 mod 365).
  assert (E400 : n0 = DI400Y * n400 + r400 /\ 0 <= r400 < DI400Y).
  { split; [apply Z.div_mod|apply Z.mod_pos_bound]; discriminate || reflexivity. }
  assert (E100 : r400 = DI100Y * n100 + r100 /\ 0 <= r100 < DI100Y).
  { split; [apply Z.div_mod|apply Z.mod_pos_bound]; discriminate || reflexivity. }
  assert (E4 : r100 = DI4Y * n4 + r4 /\ 0 <= r4 < DI4Y).
  { split; [apply Z.div_mod|apply Z.mod_pos_bound]; discriminate || reflexivity. }
  assert (E1 : r4 = 365 * n1 + r1 /\ 0 <= r1 < 365).
  { split; [apply Z.div_mod|apply Z.mod_pos_bound]; discriminate || reflexivity. }
  unfold MAXORDINAL, DI400Y, DI100Y, DI4Y in *.
  clearbody n400 r400 n100 r100 n4 r4 n1 r1. subst n0.
  destruct E400 as [E400 B400], E100 as [E100 B100], E4 as [E4 B4],
    E1 as [E1 B1].
  assert (Hn100 : 0 <= n100 <= 4) by lia.
  assert (Hn4 : 0 <= n4 <= 24) by lia.
  assert (Hn1 : 0 <= n1 <= 4) by lia.
  assert (Hn400 : 0 <= n400 <= 24) by lia.
  destruct ((n1 =? 4) || (n100 =? 4)) eqn:Eend.
  - (* the last day of a leap year *)
    assert (Hleap : is_leap (n400 * 400 + 1 + (n100 * 100 + n4 * 4 + n1) - 1)
                    = true).
    { apply orb_true_iff in Eend as [Eend|Eend]; apply Z.eqb_eq in Eend.
      - replace (n400 * 400 + 1 + (n100 * 100 + n4 * 4 + n1) - 1)
          with (n400 * 400 + 1 + (n100 * 100 + n4 * 4 + 3)) by lia.
        rewrite is_leap_parts by lia.
        destruct (Z.eqb_spec n4 24); [lia|reflexivity].
      - replace (n400 * 400 + 1 + (n100 * 100 + n4 * 4 + n1) - 1)
          with (n400 * 400 + 1 + (3 * 100 + 24 * 4 + 3)) by lia.
        rewrite is_leap_parts by lia. reflexivity. }
    eexists _, 12, 31. split; [reflexivity|]. split.
    + apply check_date_fields_intro; [|lia|rewrite Hleap; cbv; split; discriminate].
      apply orb_true_iff in Eend as [Eend|Eend]; apply Z.eqb_eq in Eend; lia.
    + unfold ymd2ord, days_before_month. rewrite Hleap.
      change (index DAYS_BEFORE_MONTH 12 + b2z ((12 >? 2) && true)) with 335.
      apply orb_true_iff in Eend as [Eend|Eend]; apply Z.eqb_eq in Eend.
      * replace (n400 * 400 + 1 + (n100 * 100 + n4 * 4 + n1) - 1)
          with (n400 * 400 + 1 + (n100 * 100 + n4 * 4 + 3)) by lia.
        rewrite days_before_year_parts by lia.
        unfold DI400Y, DI100Y, DI4Y. lia.
      * replace (n400 * 400 + 1 + (n100 * 100 + n4 * 4 + n1) - 1)
          with (n400 * 400 + 1 + (3 * 100 + 24 * 4 + 3)) by lia.
        rewrite days_before_year_parts by lia.
        unfold DI400Y, DI100Y, DI4Y. lia.
  - apply orb_false_iff in Eend as [Ne1 Ne100].
    apply Z.eqb_neq in Ne1, Ne100.
    pose proof (is_leap_parts n400 n100 n4 n1 ltac:(lia) ltac:(lia) ltac:(lia))
      as Hleap.
    set (leapyear := (n1 =? 3) && (negb (n4 =? 24) || (n100 =? 3))) in *.
    destruct (month_day_spec leapyear r1) as (m & d & Emd & Hm & Hd & Hstart).
    { destruct leapyear; cbn [b2z]; lia. }
    rewrite Emd. cbn [fst snd].
    eexists _, m, d. split; [reflexivity|]. split.
    + apply check_date_fields_intro; [lia|lia|now rewrite Hleap].
    + unfold ymd2ord, days_before_month. rewrite Hleap.
      fold (month_start leapyear m).
      rewrite days_before_year_parts by lia.
      unfold DI400Y, DI100Y, DI4Y. lia.
Qed.

Lemma days_before_year_step (y : Z) :
  days_before_year (y + 1) = days_before_year y + 365 + b2z (is_leap y).
Proof.
  unfold days_before_year, is_leap.
  replace (y + 1 - 1) with y by lia.
  destruct (Z.eqb_spec (y mod 4) 0); destruct (Z.eqb_spec (y mod 100) 0);
    destruct (Z.eqb_spec (y mod 400) 0); cbn [andb orb negb b2z];
    Z.div_mod_to_equations; lia.
Qed.

Lemma days_before_year_mono (y y' : Z) :
  y <= y' -> days_before_year y <= days_before_year y'.
Proof.
  intros H. unfold days_before_year. Z.div_mod_to_equations. lia.
Qed.

Lemma ymd2ord_in_year (y m d : Z) :
  check_date_fields y m d = true ->
  days_before_year y < ymd2ord y m d <= days_before_year (y + 1).
Proof.
  intros Hc. destruct (check_date_fields_inv y m d Hc) as (_ & Hm & Hd).
  pose proof (day_of_year_bounds y m d Hm Hd).
  rewrite days_before_year_step. unfold ymd2ord. lia.
Qed.

(** [ord2ymd] gives back the date [ymd2ord] was given. *)
Lemma ord2ymd_ymd2ord (y m d : Z) :
  check_date_fields y m d = true -> ord2ymd (ymd2ord y m d) = (y, m, d).
Proof.
  intros Hc.
  destruct (ord2ymd_valid _ (ymd2ord_bounds y m d Hc))
    as (y' & m' & d' & -> & Hc' & He).
  pose proof (ymd2ord_in_year y m d Hc) as Hr.
  pose proof (ymd2ord_in_year y' m' d' Hc') as Hr'.
  assert (Hy : y' = y).
  { destruct (Z.lt_trichotomy y' y) as [Hlt|[Heq|Hgt]]; [|assumption|].
    - pose proof (days_before_year_mono (y' + 1) y ltac:(lia)). lia.
    - pose proof (days_before_year_mono (y + 1) y' ltac:(lia)). lia. }
  subst y'.
  destruct (check_date_fields_inv y m d Hc) as (_ & Hm & Hd).
  destruct (check_date_fields_inv y m' d' Hc') as (_ & Hm' & Hd').
  pose proof (month_day_start (is_leap y) m d Hm Hd) as E.
  pose proof (month_day_start (is_leap y) m' d' Hm' Hd') as E'.
  unfold ymd2ord, days_before_month in He.
  fold (month_start (is_leap y) m) in He.
  fold (month_start (is_leap y) m') in He.
  replace (month_start (is_leap y) m' + d' - 1)
    with (month_start (is_leap y) m + d - 1) in E' by lia.
  congruence.
Qed.

(** ** Formatting and parsing dates *)

Lemma toordinal_of_date (y m d : Z) :
  toordinal (datetime_of_date y m d) = ymd2ord y m d.
Proof.
  unfold toordinal, datetime_of_date. rewrite Z.div_mul by discriminate. lia.
Qed.

Lemma format_date_of_date (y m d : Z) :
  check_date_fields y m d = true ->
  format_date (datetime_of_date y m d) = iso_date y m d.
Proof.
  intros Hc. unfold format_date, year, month, day.
  now rewrite toordinal_of_date, (ord2ymd_ymd2ord y m d Hc).
Qed.

Lemma toordinal_bounds (t : Z) :
  valid_datetime t -> 1 <= toordinal t <= MAXORDINAL.
Proof.
  unfold valid_datetime, DATETIME_MAX, toordinal, MAXORDINAL, US_PER_DAY,
    US_PER_SECOND. intros H. Z.div_mod_to_equations. lia.
Qed.

Lemma format_date_valid (t : Z) :
  valid_datetime t ->
  exists y m d,
    check_date_fields y m d = true
    /\ ymd2ord y m d = toordinal t
    /\ format_date t = iso_date y m d
    /\ datetime_of_date y m d = t - time_of_day t.
Proof.
  intros Hv.
  destruct (ord2ymd_valid (toordinal t) (toordinal_bounds t Hv))
    as (y & m & d & Ho & Hc & Hn).
  exists y, m, d. repeat split; try assumption.
  - unfold format_date, year, month, day. now rewrite Ho.
  - unfold datetime_of_date. rewrite Hn. unfold toordinal, time_of_day.
    pose proof (Z.div_mod t US_PER_DAY ltac:(discriminate)). lia.
Qed.

Lemma strptime_format_date (t : Z) :
  valid_datetime t -> strptime (format_date t) = Ok (t - time_of_day t).
Proof.
  intros Hv. destruct (format_date_valid t Hv) as (y & m & d & Hc & _ & -> & <-).
  now apply strptime_iso_date.
Qed.

Lemma iso_date_nonempty (y m d : Z) :
  0 <= y <= 9999 -> exists a s, iso_date y m d = String a s.
Proof.
  intros Hy. unfold iso_date. rewrite (pad0_four_digits y Hy).
  unfold four_digits. rewrite append_cons. eauto.
Qed.

Lemma present_value_ok (environ : gmap string string)
  (os_release : os_release_file) (val : string) :
  present_value environ os_release = Some val ->
  support_end environ os_release = strptime val.
Proof.
  rewrite present_value_val. unfold support_end, result_bind.
  destruct (support_end_val environ os_release); [|discriminate].
  now intros [= ->].
Qed.

Lemma support_end_ok_inv (environ : gmap string string)
  (os_release : os_release_file) (enddate : Z) :
  support_end environ os_release = Ok enddate ->
  exists val y m d,
    present_value environ os_release = Some val
    /\ regex_match val = Some (y, m, d, EmptyString)
    /\ check_date_fields y m d = true
    /\ enddate = datetime_of_date y m d.
Proof.
  intros H. unfold support_end, result_bind in H.
  rewrite present_value_val.
  destruct (support_end_val environ os_release) as [val|e]; [|discriminate].
  apply strptime_ok_inv in H as (y & m & d & Hr & Hc & ->).
  now exists val, y, m, d.
Qed.

(** X1: the override wins: with a non-empty SUPPORT_END in the environment
    the result is the parse of that value, whatever os-release holds and
    whether or not there is an os-release file at all. *)
Theorem support_end_override_wins (environ : gmap string string)
  (os_release os_release' : os_release_file) (a : ascii)
  (s : string) :
  environ !! SUPPORT_END = Some (String a s) ->
  support_end environ os_release = strptime (String a s)
  /\ support_end environ os_release = support_end environ os_release'.
Proof.
  intros H. unfold support_end, support_end_val, getenv. now rewrite H.
Qed.

Lemma support_end_override_wins_witness :
  support_end {[ SUPPORT_END := "2031-01-31"%string ]} Unreadable
  = strptime "2031-01-31"
  /\ support_end {[ SUPPORT_END := "2031-01-31"%string ]} Unreadable
     = support_end {[ SUPPORT_END := "2031-01-31"%string ]}
         (Release {[ SUPPORT_END := "2025-06-01"%string ]}).
Proof.
  apply (support_end_override_wins {[ SUPPORT_END := "2031-01-31"%string ]}
           Unreadable (Release {[ SUPPORT_END := "2025-06-01"%string ]}) "2"
           "031-01-31").
  vm_compute. reflexivity.
Defined.

(** X3: resolution normalises the date: whatever spelling the parser
    accepted, the resolved deadline prints as YYYY-MM-DD 00:00:00 of the
    date read, and that YYYY-MM-DD given as the value resolves to the same
    deadline. *)
Theorem support_end_canonical (environ : gmap string string)
  (os_release : os_release_file) (enddate : Z) :
  support_end environ os_release = Ok enddate ->
  exists val y m d,
    present_value environ os_release = Some val
    /\ regex_match val = Some (y, m, d, EmptyString)
    /\ str_datetime enddate = iso_date y m d +:+ " 00:00:00"
    /\ isoformat enddate = iso_date y m d +:+ "T00:00:00"
    /\ support_end {[ SUPPORT_END := iso_date y m d ]} Unreadable = Ok enddate.
Proof.
  intros H.
  destruct (support_end_ok_inv _ _ _ H) as (val & y & m & d & Hp & Hr & Hc & ->).
  exists val, y, m, d.
  pose proof (datetime_of_date_midnight y m d) as Hmid.
  destruct (midnight_fields _ Hmid) as (Hh & Hmi & Hs & Hu).
  destruct (check_date_fields_inv y m d Hc) as (Hy & _).
  split; [assumption|]. split; [assumption|].
  split; [|split].
  - unfold str_datetime, isoformat_sep.
    rewrite Hh, Hmi, Hs, Hu, (format_date_of_date y m d Hc). reflexivity.
  - unfold isoformat, isoformat_sep.
    rewrite Hh, Hmi, Hs, Hu, (format_date_of_date y m d Hc). reflexivity.
  - destruct (iso_date_nonempty y m d ltac:(lia)) as (a & s & Hiso).
    rewrite (present_value_ok _ _ (iso_date y m d)).
    + now apply strptime_iso_date.
    + unfold present_value. rewrite lookup_singleton_eq. now rewrite Hiso.
Qed.

Lemma support_end_canonical_witness :
  exists val y m d,
    present_value {[ SUPPORT_END := "2025-6-1"%string ]} Unreadable = Some val
    /\ regex_match val = Some (y, m, d, EmptyString)
    /\ str_datetime (datetime_of_date 2025 6 1)
       = iso_date y m d +:+ " 00:00:00"
    /\ isoformat (datetime_of_date 2025 6 1) = iso_date y m d +:+ "T00:00:00"
    /\ support_end {[ SUPPORT_END := iso_date y m d ]} Unreadable
       = Ok (datetime_of_date 2025 6 1).
Proof.
  apply (support_end_canonical {[ SUPPORT_END := "2025-6-1"%string ]} Unreadable
           (datetime_of_date 2025 6 1)).
  vm_compute. reflexivity.
Defined.

(** X4: the date of a directive read back: the YYYY-MM-DD that [isoformat]
    writes for a time, given as SUPPORT_END, resolves to midnight of that
    day. *)
Theorem support_end_of_format_date (t : Z) (os_release : os_release_file) :
  valid_datetime t ->
  support_end {[ SUPPORT_END := format_date t ]} os_release
  = Ok (t - time_of_day t)
  /\ exists time, isoformat t = format_date t +:+ "T" +:+ time.
Proof.
  intros Hv. split.
  - destruct (format_date_valid t Hv) as (y & m & d & Hc & _ & Hf & Hd).
    destruct (check_date_fields_inv y m d Hc) as (Hy & _).
    destruct (iso_date_nonempty y m d ltac:(lia)) as (a & s & Hiso).
    rewrite (present_value_ok _ _ (format_date t)).
    + now apply strptime_format_date.
    + unfold present_value. rewrite lookup_singleton_eq.
      now rewrite Hf, Hiso.
  - unfold isoformat, isoformat_sep. eauto.
Qed.

Lemma support_end_of_format_date_witness :
  let t := at_time (datetime_of_date 2025 5 30) 8 15 0 in
  support_end {[ SUPPORT_END := format_date t ]} Unreadable
  = Ok (t - time_of_day t)
  /\ exists time, isoformat t = format_date t +:+ "T" +:+ time.
Proof.
  intros t. apply (support_end_of_format_date t Unreadable).
  unfold valid_datetime. vm_compute. split; discriminate.
Defined.

(** ** Times of the directives *)

Lemma toordinal_sub_days (t days : Z) :
  toordinal (t - timedelta_days days) = toordinal t - days.
Proof.
  unfold toordinal, timedelta_days.
  replace (t - days * US_PER_DAY) with (t + (- days) * US_PER_DAY) by lia.
  rewrite Z.div_add by discriminate. lia.
Qed.

Lemma time_of_day_sub_days (t days : Z) :
  time_of_day (t - timedelta_days days) = time_of_day t.
Proof.
  unfold time_of_day, timedelta_days.
  replace (t - days * US_PER_DAY) with (t + (- days) * US_PER_DAY) by lia.
  now rewrite Z.mod_add by discriminate.
Qed.

Lemma on_calendar_sub_days (enddate days : Z) :
  valid_datetime (enddate - timedelta_days days) ->
  on_calendar (enddate - timedelta_days days)
  = directive enddate (ord2ymd (toordinal enddate - days))
  /\ days_before enddate days (ord2ymd (toordinal enddate - days)).
Proof.
  intros Hv.
  destruct (format_date_valid _ Hv) as (y & m & d & Hc & Hn & Hf & _).
  rewrite toordinal_sub_days in Hn.
  pose proof (ord2ymd_ymd2ord y m d Hc) as Ho. rewrite Hn in Ho.
  rewrite Ho. split; [|now split].
  unfold on_calendar, isoformat, isoformat_sep, directive.
  unfold hour, minute, second, microsecond.
  now rewrite time_of_day_sub_days, Hf.
Qed.

Lemma in_range_valid (t : Z) : in_range t = true -> valid_datetime t.
Proof.
  unfold in_range, valid_datetime. intros H.
  apply andb_true_iff in H as [H0 H1]. apply Z.leb_le in H0, H1. lia.
Qed.

(** X5: the dates of the directives are calendar dates: with at least one
    day left, the directive for an offset of [days] days carries the date
    that lies [days] days before the date of the deadline, and the time of
    day of the deadline. *)
Theorem generate_times_dates (w w1 : World) (t enddate : Z) :
  today w = (Ok t, w1) ->
  valid_datetime enddate ->
  timedelta_days 1 <= enddate - t ->
  exists dates : list (Z * Z * Z),
    list_of (generate_times enddate) w
    = Some (Ok (map (directive enddate) dates), GenFinished, w1)
    /\ Forall2 (days_before enddate) WARN_DAYS dates.
Proof.
  intros Hnow [_ Hmax] Hfar.
  destruct (today_inv _ _ _ Hnow) as (_ & _ & Hlo & _).
  pose proof (warn_days_in_range enddate t Hlo Hfar Hmax) as Hall.
  exists (map (fun days => ord2ymd (toordinal enddate - days)) WARN_DAYS).
  rewrite (list_of_far w w1 t enddate Hnow Hmax Hfar).
  unfold trigger_times. rewrite !map_map.
  revert Hall. generalize WARN_DAYS as l.
  induction l as [|days l IH]; intros Hall.
  - split; [reflexivity|constructor].
  - inversion Hall as [|? ? Hd Hrest]; subst.
    destruct (IH Hrest) as [Heq Hf2].
    destruct (on_calendar_sub_days enddate days (in_range_valid _ Hd))
      as [Hon Hbefore].
    split.
    + cbn [map]. rewrite Hon. inversion Heq as [Hl]. now rewrite Hl.
    + cbn [map]. now constructor.
Qed.

Lemma generate_times_dates_witness :
  let enddate := datetime_of_date 2024 3 15 in
  let w := world_at (datetime_of_date 2024 1 1) in
  exists dates : list (Z * Z * Z),
    list_of (generate_times enddate) w
    = Some (Ok (map (directive enddate) dates), GenFinished, tick w)
    /\ Forall2 (days_before enddate) WARN_DAYS dates.
Proof.
  intros enddate w.
  apply (generate_times_dates w (tick w) (datetime_of_date 2024 1 1) enddate).
  - reflexivity.
  - unfold valid_datetime. vm_compute. split; discriminate.
  - vm_compute. discriminate.
Defined.

Example generate_across_leap_day :
  let w := world_at (datetime_of_date 2024 1 1) in
  list_of (generate_times (datetime_of_date 2024 3 15)) w
  = Some (Ok ["OnCalendar=2024-02-14T00:00:00"; "OnCalendar=2024-02-24T00:00:00";
              "OnCalendar=2024-03-05T00:00:00"; "OnCalendar=2024-03-09T00:00:00";
              "OnCalendar=2024-03-10T00:00:00"; "OnCalendar=2024-03-11T00:00:00";
              "OnCalendar=2024-03-12T00:00:00"; "OnCalendar=2024-03-13T00:00:00";
              "OnCalendar=2024-03-14T00:00:00"]%string,
          GenFinished, tick w).
Proof. vm_compute. reflexivity. Qed.

(** ** Different times, different directives *)

Lemma length_append (a b : string) :
  String.length (a +:+ b) = (String.length a + String.length b)%nat.
Proof.
  induction a as [|x a IH]; [reflexivity|].
  rewrite append_cons. cbn [String.length]. now rewrite IH.
Qed.

Lemma append_inj_r (a : string) :
  forall b s, a +:+ s = b +:+ s -> a = b.
Proof.
  induction a as [|x a IH]; intros [|y b] s H.
  - reflexivity.
  - apply (f_equal String.length) in H. rewrite append_nil_l in H.
    rewrite length_append in H. cbn [String.length] in H. lia.
  - apply (f_equal String.length) in H. rewrite append_nil_l in H.
    rewrite length_append in H. cbn [String.length] in H. lia.
  - rewrite !append_cons in H. injection H as -> H. f_equal. now apply (IH b s).
Qed.

Lemma append_inj_l (p a b : string) : p +:+ a = p +:+ b -> a = b.
Proof.
  induction p as [|x p IH]; [now rewrite !append_nil_l|].
  rewrite !append_cons. intros [= H]. now apply IH.
Qed.

Lemma on_calendar_inj (t1 t2 : Z) :
  valid_datetime t1 -> valid_datetime t2 ->
  time_of_day t1 = time_of_day t2 ->
  on_calendar t1 = on_calendar t2 -> t1 = t2.
Proof.
  intros H1 H2 Htod H. unfold on_calendar in H. apply append_inj_l in H.
  unfold isoformat, isoformat_sep, hour, minute, second, microsecond in H.
  rewrite Htod in H. apply append_inj_r in H.
  pose proof (strptime_format_date t1 H1) as P1.
  pose proof (strptime_format_date t2 H2) as P2.
  rewrite H, P2 in P1. injection P1 as P1. lia.
Qed.

(** The directives of the far case, by their dates. *)
Lemma far_directives (enddate : Z) (l : list Z) :
  Forall (fun days => in_range (enddate - timedelta_days days) = true) l ->
  map (fun days => on_calendar (enddate - timedelta_days days)) l
  = map (directive enddate)
      (map (fun days => ord2ymd (toordinal enddate - days)) l)
  /\ Forall2 (days_before enddate) l
       (map (fun days => ord2ymd (toordinal enddate - days)) l).
Proof.
  induction l as [|days l IH]; intros Hall.
  - split; [reflexivity|constructor].
  - inversion Hall as [|? ? Hd Hrest]; subst.
    destruct (IH Hrest) as [Heq Hf2].
    destruct (on_calendar_sub_days enddate days (in_range_valid _ Hd))
      as [Hon Hbefore].
    split.
    + cbn [map]. now rewrite Hon, Heq.
    + cbn [map]. now constructor.
Qed.

Lemma far_specs_nodup (enddate : Z) :
  Forall (fun days => in_range (enddate - timedelta_days days) = true)
    WARN_DAYS ->
  List.NoDup (map on_calendar (trigger_times enddate)).
Proof.
  intros Hall. apply List.NoDup_map_NoDup_ForallPairs.
  - intros t1 t2 H1 H2. unfold trigger_times in H1, H2.
    apply List.in_map_iff in H1 as (d1 & <- & Hd1).
    apply List.in_map_iff in H2 as (d2 & <- & Hd2).
    rewrite List.Forall_forall in Hall.
    apply on_calendar_inj.
    + apply in_range_valid. now apply Hall.
    + apply in_range_valid. now apply Hall.
    + now rewrite !time_of_day_sub_days.
  - unfold trigger_times, WARN_DAYS, timedelta_days, US_PER_DAY, US_PER_SECOND.
    cbn [map].
    repeat (constructor; [cbn [In]; lia|]). constructor.
Qed.

(** C1: when at least one day is left, [generate_times] yields exactly nine
    directives, all of them absolute triggers: the i-th is the text
    [OnCalendar=] followed by the ISO time of the deadline minus the i-th
    of the offsets 30, 20, 10, 6, 5, 4, 3, 2, 1 days, which is the calendar
    date that many days before the date of the deadline, with the time of
    day of the deadline.  The times are strictly increasing and the nine
    texts pairwise different; all nine are yielded whatever their position
    relative to the current time. *)
Theorem generate_times_far (w w1 : World) (t enddate : Z) :
  today w = (Ok t, w1) ->
  valid_datetime enddate ->
  timedelta_days 1 <= enddate - t ->
  exists (specs : list string) (dates : list (Z * Z * Z)),
    list_of (generate_times enddate) w = Some (Ok specs, GenFinished, w1)
    /\ specs
       = map (fun days =>
                "OnCalendar=" +:+ isoformat (enddate - timedelta_days days))
           [30; 20; 10; 6; 5; 4; 3; 2; 1]
    /\ specs
       = map (fun '(y, m, d) =>
                "OnCalendar=" +:+ iso_date y m d +:+ "T"
                +:+ format_time (hour enddate) (minute enddate)
                      (second enddate) (microsecond enddate))
           dates
    /\ Forall2 (fun days '(y, m, d) =>
                  check_date_fields y m d = true
                  /\ ymd2ord y m d = toordinal enddate - days)
         [30; 20; 10; 6; 5; 4; 3; 2; 1] dates
    /\ length specs = 9%nat
    /\ trigger_times enddate
       = map (fun days => enddate - timedelta_days days)
           [30; 20; 10; 6; 5; 4; 3; 2; 1]
    /\ StronglySorted Z.lt (trigger_times enddate)
    /\ List.NoDup specs
    /\ Forall (fun spec => is_absolute spec = true
                           /\ is_relative spec = false) specs.
Proof.
  intros Hnow [_ Hmax] Hfar.
  destruct (today_inv _ _ _ Hnow) as (_ & _ & Hlo & _).
  pose proof (warn_days_in_range enddate t Hlo Hfar Hmax) as Hall.
  destruct (far_directives enddate WARN_DAYS Hall) as [Hdir Hdates].
  exists (map on_calendar (trigger_times enddate)),
    (map (fun days => ord2ymd (toordinal enddate - days)) WARN_DAYS).
  split; [now apply (list_of_far w w1 t)|].
  split; [unfold trigger_times; now rewrite map_map|].
  split; [unfold trigger_times; rewrite map_map; exact Hdir|].
  split; [exact Hdates|].
  split; [reflexivity|]. split; [reflexivity|].
  split.
  { unfold trigger_times, WARN_DAYS. cbn [map].
    unfold timedelta_days, US_PER_DAY, US_PER_SECOND.
    repeat (constructor; [|repeat constructor; lia]). constructor. }
  split; [now apply far_specs_nodup|].
  apply List.Forall_forall. intros spec Hin.
  apply List.in_map_iff in Hin as (time & <- & _). split; reflexivity.
Qed.

Lemma generate_times_far_witness :
  let enddate := datetime_of_date 2025 6 1 in
  let w := world_at (at_time (datetime_of_date 2025 5 30) 8 0 0) in
  exists (specs : list string) (dates : list (Z * Z * Z)),
    list_of (generate_times enddate) w
    = Some (Ok specs, GenFinished, tick w)
    /\ specs
       = map (fun days =>
                "OnCalendar=" +:+ isoformat (enddate - timedelta_days days))
           [30; 20; 10; 6; 5; 4; 3; 2; 1]
    /\ specs
       = map (fun '(y, m, d) =>
                "OnCalendar=" +:+ iso_date y m d +:+ "T"
                +:+ format_time (hour enddate) (minute enddate)
                      (second enddate) (microsecond enddate))
           dates
    /\ Forall2 (fun days '(y, m, d) =>
                  check_date_fields y m d = true
                  /\ ymd2ord y m d = toordinal enddate - days)
         [30; 20; 10; 6; 5; 4; 3; 2; 1] dates
    /\ length specs = 9%nat
    /\ trigger_times enddate
       = map (fun days => enddate - timedelta_days days)
           [30; 20; 10; 6; 5; 4; 3; 2; 1]
    /\ StronglySorted Z.lt (trigger_times enddate)
    /\ List.NoDup specs
    /\ Forall (fun spec => is_absolute spec = true
                           /\ is_relative spec = false) specs.
Proof.
  intros enddate w.
  apply (generate_times_far w (tick w)
           (at_time (datetime_of_date 2025 5 30) 8 0 0) enddate).
  - reflexivity.
  - unfold valid_datetime. vm_compute. split; discriminate.
  - vm_compute. discriminate.
Defined.

(** X6: with at least one day left no directive is written twice: the nine
    lines are pairwise different. *)
Theorem generate_times_distinct (w w1 : World) (t enddate : Z) :
  today w = (Ok t, w1) ->
  valid_datetime enddate ->
  timedelta_days 1 <= enddate - t ->
  exists specs,
    list_of (generate_times enddate) w = Some (Ok specs, GenFinished, w1)
    /\ length specs = 9%nat
    /\ List.NoDup specs.
Proof.
  intros Hnow [_ Hmax] Hfar.
  destruct (today_inv _ _ _ Hnow) as (_ & _ & Hlo & _).
  pose proof (warn_days_in_range enddate t Hlo Hfar Hmax) as Hall.
  exists (map on_calendar (trigger_times enddate)).
  split; [now apply (list_of_far w w1 t)|]. split; [reflexivity|].
  apply List.NoDup_map_NoDup_ForallPairs.
  - intros t1 t2 H1 H2. unfold trigger_times in H1, H2.
    apply List.in_map_iff in H1 as (d1 & <- & Hd1).
    apply List.in_map_iff in H2 as (d2 & <- & Hd2).
    rewrite List.Forall_forall in Hall.
    apply on_calendar_inj.
    + apply in_range_valid. now apply Hall.
    + apply in_range_valid. now apply Hall.
    + now rewrite !time_of_day_sub_days.
  - unfold trigger_times, WARN_DAYS, timedelta_days, US_PER_DAY, US_PER_SECOND.
    cbn [map].
    repeat (constructor; [cbn [In]; lia|]). constructor.
Qed.

Lemma generate_times_distinct_witness :
  let enddate := at_time (datetime_of_date 2025 6 1) 9 30 0 in
  let w := world_at (datetime_of_date 2025 5 1) in
  exists specs,
    list_of (generate_times enddate) w
    = Some (Ok specs, GenFinished, tick w)
    /\ length specs = 9%nat
    /\ List.NoDup specs.
Proof.
  intros enddate w.
  apply (generate_times_distinct w (tick w) (datetime_of_date 2025 5 1)
           enddate).
  - reflexivity.
  - unfold valid_datetime. vm_compute. split; discriminate.
  - vm_compute. discriminate.
Defined.

(** ** What [generate_units] leaves behind *)

Lemma fold_emit_files (timer : string) (specs : list string) :
  forall (w : World) (content : string),
    files w !! timer = Some content ->
    files (fold_left (emit timer) specs w)
    = <[timer := content +:+ concat_lines specs]> (files w).
Proof.
  induction specs as [|spec specs IH]; intros w content H.
  - cbn [fold_left concat_lines]. rewrite append_nil_r.
    symmetry. now apply insert_id.
  - cbn [fold_left concat_lines].
    rewrite (IH _ (content +:+ line spec)).
    + unfold emit, fprint, set_files, print. cbn [files].
      rewrite H. cbn [default]. rewrite insert_insert_eq.
      now rewrite append_assoc.
    + unfold emit. rewrite files_fprint.
      change (files (print ("Got spec: " +:+ spec) w)) with (files w).
      now rewrite H.
Qed.

Lemma path_names_differ (dir : Path) : service_path dir <> timer_path dir.
Proof.
  unfold service_path, timer_path, str_path, joinpath. cbn [root names].
  assert (H : forall l : list string,
             join_names (l ++ ["support-end.service"%string])
             <> join_names (l ++ ["support-end.timer"%string])).
  { induction l as [|a l IH]; [discriminate|].
    cbn [app join_names].
    destruct (l ++ ["support-end.service"%string]) as [|b1 l1] eqn:E1;
      [now destruct l|].
    destruct (l ++ ["support-end.timer"%string]) as [|b2 l2] eqn:E2;
      [now destruct l|].
    intros H. apply append_inj_l in H. apply append_inj_l in H.
    contradiction. }
  specialize (H (names dir)).
  destruct (names dir ++ ["support-end.service"%string]) as [|b1 l1] eqn:E1;
    [now destruct (names dir)|].
  destruct (names dir ++ ["support-end.timer"%string]) as [|b2 l2] eqn:E2;
    [now destruct (names dir)|].
  destruct (root dir); intros E; apply append_inj_l in E; contradiction.
Qed.

Lemma generate_units_leaves (script_file : string) (enddate : Z)
  (dir : Path) (w w0 w1 : World) (t0 t : Z) :
  today w = (Ok t0, w0) ->
  today w0 = (Ok t, w1) ->
  valid_datetime enddate ->
  units_writable w dir = true ->
  exists (specs : list string) (w' : World),
    list_of (generate_times enddate) w0 = Some (Ok specs, GenFinished, w1)
    /\ generate_units script_file enddate dir w = Some (Ok tt, w')
    /\ opened w' = opened w ++ [service_path dir; timer_path dir]
    /\ files w'
       = <[timer_path dir := timer_text specs]>
           (<[service_path dir := service_text script_file]> (files w))
    /\ files w' !! service_path dir = Some (service_text script_file)
    /\ files w' !! timer_path dir = Some (timer_text specs).
Proof.
  intros Hnow0 Hnow [_ Hmax] Hw.
  destruct (today_inv _ _ _ Hnow0) as (-> & _ & _).
  destruct (today_inv _ _ _ Hnow) as (-> & _ & _).
  destruct (generate_units_result script_file enddate dir w t0 t Hnow0 Hnow Hmax
              Hw)
    as (specs & _ & Hlist & Hgen).
  eexists specs, _. split; [exact Hlist|]. split; [exact Hgen|].
  assert (Hfiles : files (fold_left (emit (timer_path dir)) specs
                     (tick (fprint (timer_path dir) "[Timer]"
                       (truncate (timer_path dir)
                         (fprint (service_path dir) ("ExecStart=" +:+ script_file)
                           (fprint (service_path dir) "[Service]"
                             (truncate (service_path dir) (tick w))))))))
                   = <[timer_path dir := timer_text specs]>
                       (<[service_path dir := service_text script_file]>
                          (files w))).
  { rewrite (fold_emit_files _ specs _ (line "[Timer]")).
    - unfold tick, fprint, truncate, set_files. cbn [files].
      rewrite !lookup_insert_eq. cbn [default].
      rewrite !insert_insert_eq.
      unfold service_text, timer_text, id. cbn [concat_lines].
      now rewrite append_nil_l, append_nil_r.
    - change (files (tick ?x)) with (files x).
      rewrite files_fprint, files_truncate. reflexivity. }
  split.
  { match goal with
    | |- context [fold_left _ specs ?v] =>
        destruct (fold_emit_rest (timer_path dir) specs v)
          as (_ & _ & _ & _ & _ & -> & _)
    end.
    cbn. now rewrite <- app_assoc. }
  split; [exact Hfiles|].
  rewrite Hfiles. split.
  - rewrite lookup_insert_ne by (apply not_eq_sym, path_names_differ).
    apply lookup_insert_eq.
  - apply lookup_insert_eq.
Qed.

(** X8: the files after a run: when both unit files can be opened and
    written, [generate_units] opens [support-end.service] and then
    [support-end.timer] of the directory, and no other path; afterwards
    the first holds the service text and the second the header with the
    generated directives, whatever the two held before. *)
Theorem generate_units_files (script_file : string) (enddate : Z)
  (dir : Path) (w w0 w1 : World) (t0 t : Z) :
  today w = (Ok t0, w0) ->
  today w0 = (Ok t, w1) ->
  valid_datetime enddate ->
  units_writable w dir = true ->
  exists (specs : list string) (w' : World),
    list_of (generate_times enddate) w0 = Some (Ok specs, GenFinished, w1)
    /\ generate_units script_file enddate dir w = Some (Ok tt, w')
    /\ opened w' = opened w ++ [service_path dir; timer_path dir]
    /\ files w'
       = <[timer_path dir := timer_text specs]>
           (<[service_path dir := service_text script_file]> (files w))
    /\ files w' !! service_path dir = Some (service_text script_file)
    /\ files w' !! timer_path dir = Some (timer_text specs).
Proof. exact (generate_units_leaves script_file enddate dir w w0 w1 t0 t). Qed.

Lemma generate_units_files_witness :
  let enddate := datetime_of_date 2025 6 1 in
  let dir := PosixPath "." in
  let w := world_at (datetime_of_date 2025 5 1) in
  exists (specs : list string) (w' : World),
    list_of (generate_times enddate) (tick w)
    = Some (Ok specs, GenFinished, tick (tick w))
    /\ generate_units "/usr/bin/support-end-notifier" enddate dir w
       = Some (Ok tt, w')
    /\ opened w' = opened w ++ ["support-end.service"; "support-end.timer"]%string
    /\ files w'
       = <[timer_path dir := timer_text specs]>
           (<[service_path dir := service_text "/usr/bin/support-end-notifier"]>
              (files w))
    /\ files w' !! "support-end.service"%string
       = Some (service_text "/usr/bin/support-end-notifier")
    /\ files w' !! "support-end.timer"%string = Some (timer_text specs).
Proof.
  intros enddate dir w.
  apply (generate_units_files "/usr/bin/support-end-notifier" enddate dir
           w (tick w) (tick (tick w))
           (datetime_of_date 2025 5 1) (datetime_of_date 2025 5 1)).
  - reflexivity.
  - reflexivity.
  - unfold valid_datetime. vm_compute. split; discriminate.
  - reflexivity.
Defined.

(** X9: the log and the rest of the world: a run that can open and write
    both unit files prints one line [Got spec: <directive>] for each directive, in
    order, samples the clock twice, and prints nothing on stderr and shows
    nothing on the desktop. *)
Theorem generate_units_log (script_file : string) (enddate : Z)
  (dir : Path) (w w0 w1 : World) (t0 t : Z) :
  today w = (Ok t0, w0) ->
  today w0 = (Ok t, w1) ->
  valid_datetime enddate ->
  units_writable w dir = true ->
  exists (specs : list string) (w' : World),
    list_of (generate_times enddate) w0 = Some (Ok specs, GenFinished, w1)
    /\ generate_units script_file enddate dir w = Some (Ok tt, w')
    /\ stdout w' = stdout w ++ map got_spec specs
    /\ split_lines (timer_text specs) = "[Timer]" :: specs
    /\ stderr w' = stderr w
    /\ notifications w' = notifications w
    /\ ticks w' = S (S (ticks w)).
Proof.
  intros Hnow0 Hnow [_ Hmax] Hw.
  destruct (today_inv _ _ _ Hnow0) as (-> & _ & _).
  destruct (today_inv _ _ _ Hnow) as (-> & _ & _).
  destruct (generate_units_result script_file enddate dir w t0 t Hnow0 Hnow Hmax
              Hw)
    as (specs & Hkind & Hlist & Hgen).
  eexists specs, _. split; [exact Hlist|]. split; [exact Hgen|].
  match goal with
  | |- context [fold_left _ specs ?v] =>
      destruct (fold_emit_rest (timer_path dir) specs v)
        as (-> & -> & -> & -> & _)
  end.
  repeat split.
  apply split_concat_lines. constructor; [reflexivity|].
  destruct Hkind as [->| ->].
  - now constructor.
  - apply List.Forall_forall. intros spec Hin.
    apply List.in_map_iff in Hin as (time & <- & _).
    apply on_calendar_one_line.
Qed.

Lemma generate_units_log_witness :
  let enddate := datetime_of_date 2025 6 1 in
  let dir := PosixPath "/run/systemd/generator" in
  let w := world_at (datetime_of_date 2025 5 1) in
  exists (specs : list string) (w' : World),
    list_of (generate_times enddate) (tick w)
    = Some (Ok specs, GenFinished, tick (tick w))
    /\ generate_units "/usr/bin/support-end-notifier" enddate dir w
       = Some (Ok tt, w')
    /\ stdout w' = stdout w ++ map got_spec specs
    /\ split_lines (timer_text specs) = "[Timer]" :: specs
    /\ stderr w' = stderr w
    /\ notifications w' = notifications w
    /\ ticks w' = S (S (ticks w)).
Proof.
  intros enddate dir w.
  apply (generate_units_log "/usr/bin/support-end-notifier" enddate dir
           w (tick w) (tick (tick w))
           (datetime_of_date 2025 5 1) (datetime_of_date 2025 5 1)).
  - reflexivity.
  - reflexivity.
  - unfold valid_datetime. vm_compute. split; discriminate.
  - reflexivity.
Defined.

Lemma reinsert_units (timer service T S : string) (f : gmap string string) :
  <[timer := T]> (<[service := S]> (<[timer := T]> (<[service := S]> f)))
  = <[timer := T]> (<[service := S]> f).
Proof.
  apply map_eq. intros path. rewrite !lookup_insert.
  repeat case_decide; reflexivity.
Qed.

(** X10: regeneration is idempotent while at least a day is left: of two
    runs that can open and write both unit files, at any two times that still leave
    a day, the contents of the two unit files are the same; and a second
    run on the files the first run left leaves the same files. *)
Theorem generate_units_idempotent (script_file : string) (enddate : Z)
  (dir : Path) (w w0 w1 v v0 v1 : World) (t0 t s0 s : Z) :
  today w = (Ok t0, w0) -> today w0 = (Ok t, w1) ->
  today v = (Ok s0, v0) -> today v0 = (Ok s, v1) ->
  valid_datetime enddate ->
  timedelta_days 1 <= enddate - t ->
  timedelta_days 1 <= enddate - s ->
  units_writable w dir = true ->
  units_writable v dir = true ->
  exists w' v',
    generate_units script_file enddate dir w = Some (Ok tt, w')
    /\ generate_units script_file enddate dir v = Some (Ok tt, v')
    /\ files w' !! timer_path dir = files v' !! timer_path dir
    /\ files w' !! service_path dir = files v' !! service_path dir
    /\ (files v = files w' -> files v' = files w').
Proof.
  intros Hw0 Hw Hv0 Hv Hvalid Hfw Hfv Hww Hvw.
  destruct (generate_units_leaves script_file enddate dir w w0 w1 t0 t
              Hw0 Hw Hvalid Hww) as (specs & w' & Hl & Hg & _ & Hf & _).
  destruct (generate_units_leaves script_file enddate dir v v0 v1 s0 s
              Hv0 Hv Hvalid Hvw) as (specs' & v' & Hl' & Hg' & _ & Hf' & _).
  destruct Hvalid as [_ Hmax].
  rewrite (list_of_far _ _ _ _ Hw Hmax Hfw) in Hl.
  rewrite (list_of_far _ _ _ _ Hv Hmax Hfv) in Hl'.
  injection Hl as <-. injection Hl' as <-.
  exists w', v'. split; [assumption|]. split; [assumption|].
  rewrite Hf, Hf'. split; [|split].
  - now rewrite !lookup_insert_eq.
  - destruct (decide (timer_path dir = service_path dir)) as [E|Hne].
    + rewrite E. now rewrite !lookup_insert_eq.
    + rewrite !(lookup_insert_ne _ (timer_path dir)) by assumption.
      now rewrite !lookup_insert_eq.
  - intros Hsame. rewrite Hsame. apply reinsert_units.
Qed.

Lemma generate_units_idempotent_witness :
  let enddate := datetime_of_date 2025 6 1 in
  let dir := PosixPath "/run/systemd/generator" in
  let w := world_at (datetime_of_date 2025 5 1) in
  let v := world_at (datetime_of_date 2025 5 20) in
  exists w' v',
    generate_units "/usr/bin/support-end-notifier" enddate dir w
    = Some (Ok tt, w')
    /\ generate_units "/usr/bin/support-end-notifier" enddate dir v
       = Some (Ok tt, v')
    /\ files w' !! timer_path dir = files v' !! timer_path dir
    /\ files w' !! service_path dir = files v' !! service_path dir
    /\ (files v = files w' -> files v' = files w').
Proof.
  intros enddate dir w v.
  apply (generate_units_idempotent "/usr/bin/support-end-notifier" enddate dir
           w (tick w) (tick (tick w)) v (tick v) (tick (tick v))
           (datetime_of_date 2025 5 1) (datetime_of_date 2025 5 1)
           (datetime_of_date 2025 5 20) (datetime_of_date 2025 5 20)).
  - reflexivity.
  - reflexivity.
  - reflexivity.
  - reflexivity.
  - unfold valid_datetime. vm_compute. split; discriminate.
  - vm_compute. discriminate.
  - vm_compute. discriminate.
  - reflexivity.
  - reflexivity.
Defined.

(** ** The count of days in the notification *)

Lemma to_int_not_nil (n : Z) : Z.to_int n <> Pos Nil /\ Z.to_int n <> Neg Nil.
Proof.
  destruct n as [|p|p]; cbn; split; try discriminate;
    intros [= H]; now apply (Unsigned.to_uint_nonnil p).
Qed.

Lemma str_int_inj (a b : Z) : str_int a = str_int b -> a = b.
Proof.
  unfold str_int. intros H.
  destruct (to_int_not_nil a) as [Ha1 Ha2], (to_int_not_nil b) as [Hb1 Hb2].
  pose proof (NilZero.isi _ Ha1 Ha2) as Ia.
  pose proof (NilZero.isi _ Hb1 Hb2) as Ib.
  rewrite H, Ib in Ia. injection Ia as Ia. symmetry. now apply to_int_inj.
Qed.

Lemma ends_in_inj (a b : Z) : ends_in a = ends_in b -> a = b.
Proof.
  unfold ends_in. intros H. apply append_inj_l, append_inj_r in H.
  now apply str_int_inj.
Qed.

Lemma do_notify_left (w w1 : World) (t enddate : Z) :
  today w = (Ok t, w1) ->
  t <= enddate ->
  do_notify enddate w
  = (MainLoop, show_message (ends_in (td_days (enddate - t))) None w1).
Proof.
  intros Hnow Hle. unfold do_notify. rewrite Hnow.
  destruct (Z.gtb_spec t enddate); [lia|reflexivity].
Qed.

Lemma td_days_bounds (left : Z) :
  timedelta_days (td_days left) <= left < timedelta_days (td_days left + 1).
Proof.
  unfold timedelta_days, td_days, US_PER_DAY, US_PER_SECOND.
  Z.div_mod_to_equations. lia.
Qed.

(** X11: which count is shown when: up to the deadline the notification
    reads "ends in D days" for exactly the D with
    deadline - (D+1) days < now <= deadline - D days; D is never negative,
    and different counts give different texts. *)
Theorem do_notify_days (w w1 : World) (t enddate : Z) :
  today w = (Ok t, w1) ->
  t <= enddate ->
  exists D,
    do_notify enddate w = (MainLoop, show_message (ends_in D) None w1)
    /\ 0 <= D
    /\ (forall D',
          ends_in D' = ends_in D <->
          enddate - timedelta_days (D' + 1) < t <= enddate - timedelta_days D').
Proof.
  intros Hnow Hle. exists (td_days (enddate - t)).
  pose proof (td_days_bounds (enddate - t)) as Hb.
  split; [now apply do_notify_left|]. split.
  - unfold td_days. apply Z.div_pos; [lia|reflexivity].
  - intros D'. split.
    + intros H. apply ends_in_inj in H. subst D'.
      unfold timedelta_days in *. lia.
    + intros H. f_equal. unfold timedelta_days, td_days, US_PER_DAY,
        US_PER_SECOND in *. Z.div_mod_to_equations. lia.
Qed.

Lemma do_notify_days_witness :
  let enddate := datetime_of_date 2030 1 10 in
  let t := at_time (datetime_of_date 2030 1 9) 0 0 1 in
  let w := world_at t in
  exists D,
    do_notify enddate w = (MainLoop, show_message (ends_in D) None (tick w))
    /\ 0 <= D
    /\ (forall D',
          ends_in D' = ends_in D <->
          enddate - timedelta_days (D' + 1) < t <= enddate - timedelta_days D').
Proof.
  intros enddate t w. apply (do_notify_days w (tick w) t enddate).
  - reflexivity.
  - vm_compute. discriminate.
Defined.

(** X12: the countdown does not go up: of two notifications before the
    deadline the later one shows a count that is not larger. *)
Theorem do_notify_countdown (w w1 v v1 : World) (t1 t2 enddate : Z) :
  today w = (Ok t1, w1) ->
  today v = (Ok t2, v1) ->
  t1 <= t2 <= enddate ->
  exists D1 D2,
    do_notify enddate w = (MainLoop, show_message (ends_in D1) None w1)
    /\ do_notify enddate v = (MainLoop, show_message (ends_in D2) None v1)
    /\ 0 <= D2 <= D1
    /\ (ends_in D1 = ends_in D2 <-> D1 = D2).
Proof.
  intros Hw Hv [H12 H2].
  exists (td_days (enddate - t1)), (td_days (enddate - t2)).
  split; [apply do_notify_left; [assumption|lia]|].
  split; [now apply do_notify_left|].
  split.
  - unfold td_days. split.
    + apply Z.div_pos; [lia|reflexivity].
    + apply Z.div_le_mono; [reflexivity|lia].
  - split; [apply ends_in_inj|now intros ->].
Qed.

Lemma do_notify_countdown_witness :
  let enddate := datetime_of_date 2030 1 10 in
  let w := world_at (datetime_of_date 2030 1 1) in
  let v := world_at (at_time (datetime_of_date 2030 1 5) 18 0 0) in
  exists D1 D2,
    do_notify enddate w = (MainLoop, show_message (ends_in D1) None (tick w))
    /\ do_notify enddate v
       = (MainLoop, show_message (ends_in D2) None (tick v))
    /\ 0 <= D2 <= D1
    /\ (ends_in D1 = ends_in D2 <-> D1 = D2).
Proof.
  intros enddate w v.
  apply (do_notify_countdown w (tick w) v (tick v)
           (datetime_of_date 2030 1 1)
           (at_time (datetime_of_date 2030 1 5) 18 0 0) enddate).
  - reflexivity.
  - reflexivity.
  - vm_compute. split; discriminate.
Defined.

(** X13: the warning and its trigger: a notification that reads the clock
    exactly at the time of the directive for [days] days says "ends in
    [days] days"; one that reads it later, up to a day later, says "ends in
    [days - 1] days" (so "0 days" after the last warning). *)
Theorem do_notify_after_trigger (w w1 : World) (t enddate days : Z) :
  today w = (Ok t, w1) ->
  1 <= days ->
  let trigger := enddate - timedelta_days days in
  (t = trigger ->
   do_notify enddate w = (MainLoop, show_message (ends_in days) None w1))
  /\ (trigger < t <= trigger + timedelta_days 1 ->
      do_notify enddate w
      = (MainLoop, show_message (ends_in (days - 1)) None w1)).
Proof.
  intros Hnow Hdays trigger. unfold trigger. split; intros Ht.
  - rewrite (do_notify_left w w1 t enddate Hnow)
      by (unfold timedelta_days, US_PER_DAY, US_PER_SECOND in *; lia).
    do 3 f_equal. subst t. unfold td_days, timedelta_days.
    replace (enddate - (enddate - days * US_PER_DAY)) with (days * US_PER_DAY)
      by lia.
    now apply Z.div_mul.
  - rewrite (do_notify_left w w1 t enddate Hnow)
      by (unfold timedelta_days, US_PER_DAY, US_PER_SECOND in *; lia).
    do 3 f_equal. unfold td_days, timedelta_days, US_PER_DAY, US_PER_SECOND in *.
    Z.div_mod_to_equations. lia.
Qed.

Lemma do_notify_after_trigger_witness :
  let enddate := datetime_of_date 2030 1 10 in
  let t := at_time (datetime_of_date 2030 1 9) 0 0 5 in
  let w := world_at t in
  let trigger := enddate - timedelta_days 1 in
  (t = trigger ->
   do_notify enddate w = (MainLoop, show_message (ends_in 1) None (tick w)))
  /\ (trigger < t <= trigger + timedelta_days 1 ->
      do_notify enddate w
      = (MainLoop, show_message (ends_in (1 - 1)) None (tick w))).
Proof.
  intros enddate t w.
  apply (do_notify_after_trigger w (tick w) t enddate 1).
  - reflexivity.
  - lia.
Defined.

Example do_notify_after_last_warning :
  let enddate := datetime_of_date 2030 1 10 in
  let w := world_at (at_time (datetime_of_date 2030 1 9) 0 0 5) in
  do_notify enddate w
  = (MainLoop, show_message "Support for this OS ends in 0 days" None (tick w)).
Proof. vm_compute. reflexivity. Qed.

(** ** The channels of the modes *)

Lemma next_frame (g : generator) (w : World) :
  stdout (snd (next g w)) = stdout w
  /\ stderr (snd (next g w)) = stderr w
  /\ files (snd (next g w)) = files w
  /\ notifications (snd (next g w)) = notifications w.
Proof.
  destruct g as [enddate| |enddate rest|]; cbn [next]; try (now cbn).
  unfold now, today.
  destruct (_ <=? DATETIME_MAX); [destruct (_ <? _)|]; now cbn.
Qed.

Lemma write_specs_frame (fuel : nat) :
  forall (g : generator) (timer : string) (w w' : World) (r : result unit),
    write_specs fuel g timer w = Some (r, w') ->
    stderr w' = stderr w /\ notifications w' = notifications w.
Proof.
  induction fuel as [|fuel IH]; intros g timer w w' r H; [discriminate|].
  cbn [write_specs] in H.
  destruct (next_frame g w) as (_ & He & _ & Hn).
  destruct (next g w) as [[[[spec|]|e] g1] v]; cbn [snd] in He, Hn.
  - apply IH in H as [H1 H2]. cbn in H1, H2. split; congruence.
  - inversion H; subst. now split.
  - inversion H; subst. now split.
Qed.

Lemma with_open_wt_frame (path : string)
  (body : World -> option (result unit * World)) (w w' : World)
  (r : result unit) :
  (forall v r' v',
     body v = Some (r', v') ->
     stderr v' = stderr v /\ notifications v' = notifications v) ->
  with_open_wt path body w = Some (r, w') ->
  stderr w' = stderr w /\ notifications w' = notifications w.
Proof.
  intros Hbody. unfold with_open_wt, open_wt, close_wt.
  destruct (can_open w path); [|now intros [= <- <-]].
  destruct (body (truncate path w)) as [[r2 w2]|] eqn:Hb; [|discriminate].
  apply Hbody in Hb. cbn in Hb.
  destruct (can_write w2 path); now intros [= <- <-].
Qed.

Lemma generate_units_frame (script_file : string) (enddate : Z)
  (dir : Path) (w w' : World) (r : result unit) :
  generate_units script_file enddate dir w = Some (r, w') ->
  stderr w' = stderr w /\ notifications w' = notifications w.
Proof.
  unfold generate_units, today.
  destruct (_ <=? DATETIME_MAX); [|intros [= <- <-]; now split].
  match goal with
  | |- context [with_open_wt ?p ?b (tick w)] =>
      destruct (with_open_wt p b (tick w)) as [[r3 w3]|] eqn:Hs;
        [apply with_open_wt_frame in Hs;
           [|intros v r' v' [= <- <-]; now split]
        |discriminate]
  end.
  cbn in Hs. destruct r3; [|now intros [= <- <-]].
  intros H. apply with_open_wt_frame in H.
  - destruct Hs, H. split; congruence.
  - intros v r' v' Hw. apply write_specs_frame in Hw. exact Hw.
Qed.

Lemma do_notify_frame (enddate : Z) (w : World) :
  files (snd (do_notify enddate w)) = files w
  /\ opened (snd (do_notify enddate w)) = opened w
  /\ stdout (snd (do_notify enddate w)) = stdout w
  /\ stderr (snd (do_notify enddate w)) = stderr w.
Proof.
  unfold do_notify, today.
  destruct (_ <=? DATETIME_MAX); [destruct (_ >? _)|]; now cbn.
Qed.

(** X14: each mode keeps to its channel: up to the point where [main]
    returns, exits or enters the main loop, a file is opened or written in
    generator mode only, and a notification is shown in notify mode
    only. *)
Theorem main_channels (script_file : string)
  (repr_exception : exception -> string) (args : Namespace)
  (environ : gmap string string) (os_release : os_release_file)
  (w w' : World) (o : outcome) :
  main script_file repr_exception args environ os_release w = Some (o, w') ->
  (same_files w w' \/ (notify args = false /\ given (normal_dir args) = true))
  /\ (same_desktop w w'
      \/ (notify args = true /\ given (normal_dir args) = false)).
Proof.
  unfold main, same_files, same_desktop.
  destruct (notify args), (given (normal_dir args)) eqn:Hg;
    cbn [negb andb].
  - intros [= <- <-]. repeat split; auto.
  - destruct (support_end environ os_release) as [enddate|e].
    + pose proof (do_notify_frame enddate w) as (Hf & Hp & _).
      destruct (do_notify enddate w) as [o1 v]. intros [= <- <-].
      cbn [snd] in *. repeat split; auto.
    + intros [= <- <-]. repeat split; auto.
  - destruct (support_end environ os_release) as [enddate|e].
    + destruct (normal_dir args) as [dir|]; [|discriminate Hg].
      destruct (generate_units script_file enddate dir w)
        as [[r v]|] eqn:Hgen; [|discriminate].
      apply generate_units_frame in Hgen as [He Hn].
      destruct r; intros [= <- <-]; repeat split; auto.
    + intros [= <- <-]. repeat split; auto.
  - destruct (support_end environ os_release) as [enddate|e].
    + unfold now, today.
      destruct (_ <=? DATETIME_MAX); intros [= <- <-];
        repeat split; auto.
    + intros [= <- <-]. repeat split; auto.
Qed.

Lemma main_channels_witness :
  let w := world_at (datetime_of_date 2025 5 1) in
  let args := {| normal_dir := None; early_dir := None; late_dir := None;
                 notify := true |} in
  let w' := show_message "Support for this OS ends in 31 days" None (tick w) in
  (same_files w w' \/ (notify args = false /\ given (normal_dir args) = true))
  /\ (same_desktop w w'
      \/ (notify args = true /\ given (normal_dir args) = false)).
Proof.
  intros w args w'.
  apply (main_channels "/usr/bin/support-end-notifier" (fun _ => EmptyString)
           args {[ SUPPORT_END := "2025-06-01"%string ]} Unreadable w w'
           MainLoop).
  vm_compute. reflexivity.
Defined.

(** [generate_units] when a unit file cannot be opened or written. *)
Lemma generate_units_no_service (script_file : string) (enddate : Z)
  (dir : Path) (w : World) (t0 : Z) :
  today w = (Ok t0, tick w) ->
  can_open w (service_path dir) = false ->
  generate_units script_file enddate dir w = Some (Raise OSError, tick w).
Proof.
  intros Hnow Hs. unfold generate_units, with_open_wt, open_wt. rewrite Hnow.
  fold (service_path dir).
  change (can_open (tick w) (service_path dir))
    with (can_open w (service_path dir)).
  now rewrite Hs.
Qed.

Lemma with_open_wt_unwritable (path : string)
  (body : World -> option (result unit * World)) (w w2 : World)
  (r : result unit) :
  can_open w path = true ->
  body (truncate path w) = Some (r, w2) ->
  can_write w2 path = false ->
  with_open_wt path body w
  = Some (Raise OSError, set_files (<[path := EmptyString]> (files w2)) w2).
Proof.
  intros Ho Hb Hc. unfold with_open_wt, open_wt, close_wt.
  now rewrite Ho, Hb, Hc.
Qed.

Lemma generate_units_service_unwritable (script_file : string) (enddate : Z)
  (dir : Path) (w : World) (t0 : Z) :
  today w = (Ok t0, tick w) ->
  can_open w (service_path dir) = true ->
  can_write w (service_path dir) = false ->
  exists w',
    generate_units script_file enddate dir w = Some (Raise OSError, w')
    /\ ticks w' = S (ticks w) /\ stdout w' = stdout w
    /\ opened w' = opened w ++ [service_path dir].
Proof.
  intros Hnow Ho Hw. unfold generate_units. rewrite Hnow.
  fold (service_path dir).
  rewrite (with_open_wt_unwritable (service_path dir) _ (tick w)
             (fprint (service_path dir) ("ExecStart=" +:+ script_file)
                (fprint (service_path dir) "[Service]"
                   (truncate (service_path dir) (tick w))))
             (Ok tt));
    [|exact Ho|reflexivity|exact Hw].
  eexists. repeat split.
Qed.

Lemma generate_units_no_timer (script_file : string) (enddate : Z)
  (dir : Path) (w : World) (t0 : Z) :
  today w = (Ok t0, tick w) ->
  can_open w (service_path dir) = true ->
  can_write w (service_path dir) = true ->
  can_open w (timer_path dir) = false ->
  generate_units script_file enddate dir w
  = Some (Raise OSError,
          fprint (service_path dir) ("ExecStart=" +:+ script_file)
            (fprint (service_path dir) "[Service]"
              (truncate (service_path dir) (tick w)))).
Proof.
  intros Hnow Hso Hsw Ht. unfold generate_units. rewrite Hnow.
  fold (service_path dir). fold (timer_path dir).
  erewrite with_open_wt_ok; [|exact Hso|reflexivity|exact Hsw].
  cbv beta iota zeta. unfold with_open_wt, open_wt.
  match goal with
  | |- context [can_open ?x (timer_path dir)] =>
      change (can_open x (timer_path dir)) with (can_open w (timer_path dir))
  end.
  now rewrite Ht.
Qed.

Lemma generate_units_timer_unwritable (script_file : string) (enddate : Z)
  (dir : Path) (w : World) (t0 t : Z) :
  today w = (Ok t0, tick w) ->
  today (tick w) = (Ok t, tick (tick w)) ->
  enddate <= DATETIME_MAX ->
  can_open w (service_path dir) = true ->
  can_write w (service_path dir) = true ->
  can_open w (timer_path dir) = true ->
  can_write w (timer_path dir) = false ->
  exists specs w',
    list_of (generate_times enddate) (tick w)
    = Some (Ok specs, GenFinished, tick (tick w))
    /\ generate_units script_file enddate dir w = Some (Raise OSError, w')
    /\ ticks w' = S (S (ticks w))
    /\ stdout w' = stdout w ++ map got_spec specs
    /\ opened w' = opened w ++ [service_path dir; timer_path dir]
    /\ files w' !! service_path dir = Some (service_text script_file).
Proof.
  intros Hnow0 Hnow Hmax Hso Hsw Hto Htw.
  destruct (today_inv _ _ _ Hnow) as (_ & Ht & Hlo & Hhi).
  set (w3 := fprint (service_path dir) ("ExecStart=" +:+ script_file)
               (fprint (service_path dir) "[Service]"
                 (truncate (service_path dir) (tick w)))).
  set (w5 := fprint (timer_path dir) "[Timer]" (truncate (timer_path dir) w3)).
  assert (Hnow5 : today w5 = (Ok t, tick w5)).
  { rewrite Ht. apply (today_ok w5). rewrite Ht in Hhi. exact Hhi. }
  destruct (write_specs_created (timer_path dir) w5 t enddate Hnow5 Hlo Hmax)
    as (specs & Hkind & Hlist & Hwrite).
  set (wf := fold_left (emit (timer_path dir)) specs (tick w5)) in *.
  exists specs,
    (set_files (<[timer_path dir := EmptyString]> (files wf)) wf).
  split; [now apply Hlist|].
  destruct (fold_emit_rest (timer_path dir) specs (tick w5))
    as (Hout & _ & _ & Hticks & _ & Hopened & _ & Hcw).
  fold wf in Hout, Hticks, Hopened, Hcw.
  split.
  { unfold generate_units. rewrite Hnow0.
    fold (service_path dir). fold (timer_path dir).
    rewrite (with_open_wt_ok (service_path dir) _ (tick w) w3 (Ok tt));
      [|exact Hso|reflexivity|exact Hsw].
    cbv beta iota zeta.
    apply (with_open_wt_unwritable _ _ w3 wf (Ok tt));
      [exact Hto|exact Hwrite|].
    rewrite Hcw. exact Htw. }
  cbn [ticks stdout opened files set_files].
  rewrite Hticks, Hout, Hopened.
  split; [reflexivity|]. split; [reflexivity|].
  split; [cbn; now rewrite <- app_assoc|].
  rewrite lookup_insert_ne by (apply not_eq_sym, path_names_differ).
  unfold wf. rewrite (fold_emit_files _ specs _ (line "[Timer]")).
  - rewrite lookup_insert_ne by (apply not_eq_sym, path_names_differ).
    unfold w5, w3, tick, fprint, truncate, set_files. cbn [files].
    rewrite !lookup_insert_ne by (apply not_eq_sym, path_names_differ).
    rewrite !lookup_insert_eq. cbn [default]. rewrite ?lookup_insert_eq.
    unfold service_text. cbn [concat_lines].
    now rewrite append_nil_l, append_nil_r.
  - change (files (tick ?x)) with (files x). unfold w5.
    rewrite files_fprint, files_truncate. reflexivity.
Qed.



(** ** The values the parser takes *)

Lemma re_one_inv {R} (lo hi : ascii) (s : string)
  (k : Z -> string -> option R) (r : R) :
  re_one lo hi s k = Some r ->
  exists a rest,
    s = String a rest /\ between lo hi a = true /\ k (digit a) rest = Some r.
Proof.
  unfold re_one. destruct s as [|a rest]; [discriminate|].
  destruct (between lo hi a) eqn:E; [|discriminate]. eauto.
Qed.

Lemma re_two_inv {R} (lo1 hi1 lo2 hi2 : ascii) (s : string)
  (k : Z -> string -> option R) (r : R) :
  re_two lo1 hi1 lo2 hi2 s k = Some r ->
  exists a b rest,
    s = String a (String b rest)
    /\ between lo1 hi1 a = true /\ between lo2 hi2 b = true
    /\ k (10 * digit a + digit b) rest = Some r.
Proof.
  unfold re_two. intros H.
  apply re_one_inv in H as (a & s1 & -> & Ha & H).
  apply re_one_inv in H as (b & rest & -> & Hb & H).
  now exists a, b, rest.
Qed.

Lemma re_char_inv {R} (c : ascii) (s : string) (k : string -> option R)
  (r : R) :
  re_char c s k = Some r -> exists rest, s = String c rest /\ k rest = Some r.
Proof.
  unfold re_char. destruct s as [|a rest]; [discriminate|].
  destruct (Ascii.eqb_spec a c) as [->|]; [|discriminate]. eauto.
Qed.

Lemma orelse_inv {R} (x y : option R) (r : R) :
  orelse x y = Some r -> x = Some r \/ y = Some r.
Proof. destruct x; cbn; auto. Qed.

Lemma between_digit (lo hi a : ascii) :
  between "0" "9" lo = true ->
  between lo hi a = true ->
  a = digit_char (digit a) /\ digit lo <= digit a <= digit hi.
Proof.
  unfold between, digit, digit_char. intros Hlo H.
  apply andb_true_iff in Hlo as [Hlo _]. apply andb_true_iff in H as [H1 H2].
  apply N.leb_le in Hlo, H1, H2.
  change (N_of_ascii "0") with 48%N in Hlo. split; [|lia].
  replace (Z.to_N (48 + (Z.of_N (N_of_ascii a) - 48))) with (N_of_ascii a)
    by lia.
  now rewrite ascii_N_embedding.
Qed.

Lemma two_digits_text (a b : Z) :
  0 <= a <= 9 -> 0 <= b <= 9 ->
  String (digit_char a) (String (digit_char b) EmptyString)
  = pad0 2 (10 * a + b).
Proof.
  intros Ha Hb. apply String.eqb_eq.
  assert (H : all_below 10 (fun a => all_below 10 (two_digits_ok a)) = true)
    by (vm_compute; reflexivity).
  pose proof (all_below_spec _ _ H a ltac:(lia)) as H1. cbv beta in H1.
  exact (all_below_spec _ _ H1 b ltac:(lia)).
Qed.

Lemma one_digit_text (a : Z) :
  1 <= a <= 9 -> String (digit_char a) EmptyString = str_int a.
Proof. intros Ha. small_cases a; reflexivity. Qed.

Ltac digit_bounds H lo hi a E R :=
  destruct (between_digit lo hi a eq_refl H) as [E R];
  let l := eval vm_compute in (digit lo) in
  let h := eval vm_compute in (digit hi) in
  change (digit lo) with l in R; change (digit hi) with h in R.

Lemma isascii_app (a b : string) :
  isascii (a +:+ b) = isascii a && isascii b.
Proof.
  induction a as [|x a IH]; [reflexivity|].
  rewrite append_cons. cbn [isascii]. rewrite IH. now rewrite andb_assoc.
Qed.

Lemma find_zero_above (b : Z) (l : list Z) :
  b < 128 ->
  forallb (fun z => 128 <=? z) l = true ->
  find (fun z => (z <=? b) && (b <=? z + 9)) l = None.
Proof.
  intros Hb. induction l as [|z l IH]; cbn [forallb find]; [reflexivity|].
  intros H. apply andb_true_iff in H as [Hz Hl]. apply Z.leb_le in Hz.
  destruct (Z.leb_spec z b); [lia|]. cbn [andb]. now apply IH.
Qed.

(** Below 128 the decimal digits are the ten ASCII digits. *)
Lemma decimal_ascii (b : Z) :
  b < 128 ->
  decimal b = if (48 <=? b) && (b <=? 57) then Some (b - 48) else None.
Proof.
  intros Hb. unfold decimal.
  replace DECIMAL_ZEROS with (48 :: List.tl DECIMAL_ZEROS) by reflexivity.
  assert (Hl : forallb (fun z => 128 <=? z) (List.tl DECIMAL_ZEROS) = true)
    by reflexivity.
  revert Hl. generalize (List.tl DECIMAL_ZEROS) as l. intros l Hl.
  cbn [find]. change (48 + 9) with 57.
  destruct ((48 <=? b) && (b <=? 57)); [reflexivity|].
  now rewrite find_zero_above.
Qed.

Lemma re_digit_inv {R} (s : string) (k : Z -> string -> option R) (r : R) :
  isascii s = true ->
  re_digit s k = Some r ->
  exists a rest,
    s = String a rest /\ between "0" "9" a = true /\ isascii rest = true
    /\ k (digit a) rest = Some r.
Proof.
  destruct s as [|a rest]; [discriminate|].
  cbn [isascii]. intros Hs. apply andb_true_iff in Hs as [Ha Hrest].
  unfold re_digit, decode. cbv zeta. rewrite Ha.
  apply Z.ltb_lt in Ha. rewrite (decimal_ascii _ Ha).
  destruct ((48 <=? byte a) && (byte a <=? 57)) eqn:E; [|discriminate].
  intros H. exists a, rest. repeat split; try assumption.
  apply andb_true_iff in E as [E1 E2]. apply Z.leb_le in E1, E2.
  unfold between, byte in *.
  apply andb_true_iff. split; apply N.leb_le.
  - change (N_of_ascii "0") with 48%N. lia.
  - change (N_of_ascii "9") with 57%N. lia.
Qed.

Lemma re_m_inv {R} (s : string) (k : Z -> string -> option R) (r : R) :
  re_m s k = Some r ->
  exists m ms rest,
    s = ms +:+ rest /\ 1 <= m <= 12 /\ month_text m ms
    /\ k m rest = Some r.
Proof.
  unfold re_m. intros H.
  apply orelse_inv in H as [H|H]; [|apply orelse_inv in H as [H|H]].
  - apply re_two_inv in H as (a & b & rest & -> & Ha & Hb & H).
    digit_bounds Ha "1"%char "1"%char a Ea Ra.
    digit_bounds Hb "0"%char "2"%char b Eb Rb.
    exists (10 * digit a + digit b), (String a (String b EmptyString)), rest.
    repeat split; try lia; [|assumption].
    left. rewrite Ea, Eb at 1. apply two_digits_text; lia.
  - apply re_two_inv in H as (a & b & rest & -> & Ha & Hb & H).
    digit_bounds Ha "0"%char "0"%char a Ea Ra.
    digit_bounds Hb "1"%char "9"%char b Eb Rb.
    exists (10 * digit a + digit b), (String a (String b EmptyString)), rest.
    repeat split; try lia; [|assumption].
    left. rewrite Ea, Eb at 1. apply two_digits_text; lia.
  - apply re_one_inv in H as (a & rest & -> & Ha & H).
    digit_bounds Ha "1"%char "9"%char a Ea Ra.
    exists (digit a), (String a EmptyString), rest.
    repeat split; try lia; [|assumption].
    right. split; [lia|]. rewrite Ea at 1. apply one_digit_text; lia.
Qed.

Lemma re_d_inv {R} (s : string) (k : Z -> string -> option R) (r : R) :
  isascii s = true ->
  re_d s k = Some r ->
  exists d ds rest,
    s = ds +:+ rest /\ 1 <= d <= 31 /\ day_text d ds
    /\ k d rest = Some r.
Proof.
  unfold re_d. intros Hs H.
  apply orelse_inv in H as [H|H]; [|apply orelse_inv in H as [H|H];
    [|apply orelse_inv in H as [H|H]; [|apply orelse_inv in H as [H|H]]]].
  - apply re_two_inv in H as (a & b & rest & -> & Ha & Hb & H).
    digit_bounds Ha "3"%char "3"%char a Ea Ra.
    digit_bounds Hb "0"%char "1"%char b Eb Rb.
    exists (10 * digit a + digit b), (String a (String b EmptyString)), rest.
    repeat split; try lia; [|assumption].
    left. rewrite Ea, Eb at 1. apply two_digits_text; lia.
  - apply re_one_inv in H as (a & s1 & -> & Ha & H).
    cbn [isascii] in Hs. apply andb_true_iff in Hs as [_ Hs].
    apply (re_digit_inv _ _ _ Hs) in H as (b & rest & -> & Hb & _ & H).
    digit_bounds Ha "1"%char "2"%char a Ea Ra.
    digit_bounds Hb "0"%char "9"%char b Eb Rb.
    exists (10 * digit a + digit b), (String a (String b EmptyString)), rest.
    repeat split; try lia; [|assumption].
    left. rewrite Ea, Eb at 1. apply two_digits_text; lia.
  - apply re_two_inv in H as (a & b & rest & -> & Ha & Hb & H).
    digit_bounds Ha "0"%char "0"%char a Ea Ra.
    digit_bounds Hb "1"%char "9"%char b Eb Rb.
    exists (10 * digit a + digit b), (String a (String b EmptyString)), rest.
    repeat split; try lia; [|assumption].
    left. rewrite Ea, Eb at 1. apply two_digits_text; lia.
  - apply re_one_inv in H as (a & rest & -> & Ha & H).
    digit_bounds Ha "1"%char "9"%char a Ea Ra.
    exists (digit a), (String a EmptyString), rest.
    repeat split; try lia; [|assumption].
    right. split; [lia|]. left. rewrite Ea at 1. apply one_digit_text; lia.
  - apply re_char_inv in H as (s1 & -> & H).
    apply re_one_inv in H as (a & rest & -> & Ha & H).
    digit_bounds Ha "1"%char "9"%char a Ea Ra.
    exists (digit a), (String " " (String a EmptyString)), rest.
    repeat split; try lia; [|assumption].
    right. split; [lia|]. right. rewrite Ea at 1.
    rewrite (one_digit_text (digit a)) by lia. reflexivity.
Qed.

Lemma regex_match_inv (val : string) (y m d : Z) :
  isascii val = true ->
  regex_match val = Some (y, m, d, EmptyString) ->
  exists ms ds,
    val = pad0 4 y +:+ "-" +:+ ms +:+ "-" +:+ ds
    /\ month_text m ms /\ day_text d ds
    /\ 0 <= y <= 9999 /\ 1 <= m <= 12 /\ 1 <= d <= 31.
Proof.
  unfold regex_match, re_Y. intros Hs H.
  apply (re_digit_inv _ _ _ Hs) in H as (a & s1 & -> & Ha & Hs1 & H).
  apply (re_digit_inv _ _ _ Hs1) in H as (b & s2 & -> & Hb & Hs2 & H).
  apply (re_digit_inv _ _ _ Hs2) in H as (c & s3 & -> & Hc & Hs3 & H).
  apply (re_digit_inv _ _ _ Hs3) in H as (e & s4 & -> & He & Hs4 & H).
  apply re_char_inv in H as (s5 & -> & H).
  cbn [isascii] in Hs4. apply andb_true_iff in Hs4 as [_ Hs5].
  apply re_m_inv in H as (m' & ms & s6 & -> & Hm & Hms & H).
  rewrite isascii_app in Hs5. apply andb_true_iff in Hs5 as [_ Hs6].
  apply re_char_inv in H as (s7 & -> & H).
  cbn [isascii] in Hs6. apply andb_true_iff in Hs6 as [_ Hs7].
  apply (re_d_inv _ _ _ Hs7) in H as (d' & ds & rest & -> & Hd & Hds & H).
  injection H as <- <- <- ->.
  digit_bounds Ha "0"%char "9"%char a Ea Ra.
  digit_bounds Hb "0"%char "9"%char b Eb Rb.
  digit_bounds Hc "0"%char "9"%char c Ec Rc.
  digit_bounds He "0"%char "9"%char e Ee Re.
  exists ms, ds. rewrite append_nil_r.
  repeat split; try assumption; try lia.
  rewrite pad0_four_digits by lia. unfold four_digits.
  rewrite !append_cons, !append_nil_l.
  rewrite Ea, Eb, Ec, Ee at 1.
  repeat f_equal; Z.div_mod_to_equations; lia.
Qed.

Lemma re_m_text {R} (m : Z) (ms rest : string)
  (k : Z -> string -> option R) :
  1 <= m <= 12 -> month_text m ms ->
  re_m (ms +:+ String "-" rest) (fun v s => re_char "-" s (k v)) = k m rest.
Proof.
  intros Hm [->|[H9 ->]]; small_cases m; vm_compute;
    destruct (k _ rest); reflexivity.
Qed.

Lemma re_d_text {R} (d : Z) (ds : string) (f : Z -> string -> R) :
  1 <= d <= 31 -> day_text d ds ->
  re_d ds (fun v s => Some (f v s)) = Some (f d EmptyString).
Proof.
  intros Hd [->|[H9 [->| ->]]]; small_cases d; reflexivity.
Qed.

Lemma strptime_spelling (y m d : Z) (ms ds : string) :
  check_date_fields y m d = true ->
  month_text m ms -> day_text d ds ->
  strptime (pad0 4 y +:+ "-" +:+ ms +:+ "-" +:+ ds)
  = Ok (datetime_of_date y m d).
Proof.
  intros Hc Hms Hds.
  destruct (check_date_fields_inv y m d Hc) as (Hy & Hm & Hd).
  pose proof (days_in_month_le y m Hm) as Hdim.
  unfold strptime, regex_match.
  rewrite re_Y_pad0 by lia. rewrite append_cons, append_nil_l.
  cbn [re_char]. rewrite Ascii.eqb_refl.
  rewrite append_cons, append_nil_l.
  rewrite (re_m_text m ms ds
             (fun m s4 => re_d s4 (fun d rest => Some (y, m, d, rest))))
    by (assumption || lia).
  rewrite (re_d_text d ds (fun d rest => (y, m, d, rest)))
    by (assumption || lia).
  now rewrite Hc.
Qed.

Example support_end_rejects_isoformat :
  support_end {[ SUPPORT_END := isoformat (datetime_of_date 2025 6 1) ]} Unreadable
  = Raise ValueError.
Proof. vm_compute. reflexivity. Qed.

(** ** The values that resolve *)

Lemma strptime_ascii_inv (val : string) (t : Z) :
  isascii val = true ->
  strptime val = Ok t ->
  exists y m d,
    check_date_fields y m d = true /\ spells val y m d
    /\ t = datetime_of_date y m d.
Proof.
  intros Hs H. apply strptime_ok_inv in H as (y & m & d & Hr & Hc & ->).
  apply (regex_match_inv _ _ _ _ Hs) in Hr as (ms & ds & -> & Hms & Hds & _).
  exists y, m, d. split; [assumption|]. split; [|reflexivity].
  now exists ms, ds.
Qed.

Lemma strptime_spells (val : string) (y m d : Z) :
  check_date_fields y m d = true -> spells val y m d ->
  strptime val = Ok (datetime_of_date y m d).
Proof.
  intros Hc (ms & ds & Hms & Hds & ->). now apply strptime_spelling.
Qed.

Lemma strptime_rejects_iff (val : string) :
  isascii val = true ->
  strptime val = Raise ValueError <->
  forall y m d, check_date_fields y m d = true -> ~ spells val y m d.
Proof.
  intros Hs. split.
  - intros H y m d Hc Hsp. rewrite (strptime_spells val y m d Hc Hsp) in H.
    discriminate H.
  - intros H. destruct (strptime val) as [t|e] eqn:Hp.
    + destruct (strptime_ascii_inv val t Hs Hp) as (y & m & d & Hc & Hsp & _).
      now destruct (H y m d Hc).
    + now rewrite (strptime_raises val e Hp).
Qed.

Lemma digit_char_digit (a : ascii) :
  is_digit a = true -> a = digit_char (digit a) /\ 0 <= digit a <= 9.
Proof.
  intros H. destruct (between_digit "0" "9" a eq_refl H) as [E R].
  split; [assumption|]. exact R.
Qed.

(** A date in the form YYYY-MM-DD is the text [iso_date] of a calendar
    date. *)
Lemma yyyy_mm_dd_iso (val : string) :
  is_yyyy_mm_dd val = true ->
  exists y m d, check_date_fields y m d = true /\ val = iso_date y m d.
Proof.
  unfold is_yyyy_mm_dd.
  destruct val as [|y1 [|y2 [|y3 [|y4 [|s1 [|m1 [|m2 [|s2 [|d1 [|d2 [|? ?]]]]]]]]]]];
    try discriminate.
  intros H. apply andb_true_iff in H as [H Hc].
  apply andb_true_iff in H as [H Hs2]. apply andb_true_iff in H as [H Hs1].
  apply Ascii.eqb_eq in Hs1, Hs2. subst s1 s2.
  cbn [forallb] in H.
  repeat (apply andb_true_iff in H as [? H]).
  repeat match goal with
         | H : is_digit ?a = true |- _ =>
             let E := fresh "E" in
             let R := fresh "R" in
             destruct (digit_char_digit a H) as [E R]; clear H
         end.
  eexists _, _, _. split; [exact Hc|].
  unfold iso_date.
  rewrite pad0_four_digits by lia. unfold four_digits.
  rewrite <- (two_digits_text (digit m1) (digit m2)) by lia.
  rewrite <- (two_digits_text (digit d1) (digit d2)) by lia.
  rewrite !append_cons, !append_nil_l.
  repeat match goal with
         | E : ?a = digit_char (digit ?a) |- _ => rewrite E at 1; clear E
         end.
  repeat f_equal; Z.div_mod_to_equations; lia.
Qed.

Local Set Warnings "-clear-no-such-hyp".

Lemma spells_iso_date (y m d : Z) : spells (iso_date y m d) y m d.
Proof. exists (pad0 2 m), (pad0 2 d). repeat split; now left. Qed.

Lemma present_value_cases (environ : gmap string string)
  (os_release : os_release_file) (val : string) :
  present_value environ os_release = Some val <->
  (getenv environ SUPPORT_END = Some val /\ val <> EmptyString)
  \/ ((getenv environ SUPPORT_END = None
       \/ getenv environ SUPPORT_END = Some EmptyString)
      /\ exists fields,
           os_release = Release fields /\ fields !! SUPPORT_END = Some val).
Proof.
  unfold present_value, os_release_field, getenv.
  destruct (environ !! SUPPORT_END) as [[|a s]|];
    destruct os_release as [| |fields]; split;
    try (intros [= <-]; left; split; [reflexivity|discriminate]);
    naive_solver.
Qed.

Lemma present_value_none (environ : gmap string string)
  (os_release : os_release_file) :
  present_value environ os_release = None <->
  (getenv environ SUPPORT_END = None
   \/ getenv environ SUPPORT_END = Some EmptyString)
  /\ (os_release = Unreadable \/ os_release = Undecodable
      \/ exists fields,
           os_release = Release fields /\ fields !! SUPPORT_END = None).
Proof.
  unfold present_value, os_release_field, getenv.
  destruct (environ !! SUPPORT_END) as [[|a s]|];
    destruct os_release as [| |fields]; naive_solver.
Qed.

(** C5 as stated fails: the value [2025-6- 1] is not a date in the form
    YYYY-MM-DD, and the deadline resolves from it. *)
Lemma support_end_not_strict :
  ~ strict_resolution {[ SUPPORT_END := "2025-6- 1"%string ]} Unreadable.
Proof.
  unfold strict_resolution. intros [_ H].
  assert (Hf : fails (support_end {[ SUPPORT_END := "2025-6- 1"%string ]}
                        Unreadable)).
  { apply H. right. exists "2025-6- 1"%string. split; reflexivity. }
  vm_compute in Hf. exact Hf.
Qed.

(** C5, amended: for a value of ASCII characters, [support_end] fails
    exactly when there is no value to parse (the override is unset or
    empty, and os-release cannot be read, cannot be decoded or has no
    SUPPORT_END field) or when the value at hand is none of the spellings
    of a calendar date that the parser takes: the year in four digits, a
    dash, the month, a dash and the day, month and day in two digits, or
    in one digit when below ten, a one-digit day with or without a blank
    before it.  On success the result is midnight of the date so spelled,
    and nothing else; every date in the form YYYY-MM-DD is among the
    spellings. *)
Theorem support_end_outcome (environ : gmap string string)
  (os_release : os_release_file) :
  (forall val,
     present_value environ os_release = Some val -> isascii val = true) ->
  (present_value environ os_release = None <->
     (getenv environ SUPPORT_END = None
      \/ getenv environ SUPPORT_END = Some EmptyString)
     /\ (os_release = Unreadable \/ os_release = Undecodable
         \/ exists fields,
              os_release = Release fields /\ fields !! SUPPORT_END = None))
  /\ (forall val,
        present_value environ os_release = Some val <->
        (getenv environ SUPPORT_END = Some val /\ val <> EmptyString)
        \/ ((getenv environ SUPPORT_END = None
             \/ getenv environ SUPPORT_END = Some EmptyString)
            /\ exists fields,
                 os_release = Release fields
                 /\ fields !! SUPPORT_END = Some val))
  /\ (fails (support_end environ os_release) <->
        present_value environ os_release = None
        \/ exists val,
             present_value environ os_release = Some val
             /\ forall y m d,
                  check_date_fields y m d = true ->
                  ~ exists ms ds,
                      month_text m ms /\ day_text d ds
                      /\ val = pad0 4 y +:+ "-" +:+ ms +:+ "-" +:+ ds)
  /\ (forall enddate,
        support_end environ os_release = Ok enddate <->
        exists val y m d ms ds,
          present_value environ os_release = Some val
          /\ check_date_fields y m d = true
          /\ month_text m ms /\ day_text d ds
          /\ val = pad0 4 y +:+ "-" +:+ ms +:+ "-" +:+ ds
          /\ enddate = datetime_of_date y m d)
  /\ (forall val,
        is_yyyy_mm_dd val = true ->
        exists y m d,
          check_date_fields y m d = true
          /\ val = pad0 4 y +:+ "-" +:+ pad0 2 m +:+ "-" +:+ pad0 2 d
          /\ strptime val = Ok (datetime_of_date y m d)).
Proof.
  intros Hascii.
  split; [apply present_value_none|].
  split; [intros val; apply present_value_cases|].
  split; [|split].
  - destruct (present_value environ os_release) as [val|] eqn:Hp.
    + rewrite (present_value_ok _ _ val Hp).
      pose proof (strptime_rejects_iff val (Hascii val eq_refl)) as Hr.
      split.
      * intros Hf. right. exists val. split; [reflexivity|].
        apply Hr. destruct (strptime val) as [t|e] eqn:E; [destruct Hf|].
        now rewrite (strptime_raises val e E).
      * intros [H|(v & [= <-] & H)]; [discriminate H|].
        apply Hr in H. now rewrite H.
    + rewrite present_value_val in Hp. unfold support_end, result_bind.
      destruct (support_end_val environ os_release); [discriminate Hp|].
      split; [now left|exact (fun _ => I)].
  - intros enddate.
    destruct (present_value environ os_release) as [val|] eqn:Hp.
    + rewrite (present_value_ok _ _ val Hp). split.
      * intros H.
        destruct (strptime_ascii_inv val enddate (Hascii val eq_refl) H)
          as (y & m & d & Hc & (ms & ds & Hms & Hds & Hv) & Ht).
        now exists val, y, m, d, ms, ds.
      * intros (v & y & m & d & ms & ds & [= <-] & Hc & Hms & Hds & -> & ->).
        now apply strptime_spelling.
    + rewrite present_value_val in Hp. unfold support_end, result_bind.
      destruct (support_end_val environ os_release); [discriminate Hp|].
      split; [discriminate|]. now intros (v & y & m & d & ms & ds & H & _).
  - intros val Hv.
    destruct (yyyy_mm_dd_iso val Hv) as (y & m & d & Hc & ->).
    exists y, m, d. split; [assumption|]. split; [reflexivity|].
    now apply strptime_iso_date.
Qed.

Lemma support_end_outcome_witness :
  let environ : gmap string string :=
    {[ SUPPORT_END := "2025-6- 1"%string ]} in
  (forall val, present_value environ Unreadable = Some val ->
               isascii val = true)
  /\ (support_end environ Unreadable = Ok (datetime_of_date 2025 6 1) <->
      exists val y m d ms ds,
        present_value environ Unreadable = Some val
        /\ check_date_fields y m d = true
        /\ month_text m ms /\ day_text d ds
        /\ val = pad0 4 y +:+ "-" +:+ ms +:+ "-" +:+ ds
        /\ datetime_of_date 2025 6 1 = datetime_of_date y m d).
Proof.
  intros environ.
  assert (Hascii : forall val, present_value environ Unreadable = Some val ->
                               isascii val = true).
  { intros val H. vm_compute in H. injection H as <-. reflexivity. }
  split; [exact Hascii|].
  destruct (support_end_outcome environ Unreadable Hascii)
    as (_ & _ & _ & H & _).
  exact (H (datetime_of_date 2025 6 1)).
Defined.

Example support_end_spellings :
  Forall (fun val =>
            support_end {[ SUPPORT_END := val ]} Unreadable
            = Ok (datetime_of_date 2025 6 1))
    ["2025-06-01"; "2025-6-01"; "2025-06-1"; "2025-6-1"; "2025-06- 1";
     "2025-6- 1"]%string
  /\ Forall (fun val => is_yyyy_mm_dd val = false)
       ["2025-6-01"; "2025-06-1"; "2025-6-1"; "2025-06- 1";
        "2025-6- 1"]%string
  /\ is_yyyy_mm_dd "2025-06-01" = true.
Proof. split; [|split]; repeat constructor. Qed.

(** The year and the second digit of the day may be written with the
    decimal digits of another script; here with ARABIC-INDIC DIGIT FIVE. *)
Example support_end_other_digits :
  support_end {[ SUPPORT_END := "202٥-06-01"%string ]} Unreadable
  = Ok (datetime_of_date 2025 6 1)
  /\ support_end {[ SUPPORT_END := "2025-06-1٥"%string ]} Unreadable
     = Ok (datetime_of_date 2025 6 15)
  /\ support_end {[ SUPPORT_END := "2025-0٦-01"%string ]} Unreadable
     = Raise ValueError
  /\ isascii "202٥-06-01" = false.
Proof. repeat split; vm_compute; reflexivity. Qed.

Example support_end_undecodable :
  support_end ∅ Undecodable = Raise UnicodeDecodeError
  /\ support_end {[ SUPPORT_END := "2025-06-01"%string ]} Undecodable
     = Ok (datetime_of_date 2025 6 1).
Proof. split; vm_compute; reflexivity. Qed.

(** X2: which exception: [OSError] exactly when there is no usable override
    and os-release cannot be read, [UnicodeDecodeError] exactly when there
    is no usable override and os-release is not UTF-8,
    [KeyError('SUPPORT_END')] exactly when os-release is read and lacks the
    field, [ValueError] exactly when the value at hand, of ASCII
    characters, is none of the spellings of a calendar date the parser
    takes; no other exception leaves [support_end]. *)
Theorem support_end_exception (environ : gmap string string)
  (os_release : os_release_file) :
  (forall val,
     present_value environ os_release = Some val -> isascii val = true) ->
  let no_override :=
    getenv environ SUPPORT_END = None
    \/ getenv environ SUPPORT_END = Some EmptyString in
  (support_end environ os_release = Raise OSError <->
     no_override /\ os_release = Unreadable)
  /\ (support_end environ os_release = Raise UnicodeDecodeError <->
        no_override /\ os_release = Undecodable)
  /\ (forall key,
        support_end environ os_release = Raise (KeyError key) <->
        key = SUPPORT_END /\ no_override
        /\ exists d, os_release = Release d /\ d !! SUPPORT_END = None)
  /\ (support_end environ os_release = Raise ValueError <->
        exists val,
          present_value environ os_release = Some val
          /\ forall y m d,
               check_date_fields y m d = true ->
               ~ exists ms ds,
                   month_text m ms /\ day_text d ds
                   /\ val = pad0 4 y +:+ "-" +:+ ms +:+ "-" +:+ ds)
  /\ support_end environ os_release <> Raise OverflowError.
Proof.
  intros Hascii no_override. unfold no_override. revert Hascii.
  unfold support_end, support_end_val, present_value, os_release_field,
    getenv, freedesktop_os_release, getitem, result_bind.
  destruct (environ !! SUPPORT_END) as [[|a s]|];
    [destruct os_release as [| |d];
       [| |destruct (d !! SUPPORT_END) as [v|] eqn:Ed]
    |
    |destruct os_release as [| |d];
       [| |destruct (d !! SUPPORT_END) as [v|] eqn:Ed]];
    intros Hascii;
    try (pose proof (strptime_raises v) as Hv;
         pose proof (strptime_rejects_iff v (Hascii v eq_refl)) as Hr);
    try (pose proof (strptime_raises (String a s)) as Hv;
         pose proof (strptime_rejects_iff (String a s) (Hascii _ eq_refl))
           as Hr);
    split_and!; try intros key; try split; naive_solver.
Qed.

Lemma support_end_exception_witness :
  let environ : gmap string string :=
    {[ SUPPORT_END := "2025-06-31"%string ]} in
  support_end environ Unreadable = Raise ValueError <->
  exists val,
    present_value environ Unreadable = Some val
    /\ forall y m d,
         check_date_fields y m d = true ->
         ~ exists ms ds,
             month_text m ms /\ day_text d ds
             /\ val = pad0 4 y +:+ "-" +:+ ms +:+ "-" +:+ ds.
Proof.
  intros environ.
  assert (Hascii : forall val, present_value environ Unreadable = Some val ->
                               isascii val = true).
  { intros val H. vm_compute in H. injection H as <-. reflexivity. }
  destruct (support_end_exception environ Unreadable Hascii)
    as (_ & _ & _ & H & _).
  exact H.
Defined.

(** ** A unit file that cannot be opened or written *)

(** X17: a unit file that cannot be opened: [generate_units] ends in
    [OSError].  When it is the service file, the clock has been read once
    and nothing else has happened; when it is the timer file, the service
    file has been written in full before, no directive is generated,
    nothing is printed and the clock is not read a second time. *)
Theorem generate_units_unopenable (script_file : string) (enddate : Z)
  (dir : Path) (w w0 : World) (t0 : Z) :
  today w = (Ok t0, w0) ->
  can_open w (str_path (joinpath dir "support-end.service")) = false
  \/ (can_open w (str_path (joinpath dir "support-end.service")) = true
      /\ can_write w (str_path (joinpath dir "support-end.service")) = true
      /\ can_open w (str_path (joinpath dir "support-end.timer")) = false) ->
  exists w',
    generate_units script_file enddate dir w = Some (Raise OSError, w')
    /\ ticks w' = S (ticks w)
    /\ stdout w' = stdout w
    /\ files w' !! str_path (joinpath dir "support-end.timer")
       = files w !! str_path (joinpath dir "support-end.timer")
    /\ (if can_open w (str_path (joinpath dir "support-end.service"))
        then opened w'
             = opened w ++ [str_path (joinpath dir "support-end.service")]
             /\ files w'
                = <[str_path (joinpath dir "support-end.service")
                    := concat_lines ["[Service]"; "ExecStart=" +:+ script_file]]>
                    (files w)
        else w' = w0).
Proof.
  intros Hnow Hno. destruct (today_inv _ _ _ Hnow) as (-> & _ & _).
  fold (service_path dir) in *. fold (timer_path dir) in *.
  destruct Hno as [Hs|(Hs & Hsw & Ht)]; rewrite Hs.
  - rewrite (generate_units_no_service script_file enddate dir w t0 Hnow Hs).
    eexists. repeat split.
  - rewrite (generate_units_no_timer script_file enddate dir w t0 Hnow Hs
               Hsw Ht).
    eexists. split; [reflexivity|].
    split; [reflexivity|]. split; [reflexivity|].
    assert (Hf : files (fprint (service_path dir) ("ExecStart=" +:+ script_file)
                   (fprint (service_path dir) "[Service]"
                     (truncate (service_path dir) (tick w))))
                 = <[service_path dir
                     := concat_lines ["[Service]"; "ExecStart=" +:+ script_file]]>
                     (files w)).
    { unfold tick, fprint, truncate, set_files. cbn [files].
      rewrite !lookup_insert_eq. cbn [default]. rewrite !insert_insert_eq.
      cbn [concat_lines]. now rewrite append_nil_l, append_nil_r. }
    split; [|split; [reflexivity|exact Hf]].
    rewrite Hf. apply lookup_insert_ne. apply path_names_differ.
Qed.

Lemma generate_units_unopenable_witness :
  let enddate := datetime_of_date 2025 6 1 in
  let dir := PosixPath "/no/such/dir" in
  let w := with_files (fun _ => false) (fun _ => true)
             (world_at (datetime_of_date 2025 5 1)) in
  exists w',
    generate_units "/usr/bin/support-end-notifier" enddate dir w
    = Some (Raise OSError, w')
    /\ ticks w' = S (ticks w)
    /\ stdout w' = stdout w
    /\ files w' !! str_path (joinpath dir "support-end.timer")
       = files w !! str_path (joinpath dir "support-end.timer")
    /\ w' = tick w.
Proof.
  intros enddate dir w.
  destruct (generate_units_unopenable "/usr/bin/support-end-notifier" enddate
              dir w (tick w) (datetime_of_date 2025 5 1))
    as (w' & Hg & Ht & Ho & Hf & Hw).
  - reflexivity.
  - left. reflexivity.
  - exists w'. repeat split; assumption.
Defined.

Example main_missing_directory :
  let w := with_files (fun _ => false) (fun _ => true)
             (world_at (datetime_of_date 2025 5 1)) in
  let args := {| normal_dir := Some (PosixPath "/no/such/dir");
                 early_dir := None; late_dir := None; notify := false |} in
  main "/usr/bin/support-end-notifier" (fun _ => EmptyString) args
    {[ SUPPORT_END := "2025-06-01"%string ]} Unreadable w
  = Some (Traceback OSError, tick w)
  /\ exit_status (Traceback OSError) = Some 1.
Proof. split; vm_compute; reflexivity. Qed.

(** X19: a unit file that is opened and does not take the text (no space
    left on the device, say): [generate_units] ends in [OSError] when the
    file is closed.  For the service file that is before the timer file is
    opened and before any directive is generated; for the timer file it is
    after all directives have been generated and printed, with the service
    file written in full. *)
Theorem generate_units_unwritable (script_file : string) (enddate : Z)
  (dir : Path) (w w0 w1 : World) (t0 t : Z) :
  today w = (Ok t0, w0) ->
  today w0 = (Ok t, w1) ->
  valid_datetime enddate ->
  can_open w (str_path (joinpath dir "support-end.service")) = true ->
  can_write w (str_path (joinpath dir "support-end.service")) = false
  \/ (can_write w (str_path (joinpath dir "support-end.service")) = true
      /\ can_open w (str_path (joinpath dir "support-end.timer")) = true
      /\ can_write w (str_path (joinpath dir "support-end.timer")) = false) ->
  exists w',
    generate_units script_file enddate dir w = Some (Raise OSError, w')
    /\ (if can_write w (str_path (joinpath dir "support-end.service"))
        then exists specs,
               list_of (generate_times enddate) w0
               = Some (Ok specs, GenFinished, w1)
               /\ ticks w' = S (S (ticks w))
               /\ stdout w' = stdout w ++ map got_spec specs
               /\ opened w'
                  = opened w
                    ++ [str_path (joinpath dir "support-end.service");
                        str_path (joinpath dir "support-end.timer")]
               /\ files w' !! str_path (joinpath dir "support-end.service")
                  = Some (concat_lines
                            ["[Service]"; "ExecStart=" +:+ script_file])
        else ticks w' = S (ticks w)
             /\ stdout w' = stdout w
             /\ opened w'
                = opened w ++ [str_path (joinpath dir "support-end.service")]).
Proof.
  intros Hnow0 Hnow [_ Hmax] Hso Hno.
  destruct (today_inv _ _ _ Hnow0) as (-> & _ & _).
  destruct (today_inv _ _ _ Hnow) as (-> & _ & _).
  fold (service_path dir) in *. fold (timer_path dir) in *.
  destruct Hno as [Hsw|(Hsw & Hto & Htw)]; rewrite Hsw.
  - destruct (generate_units_service_unwritable script_file enddate dir w t0
                Hnow0 Hso Hsw) as (w' & Hg & Ht & Ho & Hp).
    exists w'. repeat split; assumption.
  - destruct (generate_units_timer_unwritable script_file enddate dir w t0 t
                Hnow0 Hnow Hmax Hso Hsw Hto Htw)
      as (specs & w' & Hl & Hg & Ht & Ho & Hp & Hf).
    exists w'. split; [assumption|]. exists specs. repeat split; assumption.
Qed.

Lemma generate_units_unwritable_witness :
  let enddate := datetime_of_date 2025 6 1 in
  let dir := PosixPath "/run/systemd/generator" in
  let w := with_files (fun _ => true)
             (fun path => negb (String.eqb path (timer_path dir)))
             (world_at (at_time enddate 23 0 0)) in
  exists w',
    generate_units "/usr/bin/support-end-notifier" enddate dir w
    = Some (Raise OSError, w')
    /\ exists specs,
         list_of (generate_times enddate) (tick w)
         = Some (Ok specs, GenFinished, tick (tick w))
         /\ ticks w' = S (S (ticks w))
         /\ stdout w' = stdout w ++ map got_spec specs
         /\ opened w'
            = opened w
              ++ [str_path (joinpath dir "support-end.service");
                  str_path (joinpath dir "support-end.timer")]
         /\ files w' !! str_path (joinpath dir "support-end.service")
            = Some (concat_lines
                      ["[Service]";
                       "ExecStart=" +:+ "/usr/bin/support-end-notifier"]).
Proof.
  intros enddate dir w.
  apply (generate_units_unwritable "/usr/bin/support-end-notifier" enddate dir
           w (tick w) (tick (tick w)) (at_time enddate 23 0 0)
           (at_time enddate 23 0 0)).
  - reflexivity.
  - reflexivity.
  - unfold valid_datetime. vm_compute. split; discriminate.
  - reflexivity.
  - right. repeat split.
Defined.

Example main_no_space_left :
  let enddate := datetime_of_date 2025 6 1 in
  let dir := PosixPath "/run/systemd/generator" in
  let w := with_files (fun _ => true)
             (fun path => negb (String.eqb path (timer_path dir)))
             (world_at (at_time enddate 23 0 0)) in
  let args := {| normal_dir := Some dir; early_dir := None; late_dir := None;
                 notify := false |} in
  exists w',
    main "/usr/bin/support-end-notifier" (fun _ => EmptyString) args
      {[ SUPPORT_END := "2025-06-01"%string ]} Unreadable w
    = Some (Traceback OSError, w')
    /\ stdout w' = ["Got spec: OnActiveSec=60"%string].
Proof. eexists. split; vm_compute; reflexivity. Qed.

(** ** Where the unit files go *)

Lemma join_names_snoc (l : list string) (name : string) :
  l <> [] -> join_names (l ++ [name]) = join_names l +:+ "/" +:+ name.
Proof.
  induction l as [|a l IH]; [congruence|]. intros _.
  destruct l as [|b l]; [reflexivity|].
  change (join_names ((a :: b :: l) ++ [name]))
    with (a +:+ "/" +:+ join_names ((b :: l) ++ [name])).
  rewrite IH by discriminate.
  change (join_names (a :: b :: l)) with (a +:+ "/" +:+ join_names (b :: l)).
  now rewrite !append_assoc.
Qed.

(** X18: where the unit files go: the two files are [support-end.service]
    and [support-end.timer] below the directory as [pathlib] writes it:
    directly after the root when the directory is a root or the current
    directory, and after the directory and a slash otherwise; the two
    paths differ.  So the directory [.] gives [support-end.timer], [/]
    gives [/support-end.timer], and a slash at the end of the argument
    makes no difference. *)
Theorem unit_file_paths (dir : Path) :
  timer_path dir
  = match names dir with
    | [] => root dir +:+ "support-end.timer"
    | _ :: _ => str_path dir +:+ "/support-end.timer"
    end
  /\ service_path dir
     = match names dir with
       | [] => root dir +:+ "support-end.service"
       | _ :: _ => str_path dir +:+ "/support-end.service"
       end
  /\ service_path dir <> timer_path dir
  /\ timer_path (PosixPath ".") = "support-end.timer"%string
  /\ timer_path (PosixPath "/") = "/support-end.timer"%string
  /\ timer_path (PosixPath "/run/systemd/generator/")
     = "/run/systemd/generator/support-end.timer"%string
  /\ timer_path (PosixPath "units//./late")
     = "units/late/support-end.timer"%string.
Proof.
  assert (H : forall name,
             str_path (joinpath dir name)
             = match names dir with
               | [] => root dir +:+ name
               | _ :: _ => str_path dir +:+ "/" +:+ name
               end).
  { intros name. unfold str_path, joinpath. cbn [root names].
    destruct (names dir) as [|a l] eqn:E.
    - cbn [app join_names]. now destruct (root dir).
    - pose proof (join_names_snoc (a :: l) name ltac:(discriminate)) as Hj.
      cbn [app] in *. destruct (root dir); cbv iota; rewrite Hj;
        now rewrite ?append_assoc. }
  split; [apply H|]. split; [apply H|].
  split; [apply path_names_differ|].
  repeat split.
Qed.

Example posix_path_parts :
  PosixPath "/run/systemd/generator"
  = {| root := "/"; names := ["run"; "systemd"; "generator"]%string |}
  /\ PosixPath "//host/share" = {| root := "//"; names := ["host"; "share"]%string |}
  /\ PosixPath "///a" = {| root := "/"; names := ["a"%string] |}
  /\ PosixPath "a/../b" = {| root := EmptyString; names := ["a"; ".."; "b"]%string |}
  /\ str_path (PosixPath EmptyString) = "."%string.
Proof. repeat split. Qed.
